(** * chatguru-mcp: the request client, the phone normalizer and the scrape loops

    A shallow embedding of [index.js].  JavaScript strings are Rocq strings
    (the UTF-8 bytes of the text), JavaScript numbers that the program only
    uses as counters, statuses and limits are [nat] or [Z], the limit of the
    chat list, which the program compares and never truncates, is a rational
    [Q], and everything the program obtains from the outside (the network,
    the browser page) is an explicit input of the function that consumes
    it. *)

From Stdlib Require Import ZArith List String Ascii Bool Arith Lia Floats DecimalString.
From Stdlib Require Import QArith Qround Qminmax Lqa.
Close Scope Q_scope.
Import ListNotations.
Open Scope string_scope.

Set Warnings "-register-all".

(* ------------------------------------------------------------------------ *)
(** ** The JavaScript built-ins the program calls *)

Module Js.

(** [\d] of a regular expression without the [u] flag: the ten ASCII digits. *)
Definition isDigit (c : ascii) : bool :=
  let n := nat_of_ascii c in (48 <=? n)%nat && (n <=? 57)%nat.

(** [s.replace(/\D/g, "")] *)
Fixpoint replaceNonDigits (s : string) : string :=
  match s with
  | EmptyString => EmptyString
  | String c rest =>
      if isDigit c then String c (replaceNonDigits rest) else replaceNonDigits rest
  end.

(** [s.startsWith(p)] *)
Definition startsWith (s p : string) : bool := String.prefix p s.

(** [s.includes(needle)]: [needle] occurs at some position of [s]. *)
Fixpoint includes (s needle : string) : bool :=
  String.prefix needle s
  || match s with
     | EmptyString => false
     | String _ rest => includes rest needle
     end.

(** [s.endsWith(suffix)]: some tail of [s] is [suffix]. *)
Fixpoint endsWith (s suffix : string) : bool :=
  String.eqb s suffix
  || match s with
     | EmptyString => false
     | String _ rest => endsWith rest suffix
     end.

(** Template interpolation of a non-negative integer. *)
Definition natToString (n : nat) : string :=
  NilZero.string_of_uint (Nat.to_uint n).

(** Template interpolation of an integer. *)
Definition intToString (z : Z) : string :=
  NilZero.string_of_int (Z.to_int z).

(** [arr.slice(start)] with one argument: a negative [start] counts from the
    end, and both cases are clamped to the array. *)
Definition slice {A : Type} (arr : list A) (start : Z) : list A :=
  let len := Z.of_nat (List.length arr) in
  let k := if (start <? 0)%Z then Z.max (len + start) 0 else Z.min start len in
  skipn (Z.to_nat k) arr.

(** The white space and line terminators that [String.prototype.trim]
    removes, each as the UTF-8 bytes of its code point. *)
Definition bytes (l : list nat) : string :=
  string_of_list_ascii (map ascii_of_nat l).

Definition whiteSpace : list string :=
  map bytes
    [ [9]; [10]; [11]; [12]; [13]; [32];           (* TAB LF VT FF CR SP *)
      [194; 160];                                  (* U+00A0 *)
      [225; 154; 128];                             (* U+1680 *)
      [226; 128; 128]; [226; 128; 129]; [226; 128; 130]; [226; 128; 131];
      [226; 128; 132]; [226; 128; 133]; [226; 128; 134]; [226; 128; 135];
      [226; 128; 136]; [226; 128; 137]; [226; 128; 138];   (* U+2000..U+200A *)
      [226; 128; 168]; [226; 128; 169];            (* U+2028 U+2029 *)
      [226; 128; 175];                             (* U+202F *)
      [226; 129; 159];                             (* U+205F *)
      [227; 128; 128];                             (* U+3000 *)
      [239; 187; 191] ].                           (* U+FEFF *)

(** The first white-space sequence among [ws] that [s] starts with. *)
Fixpoint leadingSpace (ws : list string) (s : string) : option string :=
  match ws with
  | [] => None
  | w :: ws' => if String.prefix w s then Some w else leadingSpace ws' s
  end.

Definition dropBytes (n : nat) (s : string) : string :=
  String.substring n (String.length s - n) s.

(** Removes leading white space; [fuel] bounds the number of sequences. *)
Fixpoint trimStartFuel (fuel : nat) (s : string) : string :=
  match fuel with
  | O => s
  | S fuel' =>
      match leadingSpace whiteSpace s with
      | Some w => trimStartFuel fuel' (dropBytes (String.length w) s)
      | None => s
      end
  end.

Definition trimStart (s : string) : string := trimStartFuel (String.length s) s.

Definition reverse (s : string) : string :=
  string_of_list_ascii (rev (list_ascii_of_string s)).

(** The first white-space sequence among [ws] that [s] ends with, tested on
    the reversed string. *)
Fixpoint trailingSpace (ws : list string) (r : string) : option string :=
  match ws with
  | [] => None
  | w :: ws' => if String.prefix (reverse w) r then Some w else trailingSpace ws' r
  end.

Fixpoint trimEndFuel (fuel : nat) (r : string) : string :=
  match fuel with
  | O => r
  | S fuel' =>
      match trailingSpace whiteSpace r with
      | Some w => trimEndFuel fuel' (dropBytes (String.length w) r)
      | None => r
      end
  end.

Definition trimEnd (s : string) : string :=
  reverse (trimEndFuel (String.length s) (reverse s)).

(** [s.trim()] *)
Definition trim (s : string) : string := trimEnd (trimStart s).

(** A value decoded from a JSON body. *)
Inductive json : Type :=
| JNull
| JBool (b : bool)
| JNum (f : float)
| JStr (s : string)
| JArr (items : list json)
| JObj (fields : list (string * json)).

(** A JavaScript value read back from a decoded body: a JSON value or
    [undefined]. *)
Definition value : Type := option json.
Definition undefined : value := None.

(** ToBoolean *)
Definition truthy (v : value) : bool :=
  match v with
  | None => false
  | Some JNull => false
  | Some (JBool b) => b
  | Some (JNum f) => negb (PrimFloat.eqb f 0%float || negb (PrimFloat.eqb f f))
  | Some (JStr s) => negb (String.eqb s "")
  | Some (JArr _) => true
  | Some (JObj _) => true
  end.

(** [a || b] *)
Definition or (a b : value) : value := if truthy a then a else b.

(** The own property [key] of a decoded object; of the members that repeat
    a key the last one is kept, as [JSON.parse] does. *)
Fixpoint field (fields : list (string * json)) (key : string) : value :=
  match fields with
  | [] => undefined
  | (k, v) :: rest =>
      match field rest key with
      | Some later => Some later
      | None => if String.eqb k key then Some v else undefined
      end
  end.

(** [data.key] for one of the keys the program reads ([success], [error],
    [message]), none of which is a property of a primitive or an array:
    [None] is the TypeError of reading a property of [null]. *)
Definition getProp (data : json) (key : string) : option value :=
  match data with
  | JNull => None
  | JObj fields => Some (field fields key)
  | _ => Some undefined
  end.

(** [v === false] *)
Definition strictEqFalse (v : value) : bool :=
  match v with
  | Some (JBool false) => true
  | _ => false
  end.

End Js.

(* ------------------------------------------------------------------------ *)
(** ** Helpers of [index.js] *)

Definition RETRYABLE_STATUSES : list Z := [408; 429; 500; 502; 503; 504]%Z.

(** [RETRYABLE_STATUSES.includes(status)] *)
Definition isRetryable (status : Z) : bool :=
  existsb (Z.eqb status) RETRYABLE_STATUSES.

(** The [messages] table of [friendlyError]. *)
Definition messages (status : Z) : option string :=
  match status with
  | 401%Z => Some "Chave de API inválida. Verifique a variável CHATGURU_API_KEY."
  | 403%Z => Some "Sem permissão para acessar este recurso no ChatGuru."
  | 404%Z => Some "Recurso não encontrado no ChatGuru."
  | 429%Z => Some "Limite de requisições atingido. Tente novamente em alguns segundos."
  | 500%Z => Some "Erro interno do servidor ChatGuru. Tente novamente."
  | 502%Z => Some "ChatGuru temporariamente indisponível. Tente novamente."
  | 503%Z => Some "ChatGuru em manutenção. Tente novamente em instantes."
  | _ => None
  end.

(** [`Erro ${status} na API do ChatGuru.`] *)
Definition genericHttpMessage (status : Z) : string :=
  "Erro " ++ Js.intToString status ++ " na API do ChatGuru.".

(** [friendlyError(status, defaultMsg)]: every entry of the table is a
    non-empty string, so [messages[status] || ...] keeps it; an absent or
    empty [defaultMsg] falls through to the template. *)
Definition friendlyError (status : Z) (defaultMsg : option string) : string :=
  match messages status with
  | Some m => m
  | None =>
      match defaultMsg with
      | Some d => if String.eqb d "" then genericHttpMessage status else d
      | None => genericHttpMessage status
      end
  end.

Definition normalizePhone (input : string) : string :=
  let digits := Js.replaceNonDigits input in
  if Js.startsWith digits "55" && (12 <=? String.length digits)%nat then digits
  else if (10 <=? String.length digits)%nat && (String.length digits <=? 11)%nat
       then "55" ++ digits
       else digits.

Definition isLoginPage (url : string) : bool :=
  Js.includes url "login" || Js.includes url "signin" || Js.endsWith url "/".

(* ------------------------------------------------------------------------ *)
(** ** [chatguruRequest]: the request loop

    The query string and the form-encoded body are fixed before the loop and
    are the same for every attempt; what the loop reacts to is what each
    [fetch] yields, which is the input [network] below. *)

Module Request.

(** What [response.json()] settles to. *)
Inductive body : Type :=
| BodyJson (data : Js.json)
| BodyInvalid (reason : string).

(** What one [await fetch(url, ...)] settles to. *)
Inductive fetched : Type :=
| NetworkFailure (message : string)           (* the promise rejects with [err] *)
| Response (status : Z) (payload : body).

(** [response.ok] *)
Definition ok (status : Z) : bool := (200 <=? status)%Z && (status <=? 299)%Z.

(** What the loop does that can be observed from outside. *)
Inductive event : Type :=
| Fetch (attempt : nat)
| Log (line : string)                         (* [console.error] *)
| Sleep (ms : Z).

Inductive thrown : Type :=
| Error (message : Js.value)                  (* [throw new Error(message)] *)
| JsonRejected (reason : string)              (* [response.json()] rejected *)
| TypeErrorOnNull.                            (* [data.success] with [data] null *)

Inductive outcome : Type :=
| Fulfilled (result : Js.value)
| Rejected (e : thrown).

Inductive step : Type :=
| Continue
| Done (o : outcome).

(** [Math.min(1000 * Math.pow(2, attempt - 1), 8000)], for [attempt >= 1]. *)
Definition delay (attempt : nat) : Z :=
  Z.min (1000 * 2 ^ (Z.of_nat attempt - 1)) 8000.

Definition networkNotice (attempt retries : nat) (message : string) : string :=
  "[ChatGuru] Erro de rede (tentativa " ++ Js.natToString attempt ++ "/"
    ++ Js.natToString retries ++ "): " ++ message ++ ". Retry em "
    ++ Js.intToString (delay attempt) ++ "ms...".

Definition httpNotice (attempt retries : nat) (status : Z) : string :=
  "[ChatGuru] HTTP " ++ Js.intToString status ++ " (tentativa "
    ++ Js.natToString attempt ++ "/" ++ Js.natToString retries ++ "). Retry em "
    ++ Js.intToString (delay attempt) ++ "ms...".

Definition connectionError (retries : nat) (message : string) : string :=
  "Erro de conexão com ChatGuru após " ++ Js.natToString retries
    ++ " tentativas: " ++ message.

Definition unknownApiError : string := "Erro desconhecido na API do ChatGuru.".

(** [data.key] once [data] is known not to be null. *)
Definition prop (data : Js.json) (key : string) : Js.value :=
  match Js.getProp data key with
  | Some v => v
  | None => Js.undefined
  end.

(** [data.error || data.message || "Erro desconhecido na API do ChatGuru."] *)
Definition apiErrorMessage (data : Js.json) : Js.value :=
  Js.or (Js.or (prop data "error") (prop data "message"))
        (Some (Js.JStr unknownApiError)).

Section Loop.

Variable network : nat -> fetched.          (* what the attempt-th fetch yields *)
Variable retries : nat.

(** One pass through the body of the [for] loop. *)
Definition attemptOnce (attempt : nat) : list event * step :=
  match network attempt with
  | NetworkFailure message =>
      if (attempt <? retries)%nat
      then ([Fetch attempt; Log (networkNotice attempt retries message);
             Sleep (delay attempt)], Continue)
      else ([Fetch attempt],
            Done (Rejected (Error (Some (Js.JStr (connectionError retries message))))))
  | Response status payload =>
      if negb (ok status) && isRetryable status && (attempt <? retries)%nat
      then ([Fetch attempt; Log (httpNotice attempt retries status);
             Sleep (delay attempt)], Continue)
      else if negb (ok status)
      then ([Fetch attempt],
            Done (Rejected (Error (Some (Js.JStr (friendlyError status None))))))
      else
        match payload with
        | BodyInvalid reason => ([Fetch attempt], Done (Rejected (JsonRejected reason)))
        | BodyJson data =>
            match Js.getProp data "success" with
            | None => ([Fetch attempt], Done (Rejected TypeErrorOnNull))
            | Some flag =>
                if Js.strictEqFalse flag
                then ([Fetch attempt], Done (Rejected (Error (apiErrorMessage data))))
                else ([Fetch attempt], Done (Fulfilled (Some data)))
            end
        end
  end.

(** [for (let attempt = 1; attempt <= retries; attempt++)]: [remaining]
    is [retries + 1 - attempt], the number of passes the loop header still
    admits; when it is exhausted the function falls off its end. *)
Fixpoint attempts (remaining attempt : nat) : list event * outcome :=
  match remaining with
  | O => ([], Fulfilled Js.undefined)
  | S remaining' =>
      match attemptOnce attempt with
      | (evs, Done o) => (evs, o)
      | (evs, Continue) =>
          let (evs', o) := attempts remaining' (S attempt) in ((evs ++ evs')%list, o)
      end
  end.

Definition chatguruRequest : list event * outcome := attempts retries 1.

(** The notice logged when attempt [k] is retried. *)
Definition retryNotice (k : nat) : string :=
  match network k with
  | NetworkFailure message => networkNotice k retries message
  | Response status _ => httpNotice k retries status
  end.

(** What a retried attempt [k] leaves in the trace. *)
Definition retried (k : nat) : list event :=
  [Fetch k; Log (retryNotice k); Sleep (delay k)].

End Loop.

(** The attempts a trace contains, in order. *)
Definition fetches (evs : list event) : list nat :=
  flat_map (fun e => match e with Fetch k => [k] | _ => [] end) evs.

(** The pauses a trace contains, in order. *)
Definition sleeps (evs : list event) : list Z :=
  flat_map (fun e => match e with Sleep ms => [ms] | _ => [] end) evs.

(** A failure that the loop answers with another attempt while the budget
    lasts: the fetch itself failed, or the status is one of the retryable
    ones. *)
Definition retryableFailure (f : fetched) : Prop :=
  match f with
  | NetworkFailure _ => True
  | Response status _ => In status RETRYABLE_STATUSES
  end.

(** The error the last attempt of an exhausted budget is turned into. *)
Definition surfaced (retries : nat) (f : fetched) : string :=
  match f with
  | NetworkFailure message => connectionError retries message
  | Response status _ => friendlyError status None
  end.

(** [status] is one the loop retries: an attempt that meets it while the
    budget lasts goes on to the next attempt. *)
Definition retriedStatus (status : Z) : Prop :=
  forall (network : nat -> fetched) (retries k : nat) (payload : body),
    k < retries ->
    network k = Response status payload ->
    snd (attemptOnce network retries k) = Continue.

End Request.

(* ------------------------------------------------------------------------ *)
(** ** The scrape operations

    The browser is outside the program: what the page shows at each point
    where the program looks at it is an input, and what the program does to
    the page is recorded as a trace.  Of the Playwright calls only
    [page.goto] is given a failing outcome; the others are taken to settle. *)

Module Browser.

Inductive action : Type :=
| Goto (url : string)
| Pause (ms : Z)                               (* [sleep] or a timed promise *)
| WaitForSelector (selector : string)
| RemoveOverlays                               (* the modal and backdrop clean-up *)
| Wheel                                        (* [mouse.move] and [mouse.wheel(0, -3000)] *)
| ScrollToBottom                               (* [container.scrollTop = container.scrollHeight] *)
| Fill (selector text : string)                (* [fill] followed by Enter *)
| SelectOption (selector option : string)
| Click (selector : string)
| ClickDepartment (name : string)              (* the label scan for a department *)
| ExtractRecords                               (* the extraction script runs *)
| Close.

(** The number of pauses of [ms] milliseconds in a trace. *)
Definition pauses (ms : Z) (trace : list action) : nat :=
  List.length (filter (fun a => match a with Pause d => (d =? ms)%Z | _ => false end) trace).


(** What a tool hands back: a fixed sentence, or a sentence (possibly empty)
    followed by the records serialized by [JSON.stringify]. *)
Inductive reply (record : Type) : Type :=
| Text (text : string)
| Records (summary : string) (records : list record).

Arguments Text {record} text.
Arguments Records {record} summary records.

Section Session.

Variable SERVER : string.                    (* [process.env.CHATGURU_SERVER] *)

Definition panelUrl : string := "https://s" ++ SERVER ++ ".expertintegrado.app/chats".

Definition sessionNotFound : string :=
  "Sessão não encontrada. Execute `CHATGURU_SERVER=" ++ SERVER
    ++ " node login.js` para fazer login.".

Definition sessionExpired : string :=
  "Sessão expirada. Execute `CHATGURU_SERVER=" ++ SERVER
    ++ " node login.js` para renovar.".

End Session.

End Browser.

(** *** [chatguru_read_messages] *)

Module ReadMessages.
Import Browser.

Inductive sender : Type := atendente | cliente.

Record ChatMessage : Type := {
  remetente : sender;
  horario : string;
  data : string;
  texto : string
}.

(** What the extraction script reads of a [.msg-container]. *)
Record msgContainer : Type := {
  bgSentMsg : bool;                 (* [classList.contains("bg-sent-msg")] *)
  msgContentT : option string;      (* [innerText] of [span.msg-contentT], when there is one *)
  audio : bool;                     (* [querySelector("audio")] finds an element *)
  msgTimestamp : option string      (* [textContent] of [span.msg-timestamp], when there is one *)
}.

(** What the extraction script reads of a child of the message list. *)
Record child : Type := {
  msgData : bool;                   (* [classList.contains("msg-data")] *)
  rowMsg : bool;                    (* [classList.contains("row_msg")] *)
  textContent : string;
  container : option msgContainer   (* [child.querySelector(".msg-container")] *)
}.

(** [el?.innerText?.trim() || ""] and [el?.textContent?.trim() || ""] *)
Definition trimmedOrEmpty (text : option string) : string :=
  match text with
  | Some t => Js.trim t
  | None => ""
  end.

Definition audioPlaceholder : string := "[Áudio]".

(** The body of the extraction loop, from top to bottom of the list;
    each [Some] is one [allMsgs.push]. *)
Definition readRow (currentDate : string) (m : msgContainer) : option ChatMessage :=
  let remetente := if bgSentMsg m then atendente else cliente in
  let texto := trimmedOrEmpty (msgContentT m) in
  if String.eqb texto ""
  then
    if audio m
    then Some {| remetente := remetente; horario := trimmedOrEmpty (msgTimestamp m);
                 data := currentDate; texto := audioPlaceholder |}
    else None
  else Some {| remetente := remetente; horario := trimmedOrEmpty (msgTimestamp m);
               data := currentDate; texto := texto |}.

Fixpoint collect (currentDate : string) (children : list child) : list ChatMessage :=
  match children with
  | [] => []
  | c :: rest =>
      if msgData c then collect (Js.trim (textContent c)) rest
      else if negb (rowMsg c) then collect currentDate rest
      else
        match container c with
        | None => collect currentDate rest
        | Some m =>
            match readRow currentDate m with
            | Some message => message :: collect currentDate rest
            | None => collect currentDate rest
            end
        end
  end.

(** The extraction script: [rendered] is the children of
    [#chat_messages_app > div], or [None] when that element is missing. *)
Definition extractMessages (rendered : option (list child)) (maxMessages : Z)
  : list ChatMessage :=
  match rendered with
  | None => []
  | Some children => Js.slice (collect "" children) (- maxMessages)
  end.

(** The scroll-up loop.  [rowCount i] is the number of [.row_msg] elements
    the pass with [scrollAttempt = i] counts, [chatBox i] tells whether that
    pass finds [#chat_messages_app] with a bounding box; [remaining] is
    [10 - scrollAttempt]. *)
Fixpoint scrollUp (rowCount : nat -> nat) (chatBox : nat -> bool) (limit : Z)
         (remaining scrollAttempt msgCountBefore : nat) : list action :=
  match remaining with
  | O => []
  | S remaining' =>
      let currentCount := rowCount scrollAttempt in
      if (Z.of_nat currentCount >=? limit)%Z then []
      else if (currentCount =? msgCountBefore)%nat && (1 <? scrollAttempt)%nat then []
      else
        ((RemoveOverlays :: (if chatBox scrollAttempt then [Wheel] else []) ++ [Pause 2500])
           ++ scrollUp rowCount chatBox limit remaining' (S scrollAttempt) currentCount)%list
  end.

(** The page as the operation meets it. *)
Record page : Type := {
  sessionFile : bool;                (* [existsSync(SESSION_PATH)] *)
  gotoError : option string;         (* the message [page.goto] rejects with, if it does *)
  url : string;                      (* [page.url()] after the navigation *)
  rowCount : nat -> nat;
  chatBox : nat -> bool;
  messageList : option (list child)
}.

Section Tool.

Variable SERVER : string.

Definition chatUrl (chat_id : string) : string := panelUrl SERVER ++ "#" ++ chat_id.

Definition noMessages (chat_id : string) : string :=
  "Nenhuma mensagem encontrada no chat " ++ chat_id
    ++ ". O chat pode estar vazio ou a estrutura da página mudou.".

Definition readError (message : string) : string :=
  "Erro ao ler mensagens: " ++ message.

Definition chatguru_read_messages (p : page) (chat_id : string) (limit : Z)
  : list action * reply ChatMessage :=
  if negb (sessionFile p) then ([], Text (sessionNotFound SERVER))
  else
    match gotoError p with
    | Some message => ([Goto (chatUrl chat_id); Close], Text (readError message))
    | None =>
        let arrived := [Goto (chatUrl chat_id); Pause 5000] in
        if isLoginPage (url p)
        then ((arrived ++ [Close])%list, Text (sessionExpired SERVER))
        else
          let scrolled := scrollUp (rowCount p) (chatBox p) limit 10 0 0 in
          let messages := extractMessages (messageList p) limit in
          let trace :=
            (arrived ++ [WaitForSelector "#chat_messages_app"; Pause 2000; RemoveOverlays]
               ++ scrolled ++ [ExtractRecords; Close])%list in
          match messages with
          | [] => (trace, Text (noMessages chat_id))
          | _ :: _ => (trace, Records "" messages)
          end
    end.

End Tool.

End ReadMessages.


(** *** [chatguru_list_chats] *)

Module ListChats.
Import Browser.

Record ChatSummary : Type := {
  contact_name : string;
  status : string;
  last_message : string;
  timestamp : string;
  unread_count : Z;
  chat_id : string
}.

(** What the extraction script reads of a [.list__user-card]. *)
Record card : Type := {
  userName : option string;            (* [textContent] of [.user-name] *)
  userMsg : option (string * string);  (* [title] and [textContent] of [.user-msg span[title]] *)
  attendanceStatus : option string;    (* [textContent] of [span.attendance__status] *)
  attendanceNumber : option string;    (* [textContent] of [span.attendance__number] *)
  attendanceHour : option string;      (* [textContent] of [.attendance__hour span] *)
  dataId : option string;              (* [getAttribute("data-id")] *)
  dataChatId : option string;          (* [getAttribute("data-chat-id")] *)
  dataChat : option string;            (* [getAttribute("data-chat")] *)
  vueChatId : string                   (* the first truthy identifier of [card.__vue__], else empty *)
}.

(** [a || b] on a string that may be missing *)
Definition orElse (a : option string) (b : string) : string :=
  match a with
  | Some s => if String.eqb s "" then b else s
  | None => b
  end.

Definition trimmedOrEmpty (text : option string) : string :=
  match text with
  | Some t => Js.trim t
  | None => ""
  end.

(** The value of the longest run of decimal digits that [s] starts with;
    [None] when it starts with none. *)
Fixpoint leadingDigits (acc : option Z) (s : string) : option Z :=
  match s with
  | EmptyString => acc
  | String c rest =>
      if Js.isDigit c
      then leadingDigits
             (Some (10 * match acc with Some a => a | None => 0 end
                    + Z.of_nat (nat_of_ascii c - 48))%Z) rest
      else acc
  end.

(** [parseInt(s, 10) || 0] *)
Definition parseIntOrZero (s : string) : Z :=
  let s := Js.trimStart s in
  match s with
  | String "-" rest =>
      match leadingDigits None rest with Some n => (- n)%Z | None => 0%Z end
  | String "+" rest =>
      match leadingDigits None rest with Some n => n | None => 0%Z end
  | _ =>
      match leadingDigits None s with Some n => n | None => 0%Z end
  end.

(** One pass of the extraction loop after its [break] test. *)
Definition readCard (c : card) : ChatSummary :=
  let chatStatus := trimmedOrEmpty (attendanceStatus c) in
  let chatId := orElse (dataId c) (orElse (dataChatId c) (orElse (dataChat c) "")) in
  {| contact_name := trimmedOrEmpty (userName c);
     status := if String.eqb chatStatus "EM ATENDI" then "EM ATENDIMENTO" else chatStatus;
     last_message :=
       match userMsg c with
       | Some (title, text) => if String.eqb title "" then Js.trim text else title
       | None => ""
       end;
     timestamp := trimmedOrEmpty (attendanceHour c);
     unread_count :=
       match attendanceNumber c with
       | Some text => parseIntOrZero (Js.trim text)
       | None => 0%Z
       end;
     chat_id := if String.eqb chatId "" then vueChatId c else chatId |}.

(** A count, as the number it is compared with. *)
Definition number (n : nat) : Q := inject_Z (Z.of_nat n).

(** [n >= x] for a count [n] and a number [x] *)
Definition reaches (n : nat) (x : Q) : bool := Qle_bool x (number n).

(** [for (const card of cards) { if (result.length >= maxChats) break; ... result.push(...) }] *)
Fixpoint extractLoop (maxChats : Q) (cards : list card) (result : list ChatSummary)
  : list ChatSummary :=
  match cards with
  | [] => result
  | c :: rest =>
      if reaches (List.length result) maxChats then result
      else extractLoop maxChats rest (result ++ [readCard c])%list
  end.

Definition extractChats (cards : list card) (maxChats : Q) : list ChatSummary :=
  extractLoop maxChats cards [].

(** The scroll-down loop.  [cardCount i] is the number of [.list__user-card]
    elements the pass with index [i] counts; [remaining] is [10 - i]. *)
Fixpoint scrollDown (cardCount : nat -> nat) (targetCount : Q)
         (remaining i prevCount : nat) : list action :=
  match remaining with
  | O => []
  | S remaining' =>
      let cards := cardCount i in
      if reaches cards targetCount || (cards =? prevCount)%nat then []
      else ([ScrollToBottom; Pause 800]
              ++ scrollDown cardCount targetCount remaining' (S i) cards)%list
  end.

(** The page as the operation meets it. *)
Record page : Type := {
  sessionFile : bool;
  gotoError : option string;
  url : string;
  nameInput : bool;                    (* [#inChatsName] is found *)
  phoneInput : bool;                   (* [#inChatsWhatsappNum] is found *)
  unreadCheckbox : bool;
  archivedCheckbox : bool;
  favoritedCheckbox : bool;
  listContainer : bool;                (* one of the three list selectors is found *)
  cardCount : nat -> nat;
  cards : list card                    (* the cards in the document at extraction *)
}.

Record arguments : Type := {
  arg_status : option string;
  unread_only : bool;
  archived : bool;
  favorited : bool;
  order_by : option string;
  department : option string;
  name : option string;
  whatsapp_number : option string;
  limit : Q                            (* [z.number()]: any finite number, whole or not *)
}.

(** [Math.min(limit, 100)] *)
Definition effectiveLimit (limit : Q) : Q := Qmin limit 100.

(** [if (x)] on an optional string argument *)
Definition given (x : option string) : option string :=
  match x with
  | Some s => if String.eqb s "" then None else Some s
  | None => None
  end.

Definition dquote : string := String (ascii_of_nat 34) EmptyString.

Fixpoint join (sep : string) (parts : list string) : string :=
  match parts with
  | [] => ""
  | [x] => x
  | x :: rest => x ++ sep ++ join sep rest
  end.

Definition whenGiven {A : Type} (x : option string) (f : string -> list A) : list A :=
  match given x with
  | Some s => f s
  | None => []
  end.

Definition applyFilters (p : page) (a : arguments) : list action :=
  List.concat
    [ whenGiven (name a) (fun n =>
        if nameInput p then [Fill "#inChatsName" n; Pause 2000] else []);
      whenGiven (whatsapp_number a) (fun w =>
        if phoneInput p
        then [Fill "#inChatsWhatsappNum" (normalizePhone w); Pause 2000] else []);
      whenGiven (arg_status a) (fun s => [SelectOption "#selChatsStatus" s; Pause 2000]);
      whenGiven (order_by a) (fun o => [SelectOption "#selChatsOrder" o; Pause 2000]);
      if unread_only a && unreadCheckbox p
      then [Click ".list__single__filter.unread input[type='checkbox']"; Pause 2000] else [];
      if archived a && archivedCheckbox p
      then [Click ".list__single__filter.archived input[type='checkbox']"; Pause 2000] else [];
      if favorited a && favoritedCheckbox p
      then [Click ".list__single__filter.favorited input[type='checkbox']"; Pause 2000] else [];
      whenGiven (department a) (fun d => [ClickDepartment d; Pause 2000]);
      [Pause 1000] ].

Definition quoted (s : string) : string := dquote ++ s ++ dquote.

Definition filtersApplied (a : arguments) : list string :=
  List.concat
    [ whenGiven (arg_status a) (fun s => ["status=" ++ s]);
      whenGiven (name a) (fun n => ["nome=" ++ quoted n]);
      whenGiven (whatsapp_number a) (fun w => ["numero=" ++ w]);
      if unread_only a then ["apenas_nao_lidas"] else [];
      if archived a then ["arquivados"] else [];
      if favorited a then ["favoritos"] else [];
      whenGiven (department a) (fun d => ["departamento=" ++ quoted d]);
      whenGiven (order_by a) (fun o => ["ordenacao=" ++ o]) ].

Definition summary (a : arguments) (chats : list ChatSummary) : string :=
  "Encontrados " ++ Js.natToString (List.length chats) ++ " chat(s)"
    ++ match filtersApplied a with
       | [] => ""
       | applied => " (filtros: " ++ join ", " applied ++ ")"
       end
    ++ ".".

Definition noChats : string := "Nenhum chat encontrado com os filtros aplicados.".

Definition listError (message : string) : string := "Erro ao listar chats: " ++ message.

Section Tool.

Variable SERVER : string.

Definition chatguru_list_chats (p : page) (a : arguments)
  : list action * reply ChatSummary :=
  let effective := effectiveLimit (limit a) in
  if negb (sessionFile p) then ([], Text (sessionNotFound SERVER))
  else
    match gotoError p with
    | Some message => ([Goto (panelUrl SERVER); Close], Text (listError message))
    | None =>
        let arrived := [Goto (panelUrl SERVER); Pause 5000] in
        if isLoginPage (url p)
        then ((arrived ++ [Close])%list, Text (sessionExpired SERVER))
        else
          let scrolled :=
            if listContainer p then scrollDown (cardCount p) effective 10 0 0 else [] in
          let chats := extractChats (cards p) effective in
          let trace :=
            (arrived ++ [RemoveOverlays] ++ applyFilters p a ++ scrolled
               ++ [Pause 1000; ExtractRecords; Close])%list in
          match chats with
          | [] => (trace, Text noChats)
          | _ :: _ => (trace, Records (summary a chats ++ Js.bytes [10; 10]) chats)
          end
    end.

End Tool.

End ListChats.

(* ------------------------------------------------------------------------ *)
(** ** The wording of the description, for comparison with the code *)

Module Described.

(** The digits of [input], in order, and nothing else. *)
Definition digitsOf (input : string) : string :=
  string_of_list_ascii (filter Js.isDigit (list_ascii_of_string input)).

(** [s] begins with the country prefix. *)
Definition hasCountryPrefix (s : string) : Prop := exists rest, s = "55" ++ rest.







End Described.

(** ** How many passes of a scroll loop scroll, and when a loop stops *)

Module Scroll.

(** The passes of the scroll-up loop that went on to scroll. *)
Definition passesUp (rowCount : nat -> nat) (chatBox : nat -> bool) (limit : Z) : nat :=
  Browser.pauses 2500 (ReadMessages.scrollUp rowCount chatBox limit 10 0 0).

(** The passes of the scroll-down loop that went on to scroll. *)
Definition passesDown (cardCount : nat -> nat) (targetCount : Q) : nat :=
  Browser.pauses 800 (ListChats.scrollDown cardCount targetCount 10 0 0).

(** The count recorded by the pass before pass [i]; before the first one both
    loops start from 0. *)
Definition previous (count : nat -> nat) (i : nat) : nat :=
  match i with
  | O => 0
  | S j => count j
  end.

(** The two [break] tests of the scroll-up loop at pass [i]. *)
Definition stopsUp (rowCount : nat -> nat) (limit : Z) (i : nat) : bool :=
  (Z.of_nat (rowCount i) >=? limit)%Z
  || ((rowCount i =? previous rowCount i)%nat && (1 <? i)%nat).

(** The [break] test of the scroll-down loop at pass [i]. *)
Definition stopsDown (cardCount : nat -> nat) (targetCount : Q) (i : nat) : bool :=
  Qle_bool targetCount (inject_Z (Z.of_nat (cardCount i)))
  || (cardCount i =? previous cardCount i)%nat.

(** A loop that scrolled in [passes] passes stopped exactly by the rule
    [stop]: it never goes beyond ten passes, [stop] held at none of the passes
    that scrolled, and, when fewer than ten scrolled, [stop] held at the pass
    that came next. *)
Definition stoppedBy (passes : nat) (stop : nat -> bool) : Prop :=
  passes <= 10
  /\ (forall j, j < passes -> stop j = false)
  /\ (passes < 10 -> stop passes = true).

End Scroll.


(* ------------------------------------------------------------------------ *)
(** ** Measures of strings and traces used in the statements below *)

From Stdlib Require Import DecimalNat.

Module Measure.

(** Every character of [s] satisfies [p]. *)
Fixpoint every (p : ascii -> bool) (s : string) : bool :=
  match s with
  | EmptyString => true
  | String c rest => p c && every p rest
  end.

(** The time a run of the request loop spends sleeping. *)
Definition totalSleep (evs : list Request.event) : Z :=
  fold_right Z.add 0%Z (Request.sleeps evs).

(** The time a scrape operation spends in its pauses. *)
Definition totalPause (trace : list Browser.action) : Z :=
  fold_right Z.add 0%Z
    (flat_map (fun a => match a with Browser.Pause ms => [ms] | _ => [] end) trace).

(** How often a trace closes the browser. *)
Definition closes (trace : list Browser.action) : nat :=
  List.length
    (filter (fun a => match a with Browser.Close => true | _ => false end) trace).

End Measure.

(** *** [chatguru_get_chat_link] *)

Module GetChatLink.
Import Browser.

(** [a-f0-9] *)
Definition isHex (c : ascii) : bool :=
  let n := nat_of_ascii c in
  ((48 <=? n)%nat && (n <=? 57)%nat) || ((97 <=? n)%nat && (n <=? 102)%nat).

(** The [n] characters [s] starts with, when there are [n] and all are
    hexadecimal. *)
Fixpoint takeHex (n : nat) (s : string) : option string :=
  match n with
  | O => Some EmptyString
  | S n' =>
      match s with
      | EmptyString => None
      | String c rest =>
          if isHex c then option_map (String c) (takeHex n' rest) else None
      end
  end.

(** [url.match(/#([a-f0-9]{24})/)]: the capture of the leftmost match. *)
Fixpoint hashMatch (url : string) : option string :=
  match url with
  | EmptyString => None
  | String c rest =>
      if Ascii.eqb c "#"
      then match takeHex 24 rest with
           | Some chatId => Some chatId
           | None => hashMatch rest
           end
      else hashMatch rest
  end.

Definition newline : string := String (ascii_of_nat 10) EmptyString.

(** The page as the operation meets it.  Of the calls inside [try], the
    navigation and the wait for the phone input are the two taken as able to
    reject. *)
Record page : Type := {
  sessionFile : bool;
  gotoError : option string;
  url : string;                        (* [page.url()] after the navigation *)
  phoneInputError : option string;     (* the message [waitForSelector] rejects with, if it does *)
  firstCard : bool;                    (* [page.$(".list__user-card")] finds a card *)
  urlAfterClick : string               (* [page.url()] after the click on the card *)
}.

Section Tool.

Variable SERVER : string.

Definition searchError (message : string) : string := "Erro ao buscar chat: " ++ message.

Definition notFound (number : string) : string :=
  "Nenhum chat encontrado para o número " ++ number
    ++ ". O contato pode não existir no ChatGuru.".

Definition found (chatId : string) : string :=
  "Chat encontrado!" ++ newline ++ "chat_id: " ++ chatId ++ newline
    ++ "Link: " ++ panelUrl SERVER ++ "#" ++ chatId.

Definition foundWithoutId (currentUrl : string) : string :=
  "Chat encontrado mas não foi possível extrair o ID da URL: " ++ currentUrl
    ++ newline ++ "Tente abrir manualmente no painel.".

Definition chatguru_get_chat_link (p : page) (chat_number : string)
  : list action * string :=
  let number := normalizePhone chat_number in
  if negb (sessionFile p) then ([], sessionNotFound SERVER)
  else
    match gotoError p with
    | Some message => ([Goto (panelUrl SERVER); Close], searchError message)
    | None =>
        let arrived := [Goto (panelUrl SERVER); Pause 5000] in
        if isLoginPage (url p)
        then ((arrived ++ [Close])%list, sessionExpired SERVER)
        else
          match phoneInputError p with
          | Some message =>
              ((arrived ++ [WaitForSelector "#inChatsWhatsappNum"; Close])%list,
               searchError message)
          | None =>
              let searched :=
                (arrived ++ [WaitForSelector "#inChatsWhatsappNum";
                             Fill "#inChatsWhatsappNum" number; Pause 3000])%list in
              if negb (firstCard p)
              then ((searched ++ [Close])%list, notFound number)
              else
                let opened :=
                  (searched ++ [Click ".list__user-card"; Pause 2000; Close])%list in
                match hashMatch (urlAfterClick p) with
                | Some chatId => (opened, found chatId)
                | None => (opened, foundWithoutId (urlAfterClick p))
                end
          end
    end.

End Tool.

End GetChatLink.

(* ------------------------------------------------------------------------ *)
(** ** The set-up script

    Its helpers read the command line and the [.env] file with two regular
    expressions.  Both are written out below as the functions they compute:
    where the character classes that follow one another are disjoint the
    greedy match is the only one, and where they overlap (white space around
    the value of a [.env] line) the candidates are tried in the order in which
    a backtracking matcher tries them, longest first. *)

Module Setup.

(** The line terminators, which [.] does not match. *)
Definition lineTerminators : list string :=
  map Js.bytes [ [10]; [13]; [226; 128; 168]; [226; 128; 169] ].

(** [.+] up to the end of what is matched: [s] is not empty and holds no
    line terminator. *)
Definition dotPlus (s : string) : bool :=
  negb (String.eqb s "") && forallb (fun t => negb (Js.includes s t)) lineTerminators.

(** [\s*] up to the end of what is matched: [s] is white space only. *)
Definition allSpace (s : string) : bool := String.eqb (Js.trimStart s) "".

(** The longest prefix of [s] whose characters satisfy [p], and what follows
    it. *)
Fixpoint span (p : ascii -> bool) (s : string) : string * string :=
  match s with
  | EmptyString => (EmptyString, EmptyString)
  | String c rest =>
      if p c
      then let (taken, others) := span p rest in (String c taken, others)
      else (EmptyString, s)
  end.

(** [a-z-] *)
Definition isArgKeyChar (c : ascii) : bool :=
  let n := nat_of_ascii c in ((97 <=? n)%nat && (n <=? 122)%nat) || (n =? 45)%nat.

(** [A-Z_] *)
Definition isEnvKeyChar (c : ascii) : bool :=
  let n := nat_of_ascii c in ((65 <=? n)%nat && (n <=? 90)%nat) || (n =? 95)%nat.

(** [arg.match(/^--([a-z-]+)=(.+)$/)]: the two captures. *)
Definition matchArg (arg : string) : option (string * string) :=
  match arg with
  | String c1 (String c2 rest) =>
      if Ascii.eqb c1 "-" && Ascii.eqb c2 "-"
      then
        match span isArgKeyChar rest with
        | (String k key, String e value) =>
            if Ascii.eqb e "=" && dotPlus value
            then Some (String k key, value) else None
        | _ => None
        end
      else None
  | _ => None
  end.

(** An object whose keys are plain names, as the list of its properties in
    the order in which they were first set. *)
Definition object : Type := list (string * string).

(** [obj[key] = value] *)
Fixpoint assign (obj : object) (key value : string) : object :=
  match obj with
  | [] => [(key, value)]
  | (k, v) :: rest =>
      if String.eqb k key then (key, value) :: rest
      else (k, v) :: assign rest key value
  end.

(** [obj[key]] *)
Fixpoint get (obj : object) (key : string) : option string :=
  match obj with
  | [] => None
  | (k, v) :: rest => if String.eqb k key then Some v else get rest key
  end.

(** [parseArgs()], given [process.argv.slice(2)]. *)
Definition parseArgs (argv : list string) : object :=
  fold_left (fun args arg =>
               match matchArg arg with
               | Some (key, value) => assign args key value
               | None => args
               end) argv [].

(** [content.split("\n")] *)
Fixpoint splitLines (content : string) : list string :=
  match content with
  | EmptyString => [EmptyString]
  | String c rest =>
      if Ascii.eqb c (ascii_of_nat 10) then EmptyString :: splitLines rest
      else match splitLines rest with
           | [] => [String c EmptyString]
           | line :: lines => String c line :: lines
           end
  end.

(** What is left of [s] after each number of leading white-space characters
    that [\s*] can take, fewest first. *)
Fixpoint afterSpaces (fuel : nat) (s : string) : list string :=
  s :: match fuel with
       | O => []
       | S fuel' =>
           match Js.leadingSpace Js.whiteSpace s with
           | Some w => afterSpaces fuel' (Js.dropBytes (String.length w) s)
           | None => []
           end
       end.

(** [(.+)\s*$] against [r]: the longest prefix of at most [q] bytes that
    [.+] matches and that only white space follows. *)
Fixpoint valueUpTo (q : nat) (r : string) : option string :=
  match q with
  | O => None
  | S q' =>
      let v := String.substring 0 q r in
      if dotPlus v && allSpace (Js.dropBytes q r) then Some v else valueUpTo q' r
  end.

Fixpoint firstSome {A B : Type} (f : A -> option B) (l : list A) : option B :=
  match l with
  | [] => None
  | x :: rest => match f x with Some y => Some y | None => firstSome f rest end
  end.

(** [\s*(.+)\s*$] against what follows the equals sign: the capture. *)
Definition matchEnvValue (r : string) : option string :=
  firstSome (fun r' => valueUpTo (String.length r') r')
            (rev (afterSpaces (String.length r) r)).

(** [line.match(/^\s*([A-Z_]+)\s*=\s*(.+)\s*$/)]: the two captures. *)
Definition matchEnvLine (line : string) : option (string * string) :=
  match span isEnvKeyChar (Js.trimStart line) with
  | (String k key, others) =>
      match Js.trimStart others with
      | String e r =>
          if Ascii.eqb e "="
          then option_map (pair (String k key)) (matchEnvValue r)
          else None
      | EmptyString => None
      end
  | (EmptyString, _) => None
  end.

(** [readEnvFile()], given the content of [.env] when the file exists. *)
Definition readEnvFile (file : option string) : object :=
  match file with
  | None => []
  | Some content =>
      fold_left (fun env line =>
                   match matchEnvLine line with
                   | Some (key, value) => assign env key value
                   | None => env
                   end) (splitLines content) []
  end.

Definition newline : string := String (ascii_of_nat 10) EmptyString.

(** The content the script writes to [.env]. *)
Definition envContent (apiKey accountId phoneId server : string) : string :=
  "CHATGURU_API_KEY=" ++ apiKey ++ newline
    ++ "CHATGURU_ACCOUNT_ID=" ++ accountId ++ newline
    ++ "CHATGURU_PHONE_ID=" ++ phoneId ++ newline
    ++ "CHATGURU_SERVER=" ++ server ++ newline.

(** [a || b || c] on strings that may be missing. *)
Definition firstTruthy (a b : option string) (c : string) : string :=
  match a with
  | Some s => if String.eqb s "" then ListChats.orElse b c else s
  | None => ListChats.orElse b c
  end.

(** The four credentials before any question is asked: the command line
    first, then [.env], then the default. *)
Definition credentials (cliArgs envFile : object) : string * string * string * string :=
  (firstTruthy (get cliArgs "api-key") (get envFile "CHATGURU_API_KEY") "",
   firstTruthy (get cliArgs "account-id") (get envFile "CHATGURU_ACCOUNT_ID") "",
   firstTruthy (get cliArgs "phone-id") (get envFile "CHATGURU_PHONE_ID") "",
   firstTruthy (get cliArgs "server") (get envFile "CHATGURU_SERVER") "17").

(** [needsInput]: one of the three credentials without a default is still
    missing. *)
Definition needsInput (cliArgs envFile : object) : bool :=
  let '(apiKey, accountId, phoneId, _) := credentials cliArgs envFile in
  String.eqb apiKey "" || String.eqb accountId "" || String.eqb phoneId "".

(** [ask(rl, question, defaultValue)], given the line typed in answer:
    [answer.trim() || defaultValue || ""]. *)
Definition ask (answer : string) (defaultValue : option string) : string :=
  firstTruthy (Some (Js.trim answer)) defaultValue "".

(** The four credentials the script goes on with, [None] where it exits
    because one of them is empty.  [typed question] is the line typed in
    answer to [question]; every question that is asked is taken to be
    answered. *)
Definition resolved (cliArgs envFile : object) (typed : string -> string)
  : option (string * string * string * string) :=
  let '(apiKey, accountId, phoneId, server) := credentials cliArgs envFile in
  let '(apiKey, accountId, phoneId, server) :=
    if needsInput cliArgs envFile
    then (if String.eqb apiKey "" then ask (typed "CHATGURU_API_KEY") None else apiKey,
          if String.eqb accountId "" then ask (typed "CHATGURU_ACCOUNT_ID") None
          else accountId,
          if String.eqb phoneId "" then ask (typed "CHATGURU_PHONE_ID") None else phoneId,
          ask (typed "CHATGURU_SERVER") (Some server))
    else (apiKey, accountId, phoneId, server) in
  if String.eqb apiKey "" || String.eqb accountId "" || String.eqb phoneId ""
     || String.eqb server ""
  then None
  else Some (apiKey, accountId, phoneId, server).

End Setup.

(** *** [registerMcp] *)

Module Register.

(** The properties of an object as a list; should a key repeat, the last
    entry is the property (as [Js.field] reads it), and an assignment
    overwrites the key wherever it stands, or adds it at the end. *)
Fixpoint hasField (fields : list (string * Js.json)) (key : string) : bool :=
  match fields with
  | [] => false
  | (k, _) :: rest => String.eqb k key || hasField rest key
  end.

Definition overwrite (fields : list (string * Js.json)) (key : string) (v : Js.json)
  : list (string * Js.json) :=
  map (fun kv => if String.eqb (fst kv) key then (fst kv, v) else kv) fields.

(** [obj[key] = v] *)
Definition setField (fields : list (string * Js.json)) (key : string) (v : Js.json)
  : list (string * Js.json) :=
  if hasField fields key then overwrite fields key v else (fields ++ [(key, v)])%list.

(** The configuration file as [registerMcp] finds it. *)
Inductive configFile : Type :=
| Missing                                (* [existsSync(configPath)] is false *)
| Unreadable (message : string)          (* [readFileSync] or [JSON.parse] throws *)
| Content (config : Js.json).

(** [{ type: "stdio", ...mcpEntry }] *)
Definition chatguruEntry (indexPath apiKey accountId phoneId server : string) : Js.json :=
  Js.JObj [ ("type", Js.JStr "stdio");
            ("command", Js.JStr "node");
            ("args", Js.JArr [Js.JStr indexPath]);
            ("env", Js.JObj [ ("CHATGURU_API_KEY", Js.JStr apiKey);
                              ("CHATGURU_ACCOUNT_ID", Js.JStr accountId);
                              ("CHATGURU_PHONE_ID", Js.JStr phoneId);
                              ("CHATGURU_SERVER", Js.JStr server) ]) ].

(** What [JSON.stringify] makes of a number, as it is read back: [null] for
    NaN and the infinities (a configuration holds an infinity where the file
    had a literal beyond the range, such as 1e999), 0 for the negative zero,
    and the number itself otherwise. *)
Definition writtenNumber (f : float) : Js.json :=
  if negb (PrimFloat.is_finite f) then Js.JNull
  else if PrimFloat.eqb f 0%float then Js.JNum 0%float
  else Js.JNum f.

(** [JSON.stringify(v, null, 2)] as it is read back from the file. *)
Fixpoint stringified (v : Js.json) : Js.json :=
  match v with
  | Js.JNum f => writtenNumber f
  | Js.JArr items => Js.JArr (map stringified items)
  | Js.JObj fields => Js.JObj (map (fun kv => (fst kv, stringified (snd kv))) fields)
  | _ => v
  end.

(** [writeFileSync(configPath, JSON.stringify(config, null, 2))]: what the
    file holds afterwards, unless the write throws. *)
Definition write (writeError : option string) (config : Js.json) : option Js.json :=
  match writeError with
  | Some _ => None
  | None => Some (stringified config)
  end.

(** [registerMcp(configPath, label)]: the configuration the file holds when
    it returns [true], [None] when it returns [false].  The script is a
    module, so an assignment to a property of a number, a string or a boolean
    throws; a property set on an array is not one of its elements and is left
    out of the serialization. *)
Definition registerMcp (file : configFile) (entry : Js.json) (writeError : option string)
  : option Js.json :=
  match file with
  | Unreadable _ => None
  | Missing =>
      write writeError (Js.JObj [("mcpServers", Js.JObj [("chatguru", entry)])])
  | Content config =>
      match config with
      | Js.JNull | Js.JBool _ | Js.JNum _ | Js.JStr _ => None
      | Js.JArr items => write writeError (Js.JArr items)
      | Js.JObj fields =>
          let servers := Js.field fields "mcpServers" in
          if negb (Js.truthy servers)
          then write writeError
                 (Js.JObj (setField fields "mcpServers" (Js.JObj [("chatguru", entry)])))
          else
            match servers with
            | Some (Js.JObj running) =>
                write writeError
                  (Js.JObj (setField fields "mcpServers"
                              (Js.JObj (setField running "chatguru" entry))))
            | Some (Js.JArr _) => write writeError (Js.JObj fields)
            | _ => None
            end
      end
  end.

End Register.

(* ------------------------------------------------------------------------ *)
(** ** The request that [chatguruRequest] sends *)

Module Form.

(** The bytes that the [application/x-www-form-urlencoded] serializer of
    [URLSearchParams] leaves as they are: letters, digits, [*], [-], [.]
    and [_]. *)
Definition unreserved (c : ascii) : bool :=
  let n := nat_of_ascii c in
  ((48 <=? n)%nat && (n <=? 57)%nat)
  || ((65 <=? n)%nat && (n <=? 90)%nat)
  || ((97 <=? n)%nat && (n <=? 122)%nat)
  || (n =? 42)%nat || (n =? 45)%nat || (n =? 46)%nat || (n =? 95)%nat.

(** The uppercase hexadecimal digit of a value below 16. *)
Definition hexDigit (n : nat) : ascii :=
  ascii_of_nat (if (n <? 10)%nat then 48 + n else 55 + n).

(** One byte of a name or a value, serialized. *)
Definition encodeByte (c : ascii) : string :=
  if unreserved c then String c EmptyString
  else if Ascii.eqb c " " then "+"
  else String "%" (String (hexDigit (nat_of_ascii c / 16))
                     (String (hexDigit (nat_of_ascii c mod 16)) EmptyString)).

Fixpoint encode (s : string) : string :=
  match s with
  | EmptyString => EmptyString
  | String c rest => encodeByte c ++ encode rest
  end.

(** [params.toString()] of a [URLSearchParams]. *)
Fixpoint serialize (pairs : list (string * string)) : string :=
  match pairs with
  | [] => EmptyString
  | [(name, value)] => encode name ++ "=" ++ encode value
  | (name, value) :: rest => encode name ++ "=" ++ encode value ++ "&" ++ serialize rest
  end.

(** The value of a hexadecimal digit. *)
Definition hexValue (c : ascii) : option nat :=
  let n := nat_of_ascii c in
  if (48 <=? n)%nat && (n <=? 57)%nat then Some (n - 48)
  else if (65 <=? n)%nat && (n <=? 70)%nat then Some (n - 55)
  else if (97 <=? n)%nat && (n <=? 102)%nat then Some (n - 87)
  else None.

(** What a receiver reads out of a serialized name or value: [+] is a space
    and [%XY] is the byte with that code. *)
Fixpoint decode (s : string) : string :=
  match s with
  | EmptyString => EmptyString
  | String c rest =>
      if Ascii.eqb c "+" then String " " (decode rest)
      else if Ascii.eqb c "%"
      then match rest with
           | String x (String y rest') =>
               match hexValue x, hexValue y with
               | Some hi, Some lo => String (ascii_of_nat (16 * hi + lo)) (decode rest')
               | _, _ => String c (decode rest)
               end
           | _ => String c (decode rest)
           end
      else String c (decode rest)
  end.

(** [s] cut at every occurrence of [sep]. *)
Fixpoint splitAt (sep : ascii) (s : string) : list string :=
  match s with
  | EmptyString => [EmptyString]
  | String c rest =>
      if Ascii.eqb c sep then EmptyString :: splitAt sep rest
      else match splitAt sep rest with
           | [] => [String c EmptyString]
           | piece :: pieces => String c piece :: pieces
           end
  end.

(** [piece] cut at its first equals sign. *)
Fixpoint nameAndValue (piece : string) : string * string :=
  match piece with
  | EmptyString => (EmptyString, EmptyString)
  | String c rest =>
      if Ascii.eqb c "=" then (EmptyString, rest)
      else let (name, value) := nameAndValue rest in (String c name, value)
  end.

(** What a receiver reads out of a serialized list: the pieces between
    ampersands, the empty ones left out, each cut at its first equals sign and
    decoded. *)
Definition parse (s : string) : list (string * string) :=
  flat_map (fun piece =>
              if String.eqb piece "" then []
              else let (name, value) := nameAndValue piece in
                   [(decode name, decode value)])
           (splitAt "&" s).

Section Request.

Variables SERVER API_KEY ACCOUNT_ID PHONE_ID : string.

Definition BASE_URL : string := "https://s" ++ SERVER ++ ".expertintegrado.app/api/v1".

(** The parameters that are neither [undefined] nor [null], each with the
    string [String(value)] gives. *)
Definition defined (params : list (string * option string)) : list (string * string) :=
  flat_map (fun kv => match snd kv with
                      | Some value => [(fst kv, value)]
                      | None => []
                      end) params.

Definition identity (action : string) : list (string * string) :=
  [("key", API_KEY); ("account_id", ACCOUNT_ID); ("phone_id", PHONE_ID);
   ("action", action)].

(** The query string and the body that the loop of [chatguruRequest] posts
    at every attempt. *)
Definition request (action : string) (params : list (string * option string))
           (paramsInUrl : bool) : string * string :=
  if paramsInUrl
  then (serialize (identity action ++ defined params), EmptyString)
  else (serialize (identity action), serialize (defined params)).

Definition url (query : string) : string := BASE_URL ++ "?" ++ query.

End Request.

End Form.

(** *** The tools that update a chat *)

Module Tools.

(** What a tool handler settles to: the text of its reply, or the error it
    lets escape. *)
Inductive answer : Type :=
| Reply (text : string)
| Throws (e : Request.thrown).

Section Handlers.

Variables API_KEY ACCOUNT_ID PHONE_ID : string.

(** What the platform answers to the attempts of a request, given its query
    string and body. *)
Variable platform : string * string -> nat -> Request.fetched.

(** One run of a handler: the request it posts, what the request loop did and
    how it ended. *)
Definition run : Type := (string * string) * (list Request.event * Request.outcome).

(** [await chatguruRequest(action, params)] with the default options. *)
Definition call (action : string) (params : list (string * option string)) : run :=
  let sent := Form.request API_KEY ACCOUNT_ID PHONE_ID action params false in
  (sent, Request.chatguruRequest (platform sent) 3).

(** The [return] that follows the [await]: reached only when the request was
    fulfilled. *)
Definition andThen (r : run) (text : string) : answer :=
  match snd (snd r) with
  | Request.Fulfilled _ => Reply text
  | Request.Rejected e => Throws e
  end.

Definition chatguru_update_chat_name (chat_number name : string) : run * answer :=
  let number := normalizePhone chat_number in
  let r := call "chat_update_name" [("chat_number", Some number); ("name", Some name)] in
  (r, andThen r ("Nome do chat " ++ number ++ " atualizado para "
                   ++ ListChats.quoted name ++ ".")).

Definition chatguru_update_context (chat_number context : string) : run * answer :=
  let number := normalizePhone chat_number in
  let r := call "chat_update_context"
                [("chat_number", Some number); ("context", Some context)] in
  (r, andThen r ("Contexto do chat " ++ number ++ " atualizado.")).

Definition chatguru_add_note (chat_number note_text : string) : run * answer :=
  let number := normalizePhone chat_number in
  let r := call "note_add" [("chat_number", Some number); ("note_text", Some note_text)] in
  (r, andThen r ("Nota adicionada ao chat " ++ number ++ ".")).

Definition chatguru_execute_dialog (chat_number dialog_id : string) : run * answer :=
  let number := normalizePhone chat_number in
  let r := call "dialog_execute"
                [("chat_number", Some number); ("dialog_id", Some dialog_id)] in
  (r, andThen r ("Diálogo " ++ dialog_id ++ " executado no chat " ++ number ++ ".")).

End Handlers.

End Tools.
(* ------------------------------------------------------------------------ *)
(** * Properties *)

(** ** Strings *)

Lemma replaceNonDigits_filter (s : string) :
  Js.replaceNonDigits s = Described.digitsOf s.
Proof.
  unfold Described.digitsOf.
  induction s as [|c s IH]; simpl; [reflexivity|].
  destruct (Js.isDigit c); simpl; now rewrite IH.
Qed.

Lemma prefix_spec (p s : string) :
  String.prefix p s = true <-> exists rest, s = p ++ rest.
Proof.
  revert s; induction p as [|a p IH]; intros s; simpl.
  - split; [intros _; now exists s | intros _; now destruct s].
  - destruct s as [|b s].
    + split; [discriminate | intros [rest H]; discriminate].
    + simpl. destruct (ascii_dec a b) as [->|Hab].
      * rewrite IH. split; intros [rest H]; exists rest; [now rewrite H | now inversion H].
      * split; [discriminate | intros [rest H]; simpl in H; congruence].
Qed.



(** ** The phone normalizer *)

(** C4: [normalizePhone] keeps the digits of its input and nothing else; when
    they begin with 55 and are at least 12 they are the result; otherwise,
    when they are 10 or 11, the result is 55 followed by them; otherwise they
    are the result.  The function is total: every input string has a result. *)
Theorem normalizePhone_algorithm :
  forall input : string,
    let digits := Described.digitsOf input in
    let canonical := Described.hasCountryPrefix digits /\ 12 <= String.length digits in
    (canonical -> normalizePhone input = digits)
    /\ (~ canonical -> String.length digits = 10 \/ String.length digits = 11 ->
        normalizePhone input = "55" ++ digits)
    /\ (~ canonical -> String.length digits <> 10 -> String.length digits <> 11 ->
        normalizePhone input = digits).
Proof.
  intros input digits canonical.
  assert (Hc : Js.startsWith digits "55" && (12 <=? String.length digits)%nat = true
               <-> canonical).
  { unfold canonical, Described.hasCountryPrefix, Js.startsWith.
    now rewrite andb_true_iff, prefix_spec, Nat.leb_le. }
  unfold normalizePhone. rewrite replaceNonDigits_filter. fold digits.
  destruct (Js.startsWith digits "55" && (12 <=? String.length digits)%nat) eqn:E.
  - assert (Hyes : canonical) by now apply Hc.
    split; [reflexivity | split; intros Hno; contradiction].
  - assert (Hno : ~ canonical) by (intros H; apply Hc in H; discriminate).
    split; [intros H; contradiction |].
    destruct ((10 <=? String.length digits)%nat && (String.length digits <=? 11)%nat) eqn:E2.
    + apply andb_true_iff in E2 as [H1 H2]. apply Nat.leb_le in H1, H2.
      split; [reflexivity | intros _ Hn10 Hn11; lia].
    + split; [| reflexivity].
      intros _ [H|H]; rewrite H in E2; discriminate.
Qed.

(** The scenario of the description with a local number. *)
Example normalizePhone_local : normalizePhone "81991095702" = "5581991095702".
Proof. reflexivity. Qed.

(** C5 as stated fails: the digits of "+55 (81) 91095702" are the twelve
    digits 558191095702; no digit is inserted. *)
Lemma normalizePhone_scenario_as_stated_fails :
  normalizePhone "+55 (81) 91095702" <> "5581991095702".
Proof. vm_compute. discriminate. Qed.

(** C5 (amended): [normalizePhone] applied to "+55 (81) 91095702" returns
    exactly "558191095702", the digits of the input, unchanged. *)
Theorem normalizePhone_scenario :
  normalizePhone "+55 (81) 91095702" = "558191095702".
Proof. reflexivity. Qed.

(** ** The request loop *)

Section RequestLoop.
Import Request.

Variable network : nat -> fetched.
Variable retries : nat.

Lemma isRetryable_In (status : Z) :
  isRetryable status = true <-> In status RETRYABLE_STATUSES.
Proof.
  unfold isRetryable. rewrite existsb_exists. split.
  - intros [x [Hin Heq]]. apply Z.eqb_eq in Heq. now subst.
  - intros Hin. exists status. split; [assumption | apply Z.eqb_refl].
Qed.

Lemma retryable_status_not_ok (status : Z) :
  In status RETRYABLE_STATUSES -> ok status = false.
Proof.
  unfold RETRYABLE_STATUSES; simpl.
  intros [<-|[<-|[<-|[<-|[<-|[<-|[]]]]]]]; reflexivity.
Qed.

(** A retryable failure met while the budget lasts is logged, slept on and
    followed by another pass. *)
Lemma attemptOnce_retry (k : nat) :
  retryableFailure (network k) -> k < retries ->
  attemptOnce network retries k = (retried network retries k, Continue).
Proof.
  intros Hfail Hlt. apply Nat.ltb_lt in Hlt.
  unfold attemptOnce, retried, retryNotice.
  destruct (network k) as [message | status payload]; simpl in Hfail.
  - now rewrite Hlt.
  - rewrite (retryable_status_not_ok _ Hfail), Hlt.
    apply isRetryable_In in Hfail. now rewrite Hfail.
Qed.

(** A retryable failure met on the last pass is surfaced. *)
Lemma attemptOnce_exhausted (k : nat) :
  retryableFailure (network k) -> ~ k < retries ->
  attemptOnce network retries k =
    ([Fetch k], Done (Rejected (Error (Some (Js.JStr (surfaced retries (network k))))))).
Proof.
  intros Hfail Hge. apply Nat.ltb_nlt in Hge.
  unfold attemptOnce, surfaced.
  destruct (network k) as [message | status payload]; simpl in Hfail.
  - now rewrite Hge.
  - rewrite (retryable_status_not_ok _ Hfail), Hge, andb_false_r. reflexivity.
Qed.

(** [j] retryable failures in a row, all with budget left, leave [j] retried
    attempts in the trace and hand over to the next attempt. *)
Lemma attempts_retry_prefix (j : nat) :
  forall rest a : nat,
    (forall i, a <= i < a + j -> retryableFailure (network i)) ->
    a + j <= retries ->
    attempts network retries (j + rest) a =
      ((flat_map (retried network retries) (seq a j)
          ++ fst (attempts network retries rest (a + j)))%list,
       snd (attempts network retries rest (a + j))).
Proof.
  induction j as [|j IH]; intros rest a Hfail Hle.
  - rewrite Nat.add_0_r. simpl. now destruct (attempts network retries rest a).
  - cbn [Nat.add attempts].
    rewrite attemptOnce_retry by (try apply Hfail; lia).
    rewrite (IH rest (S a)) by (try (intros i Hi; apply Hfail); lia).
    replace (S a + j) with (a + S j) by lia.
    cbn [seq flat_map]. now rewrite <- app_assoc.
Qed.

Lemma fetches_app (xs ys : list event) :
  fetches (xs ++ ys) = (fetches xs ++ fetches ys)%list.
Proof. apply flat_map_app. Qed.

Lemma sleeps_app (xs ys : list event) :
  sleeps (xs ++ ys) = (sleeps xs ++ sleeps ys)%list.
Proof. apply flat_map_app. Qed.

Lemma fetches_retried (a j : nat) :
  fetches (flat_map (retried network retries) (seq a j)) = seq a j.
Proof.
  revert a; induction j as [|j IH]; intros a; [reflexivity|].
  cbn [seq flat_map]. rewrite fetches_app, IH. reflexivity.
Qed.

Lemma sleeps_retried (a j : nat) :
  sleeps (flat_map (retried network retries) (seq a j)) = map delay (seq a j).
Proof.
  revert a; induction j as [|j IH]; intros a; [reflexivity|].
  cbn [seq flat_map map]. rewrite sleeps_app, IH. reflexivity.
Qed.

End RequestLoop.

Lemma seq_upto (k : nat) :
  1 <= k -> (seq 1 (k - 1) ++ [k])%list = seq 1 k.
Proof.
  intros Hk. replace k with (S (k - 1)) at 2 3 by lia.
  now rewrite seq_S.
Qed.

Lemma delay_capped (k : nat) : (Request.delay k <= 8000)%Z.
Proof. unfold Request.delay. lia. Qed.

Lemma delay_grows (k : nat) :
  1 <= k ->
  (Request.delay k <= Request.delay (S k))%Z
  /\ ((Request.delay k < 8000)%Z -> (Request.delay k < Request.delay (S k))%Z).
Proof.
  intros Hk. unfold Request.delay.
  replace (Z.of_nat (S k) - 1)%Z with (Z.succ (Z.of_nat k - 1)) by lia.
  rewrite Z.pow_succ_r by lia.
  assert (0 < 2 ^ (Z.of_nat k - 1))%Z by (apply Z.pow_pos_nonneg; lia).
  split.
  - apply Z.min_le_compat_r. lia.
  - intros Hlt.
    destruct (Z.min_spec (1000 * 2 ^ (Z.of_nat k - 1)) 8000) as [[_ E]|[_ E]];
      rewrite E in Hlt |- *; [| lia].
    destruct (Z.min_spec (1000 * (2 * 2 ^ (Z.of_nat k - 1))) 8000) as [[_ E']|[_ E']];
      rewrite E'; lia.
Qed.

(** C1: when each of the [N >= 1] attempts fails retryably, [chatguruRequest]
    fetches exactly [N] times, logs a notice and pauses
    [min(1000 * 2^(k-1), 8000)] ms after the fetch of attempt [k] for every
    [k < N], and ends by throwing the error of the last attempt: after a
    network failure the connection error that names [N] and carries the
    message of the failure, after a retryable status the classified message
    of that status.  The pauses never exceed the cap and grow strictly until
    they reach it. *)
Theorem chatguruRequest_exhausts_budget :
  forall (network : nat -> Request.fetched) (N : nat),
    1 <= N ->
    (forall k, 1 <= k <= N -> Request.retryableFailure (network k)) ->
    Request.chatguruRequest network N =
      ((flat_map (Request.retried network N) (seq 1 (N - 1)) ++ [Request.Fetch N])%list,
       Request.Rejected
         (Request.Error (Some (Js.JStr (Request.surfaced N (network N))))))
    /\ fst (Request.chatguruRequest network N) =
         (flat_map (fun k => [Request.Fetch k;
                              Request.Log (Request.retryNotice network N k);
                              Request.Sleep (Z.min (1000 * 2 ^ (Z.of_nat k - 1)) 8000)])
                   (seq 1 (N - 1))
            ++ [Request.Fetch N])%list
    /\ (forall message : string,
          network N = Request.NetworkFailure message ->
          snd (Request.chatguruRequest network N) =
            Request.Rejected
              (Request.Error
                 (Some (Js.JStr ("Erro de conexão com ChatGuru após " ++ Js.natToString N
                                   ++ " tentativas: " ++ message)))))
    /\ (forall (status : Z) (payload : Request.body),
          network N = Request.Response status payload ->
          exists text : string,
            In (status, text)
               [ (408%Z, "Erro 408 na API do ChatGuru.");
                 (429%Z, "Limite de requisições atingido. Tente novamente em alguns segundos.");
                 (500%Z, "Erro interno do servidor ChatGuru. Tente novamente.");
                 (502%Z, "ChatGuru temporariamente indisponível. Tente novamente.");
                 (503%Z, "ChatGuru em manutenção. Tente novamente em instantes.");
                 (504%Z, "Erro 504 na API do ChatGuru.") ]
            /\ snd (Request.chatguruRequest network N) =
                 Request.Rejected (Request.Error (Some (Js.JStr text))))
    /\ Request.fetches (fst (Request.chatguruRequest network N)) = seq 1 N
    /\ Request.sleeps (fst (Request.chatguruRequest network N)) =
         map (fun k => Z.min (1000 * 2 ^ (Z.of_nat k - 1)) 8000) (seq 1 (N - 1))
    /\ (forall k, 1 <= k ->
          (Request.delay k <= 8000)%Z
          /\ (Request.delay k <= Request.delay (S k))%Z
          /\ ((Request.delay k < 8000)%Z -> (Request.delay k < Request.delay (S k))%Z)).
Proof.
  intros network N HN Hfail.
  assert (Hrun : Request.chatguruRequest network N =
      ((flat_map (Request.retried network N) (seq 1 (N - 1)) ++ [Request.Fetch N])%list,
       Request.Rejected
         (Request.Error (Some (Js.JStr (Request.surfaced N (network N))))))).
  { unfold Request.chatguruRequest.
    replace N with ((N - 1) + 1) at 2 by lia.
    rewrite attempts_retry_prefix by (try (intros i Hi; apply Hfail); lia).
    replace (1 + (N - 1)) with N by lia.
    cbn [Request.attempts].
    rewrite attemptOnce_exhausted by (try apply Hfail; lia).
    reflexivity. }
  rewrite Hrun. cbn [fst snd].
  split; [reflexivity |]. split; [reflexivity |].
  split; [| split; [| repeat split]].
  - intros message ->. reflexivity.
  - intros status payload Hlast.
    pose proof (Hfail N ltac:(lia)) as Hretry. rewrite Hlast in Hretry |- *.
    cbn [Request.retryableFailure Request.surfaced] in Hretry |- *.
    exists (friendlyError status None). split; [| reflexivity].
    unfold RETRYABLE_STATUSES in Hretry. cbn [In] in Hretry.
    destruct Hretry as [<- | [<- | [<- | [<- | [<- | [<- | []]]]]]];
      vm_compute; tauto.
  - rewrite fetches_app, fetches_retried. now apply seq_upto.
  - rewrite sleeps_app, sleeps_retried. simpl. now rewrite app_nil_r.
  - apply delay_capped.
  - now apply delay_grows.
  - now apply delay_grows.
Qed.

(** The scenario of the description: three responses with status 503 and a
    budget of three attempts end in the maintenance error after three fetches
    and pauses of one and two seconds.  And a 503 followed by two failures of
    the fetch itself end in the connection error that names the three
    attempts. *)
Lemma chatguruRequest_three_failures :
  let maintenance := fun _ : nat => Request.Response 503 (Request.BodyInvalid "") in
  let offline := fun k : nat =>
    match k with
    | 1 => Request.Response 503 (Request.BodyInvalid "")
    | _ => Request.NetworkFailure "fetch failed"
    end in
  (snd (Request.chatguruRequest maintenance 3) =
     Request.Rejected
       (Request.Error
          (Some (Js.JStr "ChatGuru em manutenção. Tente novamente em instantes.")))
   /\ Request.fetches (fst (Request.chatguruRequest maintenance 3)) = [1; 2; 3]
   /\ Request.sleeps (fst (Request.chatguruRequest maintenance 3)) = [1000; 2000]%Z)
  /\ Request.chatguruRequest offline 3 =
       ([ Request.Fetch 1;
          Request.Log "[ChatGuru] HTTP 503 (tentativa 1/3). Retry em 1000ms...";
          Request.Sleep 1000;
          Request.Fetch 2;
          Request.Log
            "[ChatGuru] Erro de rede (tentativa 2/3): fetch failed. Retry em 2000ms...";
          Request.Sleep 2000;
          Request.Fetch 3 ],
        Request.Rejected
          (Request.Error
             (Some (Js.JStr "Erro de conexão com ChatGuru após 3 tentativas: fetch failed")))).
Proof.
  intros maintenance offline.
  assert (H1 : 1 <= 3) by lia.
  assert (H2 : forall k, 1 <= k <= 3 -> Request.retryableFailure (maintenance k)).
  { intros k _. simpl. unfold RETRYABLE_STATUSES. simpl. tauto. }
  assert (H3 : forall k, 1 <= k <= 3 -> Request.retryableFailure (offline k)).
  { intros k _. destruct k as [|[|k]]; simpl; unfold RETRYABLE_STATUSES; simpl; tauto. }
  destruct (chatguruRequest_exhausts_budget maintenance 3 H1 H2)
    as [Hrun [_ [_ [_ [Hf [Hs _]]]]]].
  destruct (chatguruRequest_exhausts_budget offline 3 H1 H3)
    as [_ [Htrace [Hnet _]]].
  split.
  - rewrite Hf, Hs, Hrun. repeat split.
  - rewrite (surjective_pairing (Request.chatguruRequest offline 3)).
    rewrite Htrace, (Hnet "fetch failed" eq_refl). reflexivity.
Defined.

(** Without a budget the loop body never runs and the call resolves with
    [undefined]. *)
Remark chatguruRequest_without_budget (network : nat -> Request.fetched) :
  Request.chatguruRequest network 0 = ([], Request.Fulfilled Js.undefined).
Proof. reflexivity. Qed.

Lemma retriedStatus_iff (status : Z) :
  Request.retriedStatus status <-> In status RETRYABLE_STATUSES.
Proof.
  split.
  - intros H.
    specialize (H (fun _ => Request.Response status (Request.BodyInvalid "")) 2 1
                  (Request.BodyInvalid "") (Nat.lt_succ_diag_r 1) eq_refl).
    unfold Request.attemptOnce in H. cbn [Nat.ltb Nat.leb] in H.
    apply isRetryable_In.
    destruct (Request.ok status), (isRetryable status); try reflexivity;
      cbn in H; discriminate.
  - intros Hin network retries k payload Hlt Hnet.
    rewrite attemptOnce_retry; [reflexivity | | assumption].
    now rewrite Hnet.
Qed.

(** C2 as stated fails: no list of five statuses holds every status that is
    retried, since 408, 429, 500, 502, 503 and 504 all are. *)
Lemma retried_statuses_are_not_five :
  ~ exists five : list Z,
      List.length five = 5
      /\ forall status, Request.retriedStatus status <-> In status five.
Proof.
  intros [five [Hlen Hiff]].
  assert (Hincl : incl RETRYABLE_STATUSES five).
  { intros s Hs. apply Hiff, retriedStatus_iff, Hs. }
  assert (Hnodup : NoDup RETRYABLE_STATUSES).
  { unfold RETRYABLE_STATUSES.
    repeat (constructor; [simpl; intuition lia |]). constructor. }
  pose proof (NoDup_incl_length Hnodup Hincl) as Hle.
  rewrite Hlen in Hle. simpl in Hle. lia.
Qed.

(** C2 (amended): the statuses that are retried are exactly the six statuses
    408, 429, 500, 502, 503 and 504.  Any other status outside 200..299, met
    at attempt [k] after [k - 1] retried attempts, ends the call at once: no
    pause and no fetch follows, and the error thrown carries the message
    [friendlyError] gives for the status, which for a status without an entry
    in the table is the template with the status number. *)
Theorem nonRetryable_status_fails_at_once :
  forall (network : nat -> Request.fetched) (retries k : nat)
         (status : Z) (payload : Request.body),
    1 <= k <= retries ->
    (forall i, 1 <= i < k -> Request.retryableFailure (network i)) ->
    network k = Request.Response status payload ->
    Request.ok status = false ->
    ~ In status RETRYABLE_STATUSES ->
    (forall s, Request.retriedStatus s <->
               s = 408 \/ s = 429 \/ s = 500 \/ s = 502 \/ s = 503 \/ s = 504)%Z
    /\ Request.chatguruRequest network retries =
         ((flat_map (Request.retried network retries) (seq 1 (k - 1))
             ++ [Request.Fetch k])%list,
          Request.Rejected
            (Request.Error (Some (Js.JStr (friendlyError status None)))))
    /\ Request.fetches (fst (Request.chatguruRequest network retries)) = seq 1 k
    /\ (messages status = None ->
        friendlyError status None
          = "Erro " ++ Js.intToString status ++ " na API do ChatGuru.").
Proof.
  intros network retries k status payload Hk Hprev Hnet Hok Hnot.
  assert (Hrun : Request.chatguruRequest network retries =
         ((flat_map (Request.retried network retries) (seq 1 (k - 1))
             ++ [Request.Fetch k])%list,
          Request.Rejected
            (Request.Error (Some (Js.JStr (friendlyError status None)))))).
  { unfold Request.chatguruRequest.
    replace retries with ((k - 1) + S (retries - k)) at 2 by lia.
    rewrite attempts_retry_prefix by (try (intros i Hi; apply Hprev); lia).
    replace (1 + (k - 1)) with k by lia.
    cbn [Request.attempts]. unfold Request.attemptOnce. rewrite Hnet, Hok.
    destruct (isRetryable status) eqn:E;
      [apply isRetryable_In in E; contradiction | reflexivity]. }
  split; [| split; [exact Hrun | split]].
  - intros s. rewrite retriedStatus_iff. unfold RETRYABLE_STATUSES. simpl.
    intuition congruence.
  - rewrite Hrun. cbn [fst]. rewrite fetches_app, fetches_retried.
    apply seq_upto. lia.
  - intros Hnone. unfold friendlyError. now rewrite Hnone.
Qed.

(** A 418 on the second attempt, after a 503 on the first: the call ends there
    with the templated message. *)
Lemma nonRetryable_status_418 :
  let network := fun k : nat =>
    match k with
    | 1 => Request.Response 503 (Request.BodyInvalid "")
    | _ => Request.Response 418 (Request.BodyInvalid "")
    end in
  snd (Request.chatguruRequest network 3) =
    Request.Rejected (Request.Error (Some (Js.JStr "Erro 418 na API do ChatGuru.")))
  /\ Request.fetches (fst (Request.chatguruRequest network 3)) = [1; 2].
Proof.
  intros network.
  assert (Hk : 1 <= 2 <= 3) by lia.
  assert (Hprev : forall i, 1 <= i < 2 -> Request.retryableFailure (network i)).
  { intros i Hi. assert (i = 1) as -> by lia. simpl. unfold RETRYABLE_STATUSES. simpl. tauto. }
  assert (Hnot : ~ In 418%Z RETRYABLE_STATUSES).
  { unfold RETRYABLE_STATUSES. simpl. intuition discriminate. }
  destruct (nonRetryable_status_fails_at_once network 3 2 418 (Request.BodyInvalid "")
              Hk Hprev eq_refl eq_refl Hnot) as [_ [Hrun [Hf _]]].
  rewrite Hf, Hrun. split; reflexivity.
Defined.

(** C3 as stated fails: in a body whose success flag is the number 0 the flag
    is falsy, yet the call resolves with that body instead of throwing (the
    same happens with [null] or the empty string). *)
Lemma falsy_success_flag_is_not_always_an_error :
  ~ forall (network : nat -> Request.fetched) (retries : nat)
           (status : Z) (data : Js.json) (flag : Js.json),
      1 <= retries ->
      network 1 = Request.Response status (Request.BodyJson data) ->
      Request.ok status = true ->
      Js.getProp data "success" = Some (Some flag) ->
      Js.truthy (Some flag) = false ->
      exists message,
        snd (Request.chatguruRequest network retries)
          = Request.Rejected (Request.Error message).
Proof.
  intros H.
  destruct (H (fun _ => Request.Response 200
                 (Request.BodyJson
                    (Js.JObj [("success", Js.JNum 0); ("error", Js.JStr "Chat not found")])))
              3 200%Z
              (Js.JObj [("success", Js.JNum 0); ("error", Js.JStr "Chat not found")])
              (Js.JNum 0)
              ltac:(lia) eq_refl eq_refl eq_refl eq_refl) as [message Hm].
  cbv in Hm. discriminate.
Qed.

(** C3 (amended): when a response with a status in 200..299 decodes to a body
    whose success flag is the boolean [false], [chatguruRequest] throws on
    that attempt, whatever budget is left: nothing is logged, slept on or
    fetched after it.  The message of the error is the body's [error] when
    that is truthy, else its [message] when that is truthy, else the generic
    sentence; a non-empty [error] string is carried verbatim. *)
Theorem business_failure_is_never_retried :
  forall (network : nat -> Request.fetched) (retries k : nat)
         (status : Z) (data : Js.json),
    1 <= k <= retries ->
    (forall i, 1 <= i < k -> Request.retryableFailure (network i)) ->
    network k = Request.Response status (Request.BodyJson data) ->
    Request.ok status = true ->
    Js.getProp data "success" = Some (Some (Js.JBool false)) ->
    Request.chatguruRequest network retries =
      ((flat_map (Request.retried network retries) (seq 1 (k - 1))
          ++ [Request.Fetch k])%list,
       Request.Rejected (Request.Error (Request.apiErrorMessage data)))
    /\ Request.fetches (fst (Request.chatguruRequest network retries)) = seq 1 k
    /\ (forall text, text <> "" ->
          Request.prop data "error" = Some (Js.JStr text) ->
          Request.apiErrorMessage data = Some (Js.JStr text))
    /\ (forall text, text <> "" ->
          Js.truthy (Request.prop data "error") = false ->
          Request.prop data "message" = Some (Js.JStr text) ->
          Request.apiErrorMessage data = Some (Js.JStr text))
    /\ (Js.truthy (Request.prop data "error") = false ->
        Js.truthy (Request.prop data "message") = false ->
        Request.apiErrorMessage data = Some (Js.JStr Request.unknownApiError)).
Proof.
  intros network retries k status data Hk Hprev Hnet Hok Hflag.
  assert (Hrun : Request.chatguruRequest network retries =
      ((flat_map (Request.retried network retries) (seq 1 (k - 1))
          ++ [Request.Fetch k])%list,
       Request.Rejected (Request.Error (Request.apiErrorMessage data)))).
  { unfold Request.chatguruRequest.
    replace retries with ((k - 1) + S (retries - k)) at 2 by lia.
    rewrite attempts_retry_prefix by (try (intros i Hi; apply Hprev); lia).
    replace (1 + (k - 1)) with k by lia.
    cbn [Request.attempts]. unfold Request.attemptOnce.
    rewrite Hnet, Hok, Hflag. reflexivity. }
  assert (Hstr : forall text, text <> "" -> Js.truthy (Some (Js.JStr text)) = true).
  { intros text Hne. simpl. apply negb_true_iff, String.eqb_neq, Hne. }
  split; [exact Hrun | split; [| split; [| split]]].
  - rewrite Hrun. cbn [fst]. rewrite fetches_app, fetches_retried.
    apply seq_upto. lia.
  - intros text Hne He. unfold Request.apiErrorMessage, Js.or.
    rewrite He, (Hstr text Hne), (Hstr text Hne). reflexivity.
  - intros text Hne He Hm. unfold Request.apiErrorMessage, Js.or.
    rewrite He, Hm, (Hstr text Hne). reflexivity.
  - intros He Hm. unfold Request.apiErrorMessage, Js.or.
    rewrite He, Hm. reflexivity.
Qed.

(** A business failure on HTTP 200 at the first of three attempts. *)
Lemma business_failure_on_200 :
  let data := Js.JObj [("success", Js.JBool false); ("error", Js.JStr "Chat not found")] in
  let network := fun _ : nat => Request.Response 200 (Request.BodyJson data) in
  snd (Request.chatguruRequest network 3) =
    Request.Rejected (Request.Error (Some (Js.JStr "Chat not found")))
  /\ Request.fetches (fst (Request.chatguruRequest network 3)) = [1].
Proof.
  intros data network.
  assert (Hk : 1 <= 1 <= 3) by lia.
  assert (Hprev : forall i, 1 <= i < 1 -> Request.retryableFailure (network i)).
  { intros i Hi. lia. }
  destruct (business_failure_is_never_retried network 3 1 200 data
              Hk Hprev eq_refl eq_refl eq_refl) as [Hrun [Hf _]].
  rewrite Hf, Hrun. split; reflexivity.
Defined.

(** ** Session expiry *)





(** ** The message window *)

Lemma slice_is_suffix {A : Type} (arr : list A) (start : Z) :
  exists dropped, arr = (dropped ++ Js.slice arr start)%list.
Proof.
  unfold Js.slice.
  eexists. symmetry. apply firstn_skipn.
Qed.

Lemma slice_last {A : Type} (arr : list A) (n : Z) :
  (1 <= n)%Z ->
  Js.slice arr (- n) = skipn (List.length arr - Z.to_nat n) arr
  /\ List.length (Js.slice arr (- n)) = Nat.min (Z.to_nat n) (List.length arr).
Proof.
  intros Hn. unfold Js.slice.
  destruct (Z.ltb_spec (- n) 0) as [_|H]; [| lia].
  replace (Z.to_nat (Z.max (Z.of_nat (List.length arr) + - n) 0))
    with (List.length arr - Z.to_nat n) by lia.
  split; [reflexivity |].
  rewrite length_skipn. lia.
Qed.

(** For a limit of at least one the extraction returns the last [limit]
    collected messages, in their order, or all of them when there are
    fewer. *)
Lemma extractMessages_window (rendered : list ReadMessages.child) (limit : Z) :
  (1 <= limit)%Z ->
  let all := ReadMessages.collect "" rendered in
  let returned := ReadMessages.extractMessages (Some rendered) limit in
  (Z.of_nat (List.length returned) <= limit)%Z
  /\ List.length returned = Nat.min (Z.to_nat limit) (List.length all)
  /\ exists dropped, all = (dropped ++ returned)%list.
Proof.
  intros Hlimit all returned. subst returned. cbn [ReadMessages.extractMessages].
  fold all. destruct (slice_last all limit Hlimit) as [_ Hlen].
  repeat split.
  - rewrite Hlen. lia.
  - exact Hlen.
  - apply slice_is_suffix.
Qed.

(** With a limit of zero nothing is dropped. *)
Lemma extractMessages_limit_zero (rendered : list ReadMessages.child) :
  ReadMessages.extractMessages (Some rendered) 0 = ReadMessages.collect "" rendered.
Proof.
  cbn [ReadMessages.extractMessages]. unfold Js.slice. cbn [Z.opp Z.ltb Z.compare].
  now replace (Z.min 0 (Z.of_nat (List.length (ReadMessages.collect "" rendered))))
    with 0%Z by lia.
Qed.

(** C7 at a limit of zero: [slice(-0)] is [slice(0)], so the extraction hands
    back every collected message, two here, where at most zero were asked
    for. *)
Theorem read_messages_limit_zero_returns_all :
  let row (sent : bool) (text time : string) :=
    {| ReadMessages.msgData := false;
       ReadMessages.rowMsg := true;
       ReadMessages.textContent := text ++ time;
       ReadMessages.container :=
         Some {| ReadMessages.bgSentMsg := sent;
                 ReadMessages.msgContentT := Some text;
                 ReadMessages.audio := false;
                 ReadMessages.msgTimestamp := Some time |} |} in
  let p := {| ReadMessages.sessionFile := true;
              ReadMessages.gotoError := None;
              ReadMessages.url := "https://s17.expertintegrado.app/chats#686ede5b2333cb755c57d1a5";
              ReadMessages.rowCount := fun _ => 2;
              ReadMessages.chatBox := fun _ => true;
              ReadMessages.messageList :=
                Some [row false "Bom dia" "09:14"; row true "Como posso ajudar?" "09:15"] |} in
  snd (ReadMessages.chatguru_read_messages "17" p "686ede5b2333cb755c57d1a5" 0)
  = Browser.Records ""
      [ {| ReadMessages.remetente := ReadMessages.cliente;
           ReadMessages.horario := "09:14";
           ReadMessages.data := "";
           ReadMessages.texto := "Bom dia" |};
        {| ReadMessages.remetente := ReadMessages.atendente;
           ReadMessages.horario := "09:15";
           ReadMessages.data := "";
           ReadMessages.texto := "Como posso ajudar?" |} ].
Proof. vm_compute. reflexivity. Qed.

(** ** The scroll loops *)

Lemma pauses_app (ms : Z) (xs ys : list Browser.action) :
  Browser.pauses ms (xs ++ ys) = Browser.pauses ms xs + Browser.pauses ms ys.
Proof. unfold Browser.pauses. now rewrite filter_app, length_app. Qed.

Lemma scrollUp_stops (rowCount : nat -> nat) (chatBox : nat -> bool) (limit : Z) :
  forall remaining i,
    let passes :=
      Browser.pauses 2500
        (ReadMessages.scrollUp rowCount chatBox limit remaining i
           (Scroll.previous rowCount i)) in
    passes <= remaining
    /\ (forall j, i <= j < i + passes -> Scroll.stopsUp rowCount limit j = false)
    /\ (passes < remaining -> Scroll.stopsUp rowCount limit (i + passes) = true).
Proof.
  induction remaining as [|remaining IH]; intros i; cbn zeta.
  - cbn [ReadMessages.scrollUp]. change (Browser.pauses 2500 []) with 0.
    repeat split; intros; lia.
  - cbn [ReadMessages.scrollUp].
    destruct (Scroll.stopsUp rowCount limit i) eqn:Hstop.
    + assert (Hnil : (if (Z.of_nat (rowCount i) >=? limit)%Z then []
                      else if (rowCount i =? Scroll.previous rowCount i)%nat && (1 <? i)%nat
                           then []
                           else ((Browser.RemoveOverlays
                                    :: (if chatBox i then [Browser.Wheel] else [])
                                         ++ [Browser.Pause 2500])
                                   ++ ReadMessages.scrollUp rowCount chatBox limit remaining
                                        (S i) (rowCount i))%list) = []).
      { unfold Scroll.stopsUp in Hstop. apply orb_true_iff in Hstop as [H|H]; rewrite H;
          [reflexivity | now destruct (Z.of_nat (rowCount i) >=? limit)%Z]. }
      rewrite Hnil. change (Browser.pauses 2500 []) with 0. rewrite Nat.add_0_r.
      repeat split; intros; try lia. assumption.
    + pose proof Hstop as Hgo. unfold Scroll.stopsUp in Hgo.
      apply orb_false_iff in Hgo as [H1 H2]. rewrite H1, H2.
      rewrite pauses_app.
      specialize (IH (S i)). cbn zeta in IH. cbn [Scroll.previous] in IH.
      destruct IH as [IHle [IHgo IHstop]].
      assert (Hone : Browser.pauses 2500
                (Browser.RemoveOverlays
                   :: (if chatBox i then [Browser.Wheel] else []) ++ [Browser.Pause 2500]) = 1)
        by now destruct (chatBox i).
      rewrite Hone.
      set (rest := Browser.pauses 2500
                     (ReadMessages.scrollUp rowCount chatBox limit remaining (S i) (rowCount i)))
        in *.
      repeat split.
      * lia.
      * intros j Hj. destruct (Nat.eq_dec j i) as [->|Hne]; [assumption |].
        apply IHgo. lia.
      * intros Hlt. replace (i + (1 + rest)) with (S i + rest) by lia.
        apply IHstop. lia.
Qed.

Lemma scrollDown_stops (cardCount : nat -> nat) (targetCount : Q) :
  forall remaining i,
    let passes :=
      Browser.pauses 800
        (ListChats.scrollDown cardCount targetCount remaining i
           (Scroll.previous cardCount i)) in
    passes <= remaining
    /\ (forall j, i <= j < i + passes -> Scroll.stopsDown cardCount targetCount j = false)
    /\ (passes < remaining -> Scroll.stopsDown cardCount targetCount (i + passes) = true).
Proof.
  induction remaining as [|remaining IH]; intros i; cbn zeta.
  - cbn [ListChats.scrollDown]. change (Browser.pauses 800 []) with 0.
    repeat split; intros; lia.
  - cbn [ListChats.scrollDown]. unfold ListChats.reaches, ListChats.number.
    fold (Scroll.stopsDown cardCount targetCount i).
    destruct (Scroll.stopsDown cardCount targetCount i) eqn:Hstop.
    + change (Browser.pauses 800 []) with 0. rewrite Nat.add_0_r.
      repeat split; intros; try lia. assumption.
    + rewrite pauses_app.
      specialize (IH (S i)). cbn zeta in IH. cbn [Scroll.previous] in IH.
      destruct IH as [IHle [IHgo IHstop]].
      change (Browser.pauses 800 [Browser.ScrollToBottom; Browser.Pause 800]) with 1.
      set (rest := Browser.pauses 800
                     (ListChats.scrollDown cardCount targetCount remaining (S i) (cardCount i)))
        in *.
      repeat split.
      * lia.
      * intros j Hj. destruct (Nat.eq_dec j i) as [->|Hne]; [assumption |].
        apply IHgo. lia.
      * intros Hlt. replace (i + (1 + rest)) with (S i + rest) by lia.
        apply IHstop. lia.
Qed.

(** C8 as stated fails: it gives the two loops one stopping rule, but on the
    same counts and the same cap they stop at different passes.  With five
    records at every pass and a cap of fifty the list loop stops at its second
    pass, after one scroll, and the conversation loop at its third, after
    two; so no rule on the counts and the cap stops both loops exactly. *)
Lemma scroll_loops_share_no_stopping_rule :
  Scroll.passesUp (fun _ => 5) (fun _ => true) 50 = 2
  /\ Scroll.passesDown (fun _ => 5) 50 = 1
  /\ ~ exists stop : (nat -> nat) -> Z -> nat -> bool,
         forall (count : nat -> nat) (cap : Z),
           Scroll.stoppedBy (Scroll.passesUp count (fun _ => true) cap) (stop count cap)
           /\ Scroll.stoppedBy (Scroll.passesDown count (inject_Z cap)) (stop count cap).
Proof.
  split; [reflexivity | split; [reflexivity |]].
  intros [stop H].
  destruct (H (fun _ => 5) 50%Z) as [[_ [Hup _]] [_ [_ Hdown]]].
  change (Scroll.passesUp (fun _ => 5) (fun _ => true) 50) with 2 in Hup.
  change (Scroll.passesDown (fun _ => 5) (inject_Z 50)) with 1 in Hdown.
  specialize (Hup 1 ltac:(lia)). specialize (Hdown ltac:(lia)).
  congruence.
Qed.

(** C8 (amended): each scroll loop makes at most ten passes.  The list loop
    stops early exactly at the first pass whose card count has reached the cap
    or equals the count of the pass before (0 before the first pass).  The
    conversation loop stops early exactly at the first pass whose row count
    has reached the limit or, from the third pass on, equals the count of the
    pass before. *)
Theorem scroll_loops_stop_exactly :
  forall (rowCount : nat -> nat) (chatBox : nat -> bool) (limit : Z)
         (cardCount : nat -> nat) (targetCount : Q),
    Scroll.stoppedBy (Scroll.passesUp rowCount chatBox limit)
                     (Scroll.stopsUp rowCount limit)
    /\ Scroll.stoppedBy (Scroll.passesDown cardCount targetCount)
                        (Scroll.stopsDown cardCount targetCount).
Proof.
  intros rowCount chatBox limit cardCount targetCount.
  unfold Scroll.stoppedBy, Scroll.passesUp, Scroll.passesDown.
  pose proof (scrollUp_stops rowCount chatBox limit 10 0) as Hup.
  pose proof (scrollDown_stops cardCount targetCount 10 0) as Hdown.
  cbn zeta in Hup, Hdown. cbn [Scroll.previous Nat.add] in Hup, Hdown.
  destruct Hup as [U1 [U2 U3]]. destruct Hdown as [D1 [D2 D3]].
  repeat split; try assumption.
  - intros j Hj. apply U2. lia.
  - intros j Hj. apply D2. lia.
Qed.

(** ** The cap of the chat list *)

(** A count has reached a number exactly when it has reached the number
    rounded up. *)
Lemma reaches_ceiling (n : nat) (x : Q) :
  ListChats.reaches n x = (Qceiling x <=? Z.of_nat n)%Z.
Proof.
  unfold ListChats.reaches, ListChats.number.
  apply eq_true_iff_eq. rewrite Qle_bool_iff, Z.leb_le. split; intros H.
  - apply Qceiling_resp_le in H. now rewrite Qceiling_Z in H.
  - apply Qle_trans with (inject_Z (Qceiling x)); [apply Qle_ceiling |].
    now rewrite <- Zle_Qle.
Qed.

Lemma extractLoop_firstn (maxChats : Q) (cards : list ListChats.card) :
  forall result : list ListChats.ChatSummary,
    ListChats.extractLoop maxChats cards result =
      (result ++ map ListChats.readCard
                   (firstn (Z.to_nat (Qceiling maxChats) - List.length result) cards))%list.
Proof.
  induction cards as [|c cards IH]; intros result.
  - simpl. now rewrite firstn_nil, app_nil_r.
  - cbn [ListChats.extractLoop]. rewrite reaches_ceiling.
    destruct (Z.leb_spec (Qceiling maxChats) (Z.of_nat (List.length result))) as [Hge|Hlt].
    + replace (Z.to_nat (Qceiling maxChats) - List.length result) with 0 by lia.
      simpl. now rewrite app_nil_r.
    + rewrite IH, length_app. cbn [List.length].
      replace (Z.to_nat (Qceiling maxChats) - List.length result)
        with (S (Z.to_nat (Qceiling maxChats) - (List.length result + 1))) by lia.
      cbn [firstn map]. now rewrite <- app_assoc.
Qed.

Lemma extractChats_firstn (cards : list ListChats.card) (maxChats : Q) :
  ListChats.extractChats cards maxChats =
    map ListChats.readCard (firstn (Z.to_nat (Qceiling maxChats)) cards).
Proof.
  unfold ListChats.extractChats. rewrite extractLoop_firstn.
  simpl. now rewrite Nat.sub_0_r.
Qed.

(** A cap of zero or less stops the extraction before the first card. *)
Lemma extractChats_without_cap (cards : list ListChats.card) (maxChats : Q) :
  (maxChats <= 0)%Q -> ListChats.extractChats cards maxChats = [].
Proof.
  intros H. rewrite extractChats_firstn.
  apply Qceiling_resp_le in H. change (Qceiling 0) with 0%Z in H.
  replace (Z.to_nat (Qceiling maxChats)) with 0 by lia. reflexivity.
Qed.

(** The cap is at most 100, and so is the cap rounded up. *)
Lemma effectiveLimit_bounds (limit : Q) :
  (ListChats.effectiveLimit limit <= limit)%Q
  /\ (ListChats.effectiveLimit limit <= 100)%Q
  /\ ((ListChats.effectiveLimit limit == limit)%Q
      \/ (ListChats.effectiveLimit limit == 100)%Q)
  /\ (Qceiling (ListChats.effectiveLimit limit) <= 100)%Z.
Proof.
  unfold ListChats.effectiveLimit.
  assert (H100 : (Qmin limit 100 <= 100)%Q) by apply Q.le_min_r.
  repeat split.
  - apply Q.le_min_l.
  - exact H100.
  - destruct (Q.min_spec limit 100) as [[_ H] | [_ H]]; [now left | now right].
  - apply Qceiling_resp_le in H100. exact H100.
Qed.

(** A whole cap is its own rounding. *)
Lemma effectiveLimit_whole (limit : Q) (n : Z) :
  (limit == inject_Z n)%Q ->
  (inject_Z (Qceiling (ListChats.effectiveLimit limit)) == ListChats.effectiveLimit limit)%Q.
Proof.
  intros Hn. unfold ListChats.effectiveLimit.
  destruct (Q.min_spec limit 100) as [[_ H] | [_ H]].
  - pose proof (Qeq_trans _ _ _ H Hn) as E.
    rewrite (Qceiling_comp _ _ E), Qceiling_Z. symmetry. exact E.
  - rewrite (Qceiling_comp _ _ H). symmetry. exact H.
Qed.

(** C9: the list that [chatguru_list_chats] returns can hold more records
    than the effective cap.  The limit is any number; with a limit of 2.5 the
    cap is [min(2.5, 100) = 2.5], the extraction stops when the list holds 3
    records, the first count that has reached 2.5, and the three records are
    returned: more than the cap, which the description of the parameter calls
    the maximum of chats to return. *)
Lemma list_chats_fractional_limit_exceeds_cap :
  let c := {| ListChats.userName := Some "Maria";
              ListChats.userMsg := Some ("Obrigada!", "Obrig...");
              ListChats.attendanceStatus := Some "ABERTO";
              ListChats.attendanceNumber := Some "3";
              ListChats.attendanceHour := Some "09:15";
              ListChats.dataId := None;
              ListChats.dataChatId := None;
              ListChats.dataChat := None;
              ListChats.vueChatId := "686ede5b2333cb755c57d1a5" |} in
  let p := {| ListChats.sessionFile := true;
              ListChats.gotoError := None;
              ListChats.url := "https://s17.expertintegrado.app/chats";
              ListChats.nameInput := true;
              ListChats.phoneInput := true;
              ListChats.unreadCheckbox := true;
              ListChats.archivedCheckbox := true;
              ListChats.favoritedCheckbox := true;
              ListChats.listContainer := true;
              ListChats.cardCount := fun _ => 5;
              ListChats.cards := repeat c 5 |} in
  let a := {| ListChats.arg_status := None;
              ListChats.unread_only := false;
              ListChats.archived := false;
              ListChats.favorited := false;
              ListChats.order_by := None;
              ListChats.department := None;
              ListChats.name := None;
              ListChats.whatsapp_number := None;
              ListChats.limit := 2.5 |} in
  ListChats.effectiveLimit (ListChats.limit a) = 2.5%Q
  /\ (exists sentence,
        snd (ListChats.chatguru_list_chats "17" p a)
          = Browser.Records sentence (repeat (ListChats.readCard c) 3))
  /\ ~ (ListChats.number 3 <= ListChats.effectiveLimit (ListChats.limit a))%Q
  /\ ~ (forall (q : ListChats.page) (b : ListChats.arguments),
          (ListChats.number
             (List.length (ListChats.extractChats
                             (ListChats.cards q)
                             (ListChats.effectiveLimit (ListChats.limit b))))
           <= ListChats.effectiveLimit (ListChats.limit b))%Q).
Proof.
  intros c p a.
  assert (Hover : ~ (ListChats.number 3 <= ListChats.effectiveLimit (ListChats.limit a))%Q).
  { intros H. apply Qle_bool_iff in H. vm_compute in H. discriminate. }
  split; [reflexivity | split; [| split]].
  - eexists. reflexivity.
  - exact Hover.
  - intros H. apply Hover. exact (H p a).
Qed.

(** X27: the cap that [chatguru_list_chats] hands to the scroll loop and to
    the extraction is [min(limit, 100)], which is 100 for a limit of 150.  The
    extraction reads the first cards up to the cap rounded up to a whole
    number and no more, and none with a cap of zero or less: the list that is
    returned never has more than 100 records, always fewer than the cap plus
    one, and never more than the cap itself when the limit is a whole
    number. *)
Theorem list_chats_is_capped :
  forall (SERVER : string) (p : ListChats.page) (a : ListChats.arguments),
    let cap := ListChats.effectiveLimit (ListChats.limit a) in
    let whole := Z.to_nat (Qceiling cap) in
    ((cap <= ListChats.limit a)%Q /\ (cap <= 100)%Q
     /\ ((cap == ListChats.limit a)%Q \/ (cap == 100)%Q))
    /\ (ListChats.effectiveLimit 150 == 100)%Q
    /\ ListChats.extractChats (ListChats.cards p) cap
       = map ListChats.readCard (firstn whole (ListChats.cards p))
    /\ ((cap <= 0)%Q -> ListChats.extractChats (ListChats.cards p) cap = [])
    /\ (forall (sentence : string) (chats : list ListChats.ChatSummary),
          snd (ListChats.chatguru_list_chats SERVER p a) = Browser.Records sentence chats ->
          chats = map ListChats.readCard (firstn whole (ListChats.cards p))
          /\ List.length chats <= 100
          /\ (ListChats.number (List.length chats) < cap + 1)%Q
          /\ (forall n : Z, (ListChats.limit a == inject_Z n)%Q ->
                (ListChats.number (List.length chats) <= cap)%Q)).
Proof.
  intros SERVER p a cap whole.
  destruct (effectiveLimit_bounds (ListChats.limit a)) as [Hl [H100 [Hmin Hceil]]].
  fold cap in Hl, H100, Hmin, Hceil.
  split; [repeat split; assumption |].
  split; [reflexivity |].
  split; [apply extractChats_firstn |].
  split; [apply extractChats_without_cap |].
  intros sentence chats.
  unfold ListChats.chatguru_list_chats. cbv zeta.
  destruct (negb (ListChats.sessionFile p)); [discriminate |].
  destruct (ListChats.gotoError p); [discriminate |].
  destruct (isLoginPage (ListChats.url p)); [discriminate |].
  rewrite extractChats_firstn.
  change (Z.to_nat (Qceiling (ListChats.effectiveLimit (ListChats.limit a)))) with whole.
  destruct (map ListChats.readCard (firstn whole (ListChats.cards p)))
    as [|r rest] eqn:E; [discriminate |].
  cbn [snd]. intros H. injection H as _ H. subst chats.
  assert (Hlen : 1 <= List.length (r :: rest) <= whole).
  { rewrite <- E, length_map, length_firstn. split; [| lia].
    rewrite <- length_firstn, <- (length_map ListChats.readCard), E. cbn [List.length]. lia. }
  set (n := List.length (r :: rest)) in *.
  assert (Hwhole : Z.of_nat whole = Qceiling cap) by (unfold whole in *; lia).
  assert (Hn : (ListChats.number n <= inject_Z (Qceiling cap))%Q).
  { unfold ListChats.number. rewrite <- Zle_Qle. lia. }
  split; [reflexivity |]. split; [unfold whole in Hlen; lia |]. split.
  - pose proof (Qceiling_lt cap) as Hlt.
    unfold Z.sub in Hlt. rewrite inject_Z_plus, inject_Z_opp in Hlt.
    change (inject_Z 1) with 1%Q in Hlt.
    revert Hn Hlt. generalize (inject_Z (Qceiling cap)) as x.
    generalize (ListChats.number n) as y. generalize cap as z.
    intros z y x Hn Hlt. lra.
  - intros k Hk. apply Qle_trans with (1 := Hn).
    apply Qle_lteq. right. exact (effectiveLimit_whole _ k Hk).
Qed.

(** The scenario of the description: [unread_only = true] and [limit = 150]
    against a list of 120 cards returns 100 records. *)
Lemma list_chats_limit_150 :
  let c := {| ListChats.userName := Some "Maria";
              ListChats.userMsg := Some ("Obrigada!", "Obrig...");
              ListChats.attendanceStatus := Some "EM ATENDI";
              ListChats.attendanceNumber := Some "3";
              ListChats.attendanceHour := Some "09:15";
              ListChats.dataId := None;
              ListChats.dataChatId := None;
              ListChats.dataChat := None;
              ListChats.vueChatId := "686ede5b2333cb755c57d1a5" |} in
  let p := {| ListChats.sessionFile := true;
              ListChats.gotoError := None;
              ListChats.url := "https://s17.expertintegrado.app/chats";
              ListChats.nameInput := true;
              ListChats.phoneInput := true;
              ListChats.unreadCheckbox := true;
              ListChats.archivedCheckbox := true;
              ListChats.favoritedCheckbox := true;
              ListChats.listContainer := true;
              ListChats.cardCount := fun i => 20 * S i;
              ListChats.cards := repeat c 120 |} in
  let a := {| ListChats.arg_status := None;
              ListChats.unread_only := true;
              ListChats.archived := false;
              ListChats.favorited := false;
              ListChats.order_by := None;
              ListChats.department := None;
              ListChats.name := None;
              ListChats.whatsapp_number := None;
              ListChats.limit := 150 |} in
  (ListChats.effectiveLimit (ListChats.limit a) == 100)%Q
  /\ List.length (ListChats.extractChats (ListChats.cards p)
                    (ListChats.effectiveLimit (ListChats.limit a))) = 100.
Proof.
  intros c p a.
  destruct (list_chats_is_capped "17" p a) as [_ [Hcap [Hchats _]]].
  split; [exact Hcap |]. rewrite Hchats. reflexivity.
Defined.

(** ** Rows without text *)

Lemma readRow_some_has_text (date : string) (m : ReadMessages.msgContainer)
      (message : ReadMessages.ChatMessage) :
  ReadMessages.readRow date m = Some message ->
  ReadMessages.texto message <> "".
Proof.
  unfold ReadMessages.readRow.
  destruct (String.eqb_spec (ReadMessages.trimmedOrEmpty (ReadMessages.msgContentT m)) "")
    as [E|E].
  - destruct (ReadMessages.audio m); [| discriminate].
    intros H. injection H as <-. simpl. discriminate.
  - intros H. injection H as <-. simpl. exact E.
Qed.

(** C10: a message row whose container has no text left after trimming adds
    nothing to the collected sequence unless the container holds an audio
    element, in which case it adds one record whose text is "[Áudio]"; a row
    with text adds one record with that text, audio or not. *)
Theorem rows_without_text_or_audio_are_omitted :
  forall (date : string) (c : ReadMessages.child) (m : ReadMessages.msgContainer)
         (rest : list ReadMessages.child),
    ReadMessages.msgData c = false ->
    ReadMessages.rowMsg c = true ->
    ReadMessages.container c = Some m ->
    let text := ReadMessages.trimmedOrEmpty (ReadMessages.msgContentT m) in
    let record (body : string) :=
      {| ReadMessages.remetente :=
           if ReadMessages.bgSentMsg m then ReadMessages.atendente else ReadMessages.cliente;
         ReadMessages.horario := ReadMessages.trimmedOrEmpty (ReadMessages.msgTimestamp m);
         ReadMessages.data := date;
         ReadMessages.texto := body |} in
    (text = "" -> ReadMessages.audio m = false ->
       ReadMessages.collect date (c :: rest) = ReadMessages.collect date rest)
    /\ (text = "" -> ReadMessages.audio m = true ->
       ReadMessages.collect date (c :: rest)
         = record "[Áudio]" :: ReadMessages.collect date rest)
    /\ (text <> "" ->
       ReadMessages.collect date (c :: rest)
         = record text :: ReadMessages.collect date rest).
Proof.
  intros date c m rest Hdata Hrow Hcontainer text record.
  cbn [ReadMessages.collect]. rewrite Hdata, Hrow, Hcontainer. cbn [negb].
  unfold ReadMessages.readRow. fold text.
  destruct (String.eqb_spec text "") as [E|E].
  - split; [| split].
    + intros _ Haudio. now rewrite Haudio.
    + intros _ Haudio. now rewrite Haudio.
    + intros Hne. contradiction.
  - split; [| split].
    + intros He. contradiction.
    + intros He. contradiction.
    + intros _. reflexivity.
Qed.

(** An image between a text and a voice message: the image leaves no record,
    the voice message leaves the placeholder. *)
Lemma image_row_is_omitted :
  let row (text : option string) (voice : bool) :=
    {| ReadMessages.msgData := false;
       ReadMessages.rowMsg := true;
       ReadMessages.textContent := "";
       ReadMessages.container :=
         Some {| ReadMessages.bgSentMsg := false;
                 ReadMessages.msgContentT := text;
                 ReadMessages.audio := voice;
                 ReadMessages.msgTimestamp := Some " 09:14 " |} |} in
  ReadMessages.collect "Hoje" [row None false; row (Some "  ") true] =
    [ {| ReadMessages.remetente := ReadMessages.cliente;
         ReadMessages.horario := "09:14";
         ReadMessages.data := "Hoje";
         ReadMessages.texto := "[Áudio]" |} ].
Proof.
  intros row.
  pose (m := {| ReadMessages.bgSentMsg := false;
                ReadMessages.msgContentT := None;
                ReadMessages.audio := false;
                ReadMessages.msgTimestamp := Some " 09:14 " |}).
  destruct (rows_without_text_or_audio_are_omitted "Hoje" (row None false) m
              [row (Some "  ") true] eq_refl eq_refl eq_refl) as [Homit _].
  rewrite (Homit eq_refl eq_refl). reflexivity.
Defined.

(* ------------------------------------------------------------------------ *)
(** * Further properties of the code *)

(** ** The phone normalizer, continued *)

Lemma replaceNonDigits_every (s : string) :
  Measure.every Js.isDigit (Js.replaceNonDigits s) = true.
Proof.
  induction s as [|c s IH]; [reflexivity |].
  simpl. destruct (Js.isDigit c) eqn:E; [| assumption].
  simpl. now rewrite E.
Qed.

Lemma replaceNonDigits_fixes_digits (s : string) :
  Measure.every Js.isDigit s = true -> Js.replaceNonDigits s = s.
Proof.
  induction s as [|c s IH]; [reflexivity |].
  simpl. intros H. apply andb_true_iff in H as [Hc Hs].
  rewrite Hc. now rewrite IH.
Qed.

Lemma normalizePhone_cases (input : string) :
  let digits := Js.replaceNonDigits input in
  (normalizePhone input = digits
   /\ ((Js.startsWith digits "55" && (12 <=? String.length digits)%nat = true)
       \/ (10 <=? String.length digits)%nat && (String.length digits <=? 11)%nat = false))
  \/ (normalizePhone input = "55" ++ digits
      /\ (10 <=? String.length digits)%nat && (String.length digits <=? 11)%nat = true).
Proof.
  cbv zeta. unfold normalizePhone.
  destruct (Js.startsWith _ "55" && _) eqn:E1; [left; split; [reflexivity | now left] |].
  destruct ((10 <=? _)%nat && _) eqn:E2; [right | left]; split; auto.
Qed.

(** X1: normalizing an already normalized number changes nothing. *)
Theorem normalizePhone_idempotent :
  forall input : string,
    normalizePhone (normalizePhone input) = normalizePhone input.
Proof.
  intros input.
  pose proof (replaceNonDigits_every input) as Hd.
  pose proof (replaceNonDigits_fixes_digits _ Hd) as Hfix.
  destruct (normalizePhone_cases input) as [[Hr Hc] | [Hr Hc]]; rewrite Hr.
  - unfold normalizePhone at 1. rewrite Hfix.
    unfold normalizePhone in Hr. exact Hr.
  - unfold normalizePhone. cbn [Js.replaceNonDigits String.append].
    change (Js.isDigit "5") with true. cbn iota. rewrite Hfix.
    apply andb_true_iff in Hc as [H10 _]. apply Nat.leb_le in H10.
    assert (Hp : Js.startsWith (String "5" (String "5" (Js.replaceNonDigits input))) "55"
                 = true).
    { unfold Js.startsWith. simpl.
      destruct (Js.replaceNonDigits input); reflexivity. }
    rewrite Hp. cbn [String.length].
    assert (Hl : (12 <=? S (S (String.length (Js.replaceNonDigits input))))%nat = true)
      by (apply Nat.leb_le; lia).
    rewrite Hl. reflexivity.
Qed.

(** X2: the result of [normalizePhone] holds decimal digits only, whatever
    the input. *)
Theorem normalizePhone_digits_only :
  forall input : string,
    Measure.every Js.isDigit (normalizePhone input) = true.
Proof.
  intros input.
  pose proof (replaceNonDigits_every input) as Hd.
  destruct (normalizePhone_cases input) as [[Hr _] | [Hr _]]; rewrite Hr.
  - exact Hd.
  - simpl. exact Hd.
Qed.

(** ** Error messages *)

Lemma messages_not_empty (status : Z) (m : string) :
  messages status = Some m -> m <> "".
Proof.
  unfold messages. intros H.
  repeat match type of H with
         | context [match ?x with _ => _ end] => destruct x; try discriminate
         end;
    injection H as <-; discriminate.
Qed.

(** X3: [friendlyError] never yields an empty message, and an entry of its
    table is used whatever default message is passed along. *)
Theorem friendlyError_never_empty :
  forall (status : Z) (defaultMsg : option string),
    friendlyError status defaultMsg <> ""
    /\ (forall m, messages status = Some m -> friendlyError status defaultMsg = m).
Proof.
  intros status defaultMsg. split.
  - unfold friendlyError.
    destruct (messages status) as [m|] eqn:E.
    + now apply (messages_not_empty status).
    + destruct defaultMsg as [d|]; [| discriminate].
      destruct (String.eqb_spec d ""); [discriminate | assumption].
  - intros m Hm. unfold friendlyError. now rewrite Hm.
Qed.

(** ** The request loop, continued *)

Section RequestRuns.
Import Request.

Variable network : nat -> fetched.
Variable retries : nat.

(** A pass either retries, with budget left, or ends the call after its
    fetch. *)
Lemma attemptOnce_shape (k : nat) :
  (k < retries /\ attemptOnce network retries k = (retried network retries k, Continue))
  \/ (exists o, attemptOnce network retries k = ([Fetch k], Done o)).
Proof.
  unfold attemptOnce, retried, retryNotice.
  destruct (network k) as [message | status payload].
  - destruct (Nat.ltb_spec k retries); [left; now split | right; eauto].
  - destruct (negb (ok status) && isRetryable status && (k <? retries)%nat) eqn:E.
    + apply andb_true_iff in E as [_ E]. apply Nat.ltb_lt in E. left. now split.
    + right. destruct (negb (ok status)); [eauto |].
      destruct payload as [data | reason]; [| eauto].
      destruct (Js.getProp data "success") as [flag |]; [| eauto].
      destruct (Js.strictEqFalse flag); eauto.
Qed.

Lemma attempts_trace :
  forall remaining a : nat,
    1 <= remaining ->
    a + remaining = S retries ->
    exists m : nat,
      1 <= m <= remaining
      /\ fst (attempts network retries remaining a)
         = (flat_map (retried network retries) (seq a (m - 1))
              ++ [Fetch (a + (m - 1))])%list.
Proof.
  induction remaining as [|remaining IH]; intros a Hpos Ha; [lia |].
  cbn [attempts].
  destruct (attemptOnce_shape a) as [[Hlt ->] | [o ->]].
  - destruct remaining as [|remaining']; [lia |].
    destruct (IH (S a) ltac:(lia) ltac:(lia)) as [m [Hm Htrace]].
    destruct (attempts network retries (S remaining') (S a)) as [evs o].
    cbn [fst] in *.
    exists (S m). split; [lia |].
    rewrite Htrace. replace (S m - 1) with (S (m - 1)) by lia.
    cbn [seq flat_map]. rewrite <- app_assoc.
    replace (a + S (m - 1)) with (S a + (m - 1)) by lia. reflexivity.
  - exists 1. split; [lia |]. cbn [fst]. simpl. now rewrite Nat.add_0_r.
Qed.

End RequestRuns.

Lemma delays_sum_bound (a j : nat) :
  (fold_right Z.add 0 (map Request.delay (seq a j)) <= 8000 * Z.of_nat j)%Z.
Proof.
  revert a; induction j as [|j IH]; intros a; [simpl; lia |].
  cbn [seq map fold_right]. pose proof (delay_capped a). specialize (IH (S a)). lia.
Qed.

(** X4: whatever the network does, [chatguruRequest] with a budget of
    [retries >= 1] fetches at least once and at most [retries] times, its
    attempts are numbered 1, 2, ... without gaps, each fetch but the last is
    followed at once by a notice and then by the pause of its attempt number,
    the last fetch is followed by nothing, and the time spent sleeping is at
    most 8 seconds per retry. *)
Theorem chatguruRequest_trace_is_bounded :
  forall (network : nat -> Request.fetched) (retries : nat),
    1 <= retries ->
    exists m : nat,
      1 <= m <= retries
      /\ fst (Request.chatguruRequest network retries)
         = (flat_map (fun k => [Request.Fetch k;
                                Request.Log (Request.retryNotice network retries k);
                                Request.Sleep (Z.min (1000 * 2 ^ (Z.of_nat k - 1)) 8000)])
                     (seq 1 (m - 1))
              ++ [Request.Fetch m])%list
      /\ Request.fetches (fst (Request.chatguruRequest network retries)) = seq 1 m
      /\ Request.sleeps (fst (Request.chatguruRequest network retries))
         = map Request.delay (seq 1 (m - 1))
      /\ (Measure.totalSleep (fst (Request.chatguruRequest network retries))
          <= 8000 * (Z.of_nat retries - 1))%Z.
Proof.
  intros network retries Hr.
  destruct (attempts_trace network retries retries 1 Hr ltac:(lia)) as [m [Hm Htrace]].
  exists m. unfold Request.chatguruRequest. rewrite Htrace.
  replace (1 + (m - 1)) with m by lia.
  assert (Hs : Request.sleeps
                 (flat_map (Request.retried network retries) (seq 1 (m - 1))
                    ++ [Request.Fetch m])
               = map Request.delay (seq 1 (m - 1))).
  { rewrite sleeps_app, sleeps_retried. simpl. now rewrite app_nil_r. }
  split; [exact Hm |]. split; [reflexivity |].
  split; [rewrite fetches_app, fetches_retried; apply seq_upto; lia |].
  split; [exact Hs |].
  unfold Measure.totalSleep. rewrite Hs.
  pose proof (delays_sum_bound 1 (m - 1)). lia.
Qed.

(** A 500, a network failure and then a success, with the default budget. *)
Lemma chatguruRequest_trace_of_three :
  let network := fun k : nat =>
    match k with
    | 1 => Request.Response 500 (Request.BodyInvalid "")
    | 2 => Request.NetworkFailure "fetch failed"
    | _ => Request.Response 200 (Request.BodyJson (Js.JObj [("success", Js.JBool true)]))
    end in
  exists m : nat,
    1 <= m <= 3
    /\ fst (Request.chatguruRequest network 3)
       = (flat_map (fun k => [Request.Fetch k;
                              Request.Log (Request.retryNotice network 3 k);
                              Request.Sleep (Z.min (1000 * 2 ^ (Z.of_nat k - 1)) 8000)])
                   (seq 1 (m - 1))
            ++ [Request.Fetch m])%list
    /\ Request.fetches (fst (Request.chatguruRequest network 3)) = seq 1 m
    /\ Request.sleeps (fst (Request.chatguruRequest network 3))
       = map Request.delay (seq 1 (m - 1))
    /\ (Measure.totalSleep (fst (Request.chatguruRequest network 3)) <= 16000)%Z.
Proof.
  intros network.
  assert (H : 1 <= 3) by lia.
  exact (chatguruRequest_trace_is_bounded network 3 H).
Defined.

Section RequestResults.
Import Request.

Variable network : nat -> fetched.
Variable retries : nat.

Lemma attempts_fulfilled :
  forall (remaining a : nat) (v : Js.value),
    1 <= remaining ->
    a + remaining = S retries ->
    snd (attempts network retries remaining a) = Fulfilled v ->
    exists (k : nat) (status : Z) (data : Js.json),
      a <= k <= retries
      /\ network k = Response status (BodyJson data)
      /\ ok status = true
      /\ v = Some data
      /\ data <> Js.JNull
      /\ Js.strictEqFalse (prop data "success") = false.
Proof.
  induction remaining as [|remaining IH]; intros a v Hpos Ha; [lia |].
  cbn [attempts].
  destruct (attemptOnce network retries a) as [evs st] eqn:Hstep.
  destruct st as [| o].
  - destruct (attemptOnce_shape network retries a) as [[Hlt _] | [o' Ho']];
      [| rewrite Ho' in Hstep; discriminate].
    destruct remaining as [|remaining']; [lia |].
    specialize (IH (S a) v ltac:(lia) ltac:(lia)).
    destruct (attempts network retries (S remaining') (S a)) as [evs' o].
    cbn [snd] in *. intros Hv.
    destruct (IH Hv) as [k [status [data [Hk H]]]].
    exists k, status, data. split; [lia | exact H].
  - cbn [snd]. intros ->.
    unfold attemptOnce in Hstep.
    destruct (network a) as [message | status payload] eqn:Hnet.
    + destruct (a <? retries)%nat; discriminate.
    + destruct (negb (ok status) && isRetryable status && (a <? retries)%nat);
        [discriminate |].
      destruct (ok status) eqn:Hok; cbn [negb] in Hstep; [| discriminate].
      destruct payload as [data | reason]; [| discriminate].
      destruct (Js.getProp data "success") as [flag |] eqn:Hflag; [| discriminate].
      destruct (Js.strictEqFalse flag) eqn:Hstrict; [discriminate |].
      injection Hstep as _ Hv.
      exists a, status, data.
      repeat split; try lia; try congruence.
      * intros ->. discriminate.
      * unfold prop. now rewrite Hflag.
Qed.

End RequestResults.

(** X5: with a budget of at least one attempt, what [chatguruRequest] resolves
    with is always the decoded body of a response whose status is in 200..299:
    never [undefined], never [null], and never a body whose success flag is
    the boolean [false]. *)
Theorem chatguruRequest_resolves_with_a_body :
  forall (network : nat -> Request.fetched) (retries : nat) (v : Js.value),
    1 <= retries ->
    snd (Request.chatguruRequest network retries) = Request.Fulfilled v ->
    exists (k : nat) (status : Z) (data : Js.json),
      1 <= k <= retries
      /\ network k = Request.Response status (Request.BodyJson data)
      /\ Request.ok status = true
      /\ v = Some data
      /\ data <> Js.JNull
      /\ Js.strictEqFalse (Request.prop data "success") = false.
Proof.
  intros network retries v Hr Hv.
  apply (attempts_fulfilled network retries retries 1 v); try lia. exact Hv.
Qed.

(** A body without a success flag, on the first attempt. *)
Lemma chatguruRequest_resolves_with_message_id :
  let data := Js.JObj [("message_id", Js.JStr "65f0c2")] in
  let network := fun _ : nat => Request.Response 200 (Request.BodyJson data) in
  exists (k : nat) (status : Z) (body : Js.json),
    1 <= k <= 3
    /\ network k = Request.Response status (Request.BodyJson body)
    /\ Request.ok status = true
    /\ Some data = Some body
    /\ body <> Js.JNull
    /\ Js.strictEqFalse (Request.prop body "success") = false.
Proof.
  intros data network.
  assert (H : 1 <= 3) by lia.
  exact (chatguruRequest_resolves_with_a_body network 3 (Some data) H eq_refl).
Defined.

(** X6: a response in 200..299 whose body is not null and whose success flag
    is not the boolean [false], met at attempt [k] after [k - 1] retried
    failures, ends the call with that body; nothing is fetched after it. *)
Theorem chatguruRequest_recovers :
  forall (network : nat -> Request.fetched) (retries k : nat)
         (status : Z) (data : Js.json) (flag : Js.value),
    1 <= k <= retries ->
    (forall i, 1 <= i < k -> Request.retryableFailure (network i)) ->
    network k = Request.Response status (Request.BodyJson data) ->
    Request.ok status = true ->
    Js.getProp data "success" = Some flag ->
    Js.strictEqFalse flag = false ->
    Request.chatguruRequest network retries =
      ((flat_map (Request.retried network retries) (seq 1 (k - 1))
          ++ [Request.Fetch k])%list,
       Request.Fulfilled (Some data)).
Proof.
  intros network retries k status data flag Hk Hprev Hnet Hok Hflag Hstrict.
  unfold Request.chatguruRequest.
  replace retries with ((k - 1) + S (retries - k)) at 2 by lia.
  rewrite attempts_retry_prefix by (try (intros i Hi; apply Hprev); lia).
  replace (1 + (k - 1)) with k by lia.
  cbn [Request.attempts]. unfold Request.attemptOnce.
  rewrite Hnet, Hok, Hflag, Hstrict. reflexivity.
Qed.

(** Two 503 and then a success: the third attempt delivers the body. *)
Lemma chatguruRequest_recovers_on_third :
  let data := Js.JObj [("success", Js.JBool true); ("message_id", Js.JStr "65f0c2")] in
  let network := fun k : nat =>
    match k with
    | 1 | 2 => Request.Response 503 (Request.BodyInvalid "")
    | _ => Request.Response 200 (Request.BodyJson data)
    end in
  snd (Request.chatguruRequest network 3) = Request.Fulfilled (Some data)
  /\ Request.sleeps (fst (Request.chatguruRequest network 3)) = [1000; 2000]%Z.
Proof.
  intros data network.
  assert (Hk : 1 <= 3 <= 3) by lia.
  assert (Hprev : forall i, 1 <= i < 3 -> Request.retryableFailure (network i)).
  { intros i Hi.
    assert (i = 1 \/ i = 2) as [-> | ->] by lia;
      simpl; unfold RETRYABLE_STATUSES; simpl; tauto. }
  rewrite (chatguruRequest_recovers network 3 3 200 data (Some (Js.JBool true))
             Hk Hprev eq_refl eq_refl eq_refl eq_refl).
  split; reflexivity.
Defined.

(** X7: a response in 200..299 whose body cannot be decoded, or decodes to
    [null], ends the call at the attempt that met it, however much budget is
    left: the decoding failure, or the TypeError of reading a property of
    [null], is thrown and nothing is logged, slept on or fetched after it. *)
Theorem chatguruRequest_does_not_retry_a_bad_body :
  forall (network : nat -> Request.fetched) (retries k : nat)
         (status : Z) (payload : Request.body),
    1 <= k <= retries ->
    (forall i, 1 <= i < k -> Request.retryableFailure (network i)) ->
    network k = Request.Response status payload ->
    Request.ok status = true ->
    let run (e : Request.thrown) :=
      ((flat_map (Request.retried network retries) (seq 1 (k - 1))
          ++ [Request.Fetch k])%list,
       Request.Rejected e) in
    (forall reason, payload = Request.BodyInvalid reason ->
       Request.chatguruRequest network retries = run (Request.JsonRejected reason))
    /\ (payload = Request.BodyJson Js.JNull ->
        Request.chatguruRequest network retries = run Request.TypeErrorOnNull).
Proof.
  intros network retries k status payload Hk Hprev Hnet Hok run.
  assert (Hrun : Request.chatguruRequest network retries =
            ((flat_map (Request.retried network retries) (seq 1 (k - 1))
                ++ fst (Request.attempts network retries (S (retries - k)) k))%list,
             snd (Request.attempts network retries (S (retries - k)) k))).
  { unfold Request.chatguruRequest.
    replace retries with ((k - 1) + S (retries - k)) at 2 by lia.
    rewrite attempts_retry_prefix by (try (intros i Hi; apply Hprev); lia).
    now replace (1 + (k - 1)) with k by lia. }
  rewrite Hrun. cbn [Request.attempts]. unfold Request.attemptOnce.
  rewrite Hnet, Hok. cbn [negb andb].
  split.
  - intros reason ->. reflexivity.
  - intros ->. reflexivity.
Qed.

(** An HTML error page served with status 200 on the first of three
    attempts. *)
Lemma chatguruRequest_html_on_200 :
  let network := fun _ : nat =>
    Request.Response 200 (Request.BodyInvalid "Unexpected token < in JSON at position 0") in
  Request.chatguruRequest network 3 =
    ([Request.Fetch 1],
     Request.Rejected (Request.JsonRejected "Unexpected token < in JSON at position 0")).
Proof.
  intros network.
  assert (Hk : 1 <= 1 <= 3) by lia.
  assert (Hprev : forall i, 1 <= i < 1 -> Request.retryableFailure (network i))
    by (intros i Hi; lia).
  destruct (chatguruRequest_does_not_retry_a_bad_body network 3 1 200 _
              Hk Hprev eq_refl eq_refl) as [Hbad _].
  exact (Hbad _ eq_refl).
Defined.

(** ** The scrape operations, continued *)

Lemma closes_app (xs ys : list Browser.action) :
  Measure.closes (xs ++ ys) = Measure.closes xs + Measure.closes ys.
Proof. unfold Measure.closes. now rewrite filter_app, length_app. Qed.

Lemma totalPause_app (xs ys : list Browser.action) :
  Measure.totalPause (xs ++ ys) = (Measure.totalPause xs + Measure.totalPause ys)%Z.
Proof.
  unfold Measure.totalPause. rewrite flat_map_app.
  induction (flat_map _ xs) as [|z zs IH]; simpl; lia.
Qed.

Lemma scrollUp_measures (rowCount : nat -> nat) (chatBox : nat -> bool) (limit : Z) :
  forall remaining i before,
    Measure.closes (ReadMessages.scrollUp rowCount chatBox limit remaining i before) = 0
    /\ (0 <= Measure.totalPause
               (ReadMessages.scrollUp rowCount chatBox limit remaining i before)
        <= 2500 * Z.of_nat remaining)%Z.
Proof.
  induction remaining as [|remaining IH]; intros i before.
  - split; [reflexivity | cbn -[Z.add Z.mul Z.of_nat]; lia].
  - cbn [ReadMessages.scrollUp].
    destruct (Z.of_nat (rowCount i) >=? limit)%Z; [split; [reflexivity | cbn -[Z.add Z.mul Z.of_nat]; lia] |].
    destruct ((rowCount i =? before)%nat && (1 <? i)%nat); [split; [reflexivity | cbn -[Z.add Z.mul Z.of_nat]; lia] |].
    destruct (IH (S i) (rowCount i)) as [Hc Hp].
    rewrite closes_app, totalPause_app, Hc, Nat2Z.inj_succ.
    set (rest := Measure.totalPause
                   (ReadMessages.scrollUp rowCount chatBox limit remaining (S i) (rowCount i)))
      in *.
    destruct (chatBox i); cbn -[Z.add Z.mul Z.of_nat]; split; lia.
Qed.

Lemma scrollDown_measures (cardCount : nat -> nat) (targetCount : Q) :
  forall remaining i prevCount,
    Measure.closes (ListChats.scrollDown cardCount targetCount remaining i prevCount) = 0
    /\ (0 <= Measure.totalPause
               (ListChats.scrollDown cardCount targetCount remaining i prevCount)
        <= 800 * Z.of_nat remaining)%Z.
Proof.
  induction remaining as [|remaining IH]; intros i prevCount.
  - split; [reflexivity | cbn -[Z.add Z.mul Z.of_nat]; lia].
  - cbn [ListChats.scrollDown].
    destruct (ListChats.reaches (cardCount i) targetCount || (cardCount i =? prevCount)%nat);
      [split; [reflexivity | cbn -[Z.add Z.mul Z.of_nat]; lia] |].
    destruct (IH (S i) (cardCount i)) as [Hc Hp].
    rewrite closes_app, totalPause_app, Hc, Nat2Z.inj_succ.
    set (rest := Measure.totalPause
                   (ListChats.scrollDown cardCount targetCount remaining (S i) (cardCount i)))
      in *.
    cbn -[Z.add Z.mul Z.of_nat]. split; lia.
Qed.

Lemma whenGiven_measures (x : option string) (f : string -> list Browser.action) :
  (forall s, Measure.closes (f s) = 0
             /\ (0 <= Measure.totalPause (f s) <= 2000)%Z) ->
  Measure.closes (ListChats.whenGiven x f) = 0
  /\ (0 <= Measure.totalPause (ListChats.whenGiven x f) <= 2000)%Z.
Proof.
  intros H. unfold ListChats.whenGiven.
  destruct (ListChats.given x); [apply H | split; [reflexivity | cbn -[Z.add Z.mul Z.of_nat]; lia]].
Qed.

Lemma applyFilters_measures (p : ListChats.page) (a : ListChats.arguments) :
  Measure.closes (ListChats.applyFilters p a) = 0
  /\ (0 <= Measure.totalPause (ListChats.applyFilters p a) <= 17000)%Z.
Proof.
  unfold ListChats.applyFilters. cbn [List.concat].
  rewrite !closes_app, !totalPause_app.
  assert (H1 := whenGiven_measures (ListChats.name a)
            (fun n => if ListChats.nameInput p
                      then [Browser.Fill "#inChatsName" n; Browser.Pause 2000] else [])).
  assert (H2 := whenGiven_measures (ListChats.whatsapp_number a)
            (fun w => if ListChats.phoneInput p
                      then [Browser.Fill "#inChatsWhatsappNum" (normalizePhone w);
                            Browser.Pause 2000] else [])).
  assert (H3 := whenGiven_measures (ListChats.arg_status a)
            (fun s => [Browser.SelectOption "#selChatsStatus" s; Browser.Pause 2000])).
  assert (H4 := whenGiven_measures (ListChats.order_by a)
            (fun o => [Browser.SelectOption "#selChatsOrder" o; Browser.Pause 2000])).
  assert (H5 := whenGiven_measures (ListChats.department a)
            (fun d => [Browser.ClickDepartment d; Browser.Pause 2000])).
  destruct H1 as [C1 P1]; [intros s; destruct (ListChats.nameInput p); cbn -[Z.add Z.mul Z.of_nat]; lia |].
  destruct H2 as [C2 P2]; [intros s; destruct (ListChats.phoneInput p); cbn -[Z.add Z.mul Z.of_nat]; lia |].
  destruct H3 as [C3 P3]; [intros s; cbn -[Z.add Z.mul Z.of_nat]; lia |].
  destruct H4 as [C4 P4]; [intros s; cbn -[Z.add Z.mul Z.of_nat]; lia |].
  destruct H5 as [C5 P5]; [intros s; cbn -[Z.add Z.mul Z.of_nat]; lia |].
  rewrite C1, C2, C3, C4, C5.
  destruct (ListChats.unread_only a && ListChats.unreadCheckbox p),
           (ListChats.archived a && ListChats.archivedCheckbox p),
           (ListChats.favorited a && ListChats.favoritedCheckbox p);
    cbn -[Z.add Z.mul Z.of_nat]; split; lia.
Qed.

(** X8: [chatguru_read_messages] and [chatguru_list_chats] never open a
    browser when the session file is missing, and otherwise close it exactly
    once, as their last action, on every path: expired session, failed
    navigation, empty result or records. *)
Theorem scrape_closes_browser_exactly_once :
  forall (SERVER : string) (p : ReadMessages.page) (chat_id : string) (limit : Z)
         (q : ListChats.page) (a : ListChats.arguments),
    let closedLast (opened : bool) (trace : list Browser.action) :=
      if opened
      then exists before, trace = (before ++ [Browser.Close])%list
                          /\ Measure.closes before = 0
      else trace = [] in
    closedLast (ReadMessages.sessionFile p)
               (fst (ReadMessages.chatguru_read_messages SERVER p chat_id limit))
    /\ closedLast (ListChats.sessionFile q)
                  (fst (ListChats.chatguru_list_chats SERVER q a)).
Proof.
  intros SERVER p chat_id limit q a closedLast. unfold closedLast. split.
  - unfold ReadMessages.chatguru_read_messages.
    destruct (ReadMessages.sessionFile p); cbn [negb]; [| reflexivity].
    destruct (ReadMessages.gotoError p).
    { now exists [Browser.Goto (ReadMessages.chatUrl SERVER chat_id)]. }
    destruct (isLoginPage (ReadMessages.url p)).
    { now exists [Browser.Goto (ReadMessages.chatUrl SERVER chat_id); Browser.Pause 5000]. }
    cbv zeta.
    exists ([Browser.Goto (ReadMessages.chatUrl SERVER chat_id); Browser.Pause 5000]
              ++ [Browser.WaitForSelector "#chat_messages_app"; Browser.Pause 2000;
                  Browser.RemoveOverlays]
              ++ ReadMessages.scrollUp (ReadMessages.rowCount p) (ReadMessages.chatBox p)
                   limit 10 0 0
              ++ [Browser.ExtractRecords])%list.
    split.
    + destruct (ReadMessages.extractMessages _ _); cbn [fst];
        now rewrite <- !app_assoc.
    + rewrite !closes_app.
      destruct (scrollUp_measures (ReadMessages.rowCount p) (ReadMessages.chatBox p)
                  limit 10 0 0) as [-> _].
      reflexivity.
  - unfold ListChats.chatguru_list_chats. cbv zeta.
    destruct (ListChats.sessionFile q); cbn [negb]; [| reflexivity].
    destruct (ListChats.gotoError q).
    { now exists [Browser.Goto (Browser.panelUrl SERVER)]. }
    destruct (isLoginPage (ListChats.url q)).
    { now exists [Browser.Goto (Browser.panelUrl SERVER); Browser.Pause 5000]. }
    exists ([Browser.Goto (Browser.panelUrl SERVER); Browser.Pause 5000]
              ++ [Browser.RemoveOverlays]
              ++ ListChats.applyFilters q a
              ++ (if ListChats.listContainer q
                  then ListChats.scrollDown (ListChats.cardCount q)
                         (ListChats.effectiveLimit (ListChats.limit a)) 10 0 0
                  else [])
              ++ [Browser.Pause 1000; Browser.ExtractRecords])%list.
    split.
    + destruct (ListChats.extractChats _ _); cbn [fst];
        now rewrite <- !app_assoc.
    + rewrite !closes_app.
      destruct (applyFilters_measures q a) as [-> _].
      destruct (ListChats.listContainer q); [| reflexivity].
      destruct (scrollDown_measures (ListChats.cardCount q)
                  (ListChats.effectiveLimit (ListChats.limit a)) 10 0 0) as [-> _].
      reflexivity.
Qed.

(** X9: the fixed pauses of one run add up to at most 32 seconds in
    [chatguru_read_messages] and to at most 31 seconds in
    [chatguru_list_chats], whatever the page does and whatever is asked. *)
Theorem scrape_pauses_are_bounded :
  forall (SERVER : string) (p : ReadMessages.page) (chat_id : string) (limit : Z)
         (q : ListChats.page) (a : ListChats.arguments),
    (Measure.totalPause (fst (ReadMessages.chatguru_read_messages SERVER p chat_id limit))
     <= 32000)%Z
    /\ (Measure.totalPause (fst (ListChats.chatguru_list_chats SERVER q a)) <= 31000)%Z.
Proof.
  intros SERVER p chat_id limit q a. split.
  - unfold ReadMessages.chatguru_read_messages.
    destruct (negb (ReadMessages.sessionFile p)); [cbn -[Z.add Z.mul Z.of_nat]; lia |].
    destruct (ReadMessages.gotoError p); [cbn -[Z.add Z.mul Z.of_nat]; lia |].
    destruct (isLoginPage (ReadMessages.url p)); [cbn -[Z.add Z.mul Z.of_nat]; lia |].
    cbv zeta.
    assert (H : (Measure.totalPause
                   ([Browser.Goto (ReadMessages.chatUrl SERVER chat_id); Browser.Pause 5000]
                      ++ [Browser.WaitForSelector "#chat_messages_app"; Browser.Pause 2000;
                          Browser.RemoveOverlays]
                      ++ ReadMessages.scrollUp (ReadMessages.rowCount p)
                           (ReadMessages.chatBox p) limit 10 0 0
                      ++ [Browser.ExtractRecords; Browser.Close]) <= 32000)%Z).
    { rewrite !totalPause_app.
      destruct (scrollUp_measures (ReadMessages.rowCount p) (ReadMessages.chatBox p)
                  limit 10 0 0) as [_ Hp].
      cbn -[Z.add Z.mul Z.of_nat] in *. lia. }
    destruct (ReadMessages.extractMessages _ _); exact H.
  - unfold ListChats.chatguru_list_chats. cbv zeta.
    destruct (negb (ListChats.sessionFile q)); [cbn -[Z.add Z.mul Z.of_nat]; lia |].
    destruct (ListChats.gotoError q); [cbn -[Z.add Z.mul Z.of_nat]; lia |].
    destruct (isLoginPage (ListChats.url q)); [cbn -[Z.add Z.mul Z.of_nat]; lia |].
    assert (H : (Measure.totalPause
                   ([Browser.Goto (Browser.panelUrl SERVER); Browser.Pause 5000]
                      ++ [Browser.RemoveOverlays]
                      ++ ListChats.applyFilters q a
                      ++ (if ListChats.listContainer q
                          then ListChats.scrollDown (ListChats.cardCount q)
                                 (ListChats.effectiveLimit (ListChats.limit a)) 10 0 0
                          else [])
                      ++ [Browser.Pause 1000; Browser.ExtractRecords; Browser.Close])
                 <= 31000)%Z).
    { rewrite !totalPause_app.
      destruct (applyFilters_measures q a) as [_ Hf].
      destruct (scrollDown_measures (ListChats.cardCount q)
                  (ListChats.effectiveLimit (ListChats.limit a)) 10 0 0) as [_ Hs].
      destruct (ListChats.listContainer q); cbn -[Z.add Z.mul Z.of_nat] in *; lia. }
    destruct (ListChats.extractChats _ _); exact H.
Qed.

(** ** Extracted messages, continued *)

Lemma collect_has_text (children : list ReadMessages.child) :
  forall date : string,
    Forall (fun m => ReadMessages.texto m <> "") (ReadMessages.collect date children).
Proof.
  induction children as [|c children IH]; intros date; [constructor |].
  cbn [ReadMessages.collect].
  destruct (ReadMessages.msgData c); [apply IH |].
  destruct (negb (ReadMessages.rowMsg c)); [apply IH |].
  destruct (ReadMessages.container c) as [m|]; [| apply IH].
  destruct (ReadMessages.readRow date m) as [message|] eqn:E; [| apply IH].
  constructor; [now apply (readRow_some_has_text date m) | apply IH].
Qed.

Lemma slice_keeps {A : Type} (P : A -> Prop) (arr : list A) (start : Z) :
  Forall P arr -> Forall P (Js.slice arr start).
Proof.
  intros H. unfold Js.slice.
  rewrite <- (firstn_skipn (Z.to_nat
    (if (start <? 0)%Z then Z.max (Z.of_nat (List.length arr) + start) 0
     else Z.min start (Z.of_nat (List.length arr)))) arr) in H.
  now apply Forall_app in H as [_ H].
Qed.

(** X10: when [chatguru_read_messages] answers with records, there is at
    least one, none of them has an empty text, and no sentence precedes the
    serialized list. *)
Theorem read_messages_records_have_text :
  forall (SERVER : string) (p : ReadMessages.page) (chat_id : string) (limit : Z)
         (sentence : string) (messages : list ReadMessages.ChatMessage),
    snd (ReadMessages.chatguru_read_messages SERVER p chat_id limit)
      = Browser.Records sentence messages ->
    sentence = ""
    /\ messages <> []
    /\ Forall (fun m => ReadMessages.texto m <> "") messages.
Proof.
  intros SERVER p chat_id limit sentence messages.
  unfold ReadMessages.chatguru_read_messages.
  destruct (negb (ReadMessages.sessionFile p)); [discriminate |].
  destruct (ReadMessages.gotoError p); [discriminate |].
  destruct (isLoginPage (ReadMessages.url p)); [discriminate |].
  cbv zeta.
  assert (Htext : Forall (fun m => ReadMessages.texto m <> "")
                    (ReadMessages.extractMessages (ReadMessages.messageList p) limit)).
  { unfold ReadMessages.extractMessages.
    destruct (ReadMessages.messageList p) as [children|]; [| constructor].
    apply slice_keeps, collect_has_text. }
  destruct (ReadMessages.extractMessages (ReadMessages.messageList p) limit)
    as [|m ms]; [discriminate |].
  cbn [snd]. intros H. injection H as Hs Hm. subst.
  split; [reflexivity | split; [discriminate | exact Htext]].
Qed.

(** One text message on the page. *)
Lemma read_messages_one_record :
  let p := {| ReadMessages.sessionFile := true;
              ReadMessages.gotoError := None;
              ReadMessages.url := "https://s17.expertintegrado.app/chats#686ede5b2333cb755c57d1a5";
              ReadMessages.rowCount := fun _ => 1;
              ReadMessages.chatBox := fun _ => true;
              ReadMessages.messageList :=
                Some [ {| ReadMessages.msgData := false;
                          ReadMessages.rowMsg := true;
                          ReadMessages.textContent := "Bom dia 09:14";
                          ReadMessages.container :=
                            Some {| ReadMessages.bgSentMsg := false;
                                    ReadMessages.msgContentT := Some "Bom dia";
                                    ReadMessages.audio := false;
                                    ReadMessages.msgTimestamp := Some "09:14" |} |} ] |} in
  let message := {| ReadMessages.remetente := ReadMessages.cliente;
                    ReadMessages.horario := "09:14";
                    ReadMessages.data := "";
                    ReadMessages.texto := "Bom dia" |} in
  "" = "" /\ [message] <> [] /\ Forall (fun m => ReadMessages.texto m <> "") [message].
Proof.
  intros p message.
  exact (read_messages_records_have_text "17" p "686ede5b2333cb755c57d1a5" 50
           "" [message] eq_refl).
Defined.

Lemma collect_without_separator (children : list ReadMessages.child) (date : string) :
  forallb (fun c => negb (ReadMessages.msgData c)) children = true ->
  Forall (fun m => ReadMessages.data m = date) (ReadMessages.collect date children).
Proof.
  induction children as [|c children IH]; intros H; [constructor |].
  cbn [forallb] in H. apply andb_true_iff in H as [Hc H].
  cbn [ReadMessages.collect].
  destruct (ReadMessages.msgData c); [discriminate |].
  destruct (negb (ReadMessages.rowMsg c)); [now apply IH |].
  destruct (ReadMessages.container c) as [m|]; [| now apply IH].
  unfold ReadMessages.readRow.
  destruct (String.eqb _ ""); [destruct (ReadMessages.audio m) |];
    try (constructor; [reflexivity |]); now apply IH.
Qed.

(** X11: a date separator relabels everything below it up to the next
    separator: the messages collected above it are unaffected, and every
    message collected from the rows that follow it, as long as no other
    separator comes, carries its trimmed text as date. *)
Theorem date_separator_labels_what_follows :
  forall (date : string) (above below : list ReadMessages.child)
         (separator : ReadMessages.child),
    ReadMessages.msgData separator = true ->
    forallb (fun c => negb (ReadMessages.msgData c)) below = true ->
    let label := Js.trim (ReadMessages.textContent separator) in
    ReadMessages.collect date (above ++ separator :: below)
      = (ReadMessages.collect date above ++ ReadMessages.collect label below)%list
    /\ Forall (fun m => ReadMessages.data m = label) (ReadMessages.collect label below).
Proof.
  intros date above below separator Hsep Hbelow label.
  split; [| now apply collect_without_separator].
  revert date. induction above as [|c above IH]; intros date.
  - cbn [app ReadMessages.collect]. now rewrite Hsep.
  - cbn [app ReadMessages.collect].
    destruct (ReadMessages.msgData c); [apply IH |].
    destruct (negb (ReadMessages.rowMsg c)); [apply IH |].
    destruct (ReadMessages.container c) as [m|]; [| apply IH].
    destruct (ReadMessages.readRow date m); [| apply IH].
    cbn [app]. f_equal. apply IH.
Qed.

(** A message of yesterday, the separator of today, a message of today. *)
Lemma date_separator_today :
  let row (text : string) :=
    {| ReadMessages.msgData := false;
       ReadMessages.rowMsg := true;
       ReadMessages.textContent := text;
       ReadMessages.container :=
         Some {| ReadMessages.bgSentMsg := false;
                 ReadMessages.msgContentT := Some text;
                 ReadMessages.audio := false;
                 ReadMessages.msgTimestamp := None |} |} in
  let separator :=
    {| ReadMessages.msgData := true;
       ReadMessages.rowMsg := false;
       ReadMessages.textContent := " Hoje ";
       ReadMessages.container := None |} in
  map ReadMessages.data
      (ReadMessages.collect "Ontem" ([row "oi"] ++ separator :: [row "bom dia"]))
  = ["Ontem"; "Hoje"].
Proof.
  intros row separator.
  destruct (date_separator_labels_what_follows "Ontem" [row "oi"] [row "bom dia"]
              separator eq_refl eq_refl) as [Hsplit _].
  rewrite Hsplit. reflexivity.
Defined.

(** ** The chat list, continued *)

(** X12: whatever limit is asked for, [chatguru_list_chats] returns at most
    100 records, and they are the records of the first cards of the page, in
    the order of the page. *)
Theorem list_chats_returns_at_most_100 :
  forall (SERVER : string) (p : ListChats.page) (a : ListChats.arguments)
         (sentence : string) (chats : list ListChats.ChatSummary),
    snd (ListChats.chatguru_list_chats SERVER p a) = Browser.Records sentence chats ->
    List.length chats <= 100
    /\ chats = map ListChats.readCard (firstn (List.length chats) (ListChats.cards p)).
Proof.
  intros SERVER p a sentence chats.
  unfold ListChats.chatguru_list_chats. cbv zeta.
  destruct (negb (ListChats.sessionFile p)); [discriminate |].
  destruct (ListChats.gotoError p); [discriminate |].
  destruct (isLoginPage (ListChats.url p)); [discriminate |].
  rewrite extractChats_firstn.
  set (n := Z.to_nat (Qceiling (ListChats.effectiveLimit (ListChats.limit a)))).
  assert (Hn : n <= 100).
  { destruct (effectiveLimit_bounds (ListChats.limit a)) as [_ [_ [_ H]]].
    unfold n. lia. }
  destruct (map ListChats.readCard (firstn n (ListChats.cards p))) as [|c rest] eqn:E;
    [discriminate |].
  cbn [snd]. intros H. injection H as _ H. subst chats. rewrite <- E.
  rewrite length_map, length_firstn. split; [lia |].
  destruct (Nat.le_ge_cases n (List.length (ListChats.cards p))) as [Hle | Hge].
  - now rewrite Nat.min_l.
  - rewrite Nat.min_r by assumption. now rewrite firstn_all, firstn_all2.
Qed.

(** A limit of one million against a page of three cards. *)
Lemma list_chats_limit_one_million :
  let c := {| ListChats.userName := Some "Maria";
              ListChats.userMsg := None;
              ListChats.attendanceStatus := Some "ABERTO";
              ListChats.attendanceNumber := None;
              ListChats.attendanceHour := None;
              ListChats.dataId := Some "686ede5b2333cb755c57d1a5";
              ListChats.dataChatId := None;
              ListChats.dataChat := None;
              ListChats.vueChatId := "" |} in
  let p := {| ListChats.sessionFile := true;
              ListChats.gotoError := None;
              ListChats.url := "https://s17.expertintegrado.app/chats";
              ListChats.nameInput := true;
              ListChats.phoneInput := true;
              ListChats.unreadCheckbox := true;
              ListChats.archivedCheckbox := true;
              ListChats.favoritedCheckbox := true;
              ListChats.listContainer := true;
              ListChats.cardCount := fun _ => 3;
              ListChats.cards := [c; c; c] |} in
  let a := {| ListChats.arg_status := None;
              ListChats.unread_only := false;
              ListChats.archived := false;
              ListChats.favorited := false;
              ListChats.order_by := None;
              ListChats.department := None;
              ListChats.name := None;
              ListChats.whatsapp_number := None;
              ListChats.limit := 1000000 |} in
  let chats := map ListChats.readCard [c; c; c] in
  List.length chats <= 100
  /\ chats = map ListChats.readCard (firstn (List.length chats) (ListChats.cards p)).
Proof.
  intros c p a chats.
  exact (list_chats_returns_at_most_100 "17" p a _ chats eq_refl).
Defined.

(** X13: on a page that has neither the two text inputs nor the three
    checkboxes, a call that asks for no status, ordering or department applies
    no filter at all (it only waits the final second), yet the summary still
    lists every name, number and toggle that was asked for. *)
Theorem missing_controls_are_skipped_silently :
  forall (p : ListChats.page) (a : ListChats.arguments),
    ListChats.nameInput p = false ->
    ListChats.phoneInput p = false ->
    ListChats.unreadCheckbox p = false ->
    ListChats.archivedCheckbox p = false ->
    ListChats.favoritedCheckbox p = false ->
    ListChats.given (ListChats.arg_status a) = None ->
    ListChats.given (ListChats.order_by a) = None ->
    ListChats.given (ListChats.department a) = None ->
    ListChats.applyFilters p a = [Browser.Pause 1000]
    /\ (ListChats.filtersApplied a = [] <->
        ListChats.given (ListChats.name a) = None
        /\ ListChats.given (ListChats.whatsapp_number a) = None
        /\ ListChats.unread_only a = false
        /\ ListChats.archived a = false
        /\ ListChats.favorited a = false).
Proof.
  intros p a Hn Hp Hu Har Hf Hs Ho Hd.
  unfold ListChats.applyFilters, ListChats.filtersApplied, ListChats.whenGiven.
  rewrite Hn, Hp, Hu, Har, Hf, Hs, Ho, Hd, !andb_false_r.
  split.
  - destruct (ListChats.given (ListChats.name a)),
             (ListChats.given (ListChats.whatsapp_number a)); reflexivity.
  - destruct (ListChats.given (ListChats.name a)),
             (ListChats.given (ListChats.whatsapp_number a)),
             (ListChats.unread_only a), (ListChats.archived a), (ListChats.favorited a);
      cbn; split; intros H; try discriminate; try reflexivity;
      try (repeat split; reflexivity);
      destruct H as [? [? [? [? ?]]]]; discriminate.
Qed.

(** A name filter and the unread toggle against a page without controls. *)
Lemma missing_controls_name_and_unread :
  let p := {| ListChats.sessionFile := true;
              ListChats.gotoError := None;
              ListChats.url := "https://s17.expertintegrado.app/chats";
              ListChats.nameInput := false;
              ListChats.phoneInput := false;
              ListChats.unreadCheckbox := false;
              ListChats.archivedCheckbox := false;
              ListChats.favoritedCheckbox := false;
              ListChats.listContainer := true;
              ListChats.cardCount := fun _ => 0;
              ListChats.cards := [] |} in
  let a := {| ListChats.arg_status := None;
              ListChats.unread_only := true;
              ListChats.archived := false;
              ListChats.favorited := false;
              ListChats.order_by := None;
              ListChats.department := None;
              ListChats.name := Some "Maria";
              ListChats.whatsapp_number := None;
              ListChats.limit := 50 |} in
  ListChats.applyFilters p a = [Browser.Pause 1000]
  /\ ListChats.filtersApplied a <> [].
Proof.
  intros p a.
  destruct (missing_controls_are_skipped_silently p a
              eq_refl eq_refl eq_refl eq_refl eq_refl eq_refl eq_refl eq_refl)
    as [Hnone _].
  split; [exact Hnone | discriminate].
Defined.

(** ** The scroll loops on a page that has nothing more to load *)

(** X14: when the count stays the same at every pass and is below the limit,
    the conversation loop scrolls exactly twice before it gives up, and the
    list loop, whose target may be any number above the count, scrolls once,
    or not at all when the page shows no card. *)
Theorem scroll_loops_on_a_loaded_page :
  forall (count : nat) (chatBox : nat -> bool) (limit : Z) (targetCount : Q),
    (Z.of_nat count < limit)%Z ->
    (inject_Z (Z.of_nat count) < targetCount)%Q ->
    Scroll.passesUp (fun _ => count) chatBox limit = 2
    /\ Scroll.passesDown (fun _ => count) targetCount
       = if (count =? 0)%nat then 0 else 1.
Proof.
  intros count chatBox limit targetCount Hlt Hbelow.
  assert (Hge : (Z.of_nat count >=? limit)%Z = false)
    by (destruct (Z.geb_spec (Z.of_nat count) limit); [lia | reflexivity]).
  assert (Hreach : ListChats.reaches count targetCount = false).
  { unfold ListChats.reaches, ListChats.number.
    destruct (Qle_bool targetCount (inject_Z (Z.of_nat count))) eqn:E; [| reflexivity].
    apply Qle_bool_iff in E. exfalso. exact (Qlt_not_le _ _ Hbelow E). }
  unfold Scroll.passesUp, Scroll.passesDown. split.
  - cbn [ReadMessages.scrollUp]. rewrite Hge.
    change (1 <? 0)%nat with false. change (1 <? 1)%nat with false.
    change (1 <? 2)%nat with true. rewrite !andb_false_r, Nat.eqb_refl. cbn [andb].
    rewrite !pauses_app.
    destruct (chatBox 0), (chatBox 1); reflexivity.
  - cbn [ListChats.scrollDown]. rewrite Hreach. cbn [orb].
    destruct (count =? 0)%nat eqn:E; [reflexivity |].
    rewrite Nat.eqb_refl. reflexivity.
Qed.

(** Twelve messages on the page and a limit of fifty. *)
Lemma scroll_loops_twelve_of_fifty :
  Scroll.passesUp (fun _ => 12) (fun _ => true) 50 = 2
  /\ Scroll.passesDown (fun _ => 12) 50 = 1.
Proof.
  assert (H : (Z.of_nat 12 < 50)%Z) by (simpl; lia).
  exact (scroll_loops_on_a_loaded_page 12 (fun _ => true) 50 50 H eq_refl).
Defined.

(** ** The unread badge *)

Lemma leadingSpace_digit (c : ascii) (rest : string) :
  Js.isDigit c = true -> Js.leadingSpace Js.whiteSpace (String c rest) = None.
Proof.
  destruct c as [b0 b1 b2 b3 b4 b5 b6 b7].
  destruct b0, b1, b2, b3, b4, b5, b6, b7; intros H;
    try (vm_compute in H; discriminate); reflexivity.
Qed.

Lemma trailingSpace_digit (c : ascii) (rest : string) :
  Js.isDigit c = true -> Js.trailingSpace Js.whiteSpace (String c rest) = None.
Proof.
  destruct c as [b0 b1 b2 b3 b4 b5 b6 b7].
  destruct b0, b1, b2, b3, b4, b5, b6, b7; intros H;
    try (vm_compute in H; discriminate); reflexivity.
Qed.

Lemma every_rev_digits (l : list ascii) :
  Measure.every Js.isDigit (string_of_list_ascii l) = true ->
  Measure.every Js.isDigit (string_of_list_ascii (rev l)) = true.
Proof.
  assert (Happ : forall xs ys,
             Measure.every Js.isDigit (string_of_list_ascii (xs ++ ys))
             = Measure.every Js.isDigit (string_of_list_ascii xs)
               && Measure.every Js.isDigit (string_of_list_ascii ys)).
  { induction xs as [|x xs IH]; intros ys; [reflexivity |].
    simpl. now rewrite IH, andb_assoc. }
  induction l as [|c l IH]; [reflexivity |].
  simpl. intros H. apply andb_true_iff in H as [Hc Hl].
  rewrite Happ, (IH Hl). simpl. now rewrite Hc.
Qed.

Lemma reverse_involutive (s : string) : Js.reverse (Js.reverse s) = s.
Proof.
  unfold Js.reverse.
  now rewrite list_ascii_of_string_of_list_ascii, rev_involutive,
    string_of_list_ascii_of_string.
Qed.

(** A string of digits has no white space to trim. *)
Lemma trim_digits (s : string) :
  Measure.every Js.isDigit s = true -> Js.trim s = s.
Proof.
  intros H. unfold Js.trim.
  assert (Hstart : Js.trimStart s = s).
  { destruct s as [|c rest]; [reflexivity |].
    simpl in H. apply andb_true_iff in H as [Hc _].
    unfold Js.trimStart. cbn [String.length Js.trimStartFuel].
    now rewrite leadingSpace_digit. }
  rewrite Hstart. unfold Js.trimEnd.
  assert (Hrev : Measure.every Js.isDigit (Js.reverse s) = true).
  { unfold Js.reverse. apply every_rev_digits.
    now rewrite string_of_list_ascii_of_string. }
  assert (Hlen : String.length s = String.length (Js.reverse s)).
  { unfold Js.reverse.
    assert (Hl : forall xs, String.length (string_of_list_ascii xs) = List.length xs)
      by (induction xs as [|x xs IH]; simpl; congruence).
    assert (Hs : forall t, List.length (list_ascii_of_string t) = String.length t)
      by (induction t as [|x t IH]; simpl; congruence).
    now rewrite Hl, length_rev, Hs. }
  rewrite Hlen.
  destruct (Js.reverse s) as [|c rest] eqn:E.
  - rewrite <- (reverse_involutive s), E. reflexivity.
  - simpl in Hrev. apply andb_true_iff in Hrev as [Hc _].
    cbn [String.length Js.trimEndFuel].
    rewrite trailingSpace_digit by assumption.
    rewrite <- E. apply reverse_involutive.
Qed.

Lemma leadingDigits_uint (d : Decimal.uint) :
  forall a : nat,
    ListChats.leadingDigits (Some (Z.of_nat a)) (NilEmpty.string_of_uint d)
    = Some (Z.of_nat (Nat.of_uint_acc d a)).
Proof.
  induction d as [|d IH|d IH|d IH|d IH|d IH|d IH|d IH|d IH|d IH|d IH]; intros a;
    [reflexivity | ..];
    cbn [NilEmpty.string_of_uint ListChats.leadingDigits Nat.of_uint_acc];
    match goal with
    | |- context [Js.isDigit ?c] => change (Js.isDigit c) with true
    end;
    cbn iota; rewrite <- IH; do 2 f_equal;
    rewrite Nat.tail_mul_spec; cbn [nat_of_ascii]; vm_compute (nat_of_ascii _ - 48);
    lia.
Qed.

Lemma uint_string_digits (d : Decimal.uint) :
  Measure.every Js.isDigit (NilZero.string_of_uint d) = true
  /\ ListChats.leadingDigits None (NilZero.string_of_uint d)
     = Some (Z.of_nat (Nat.of_uint d)).
Proof.
  assert (Hall : forall u, Measure.every Js.isDigit (NilEmpty.string_of_uint u) = true).
  { induction u; simpl; try assumption; reflexivity. }
  destruct d; [split; reflexivity | ..]; (split; [apply Hall |]);
    unfold NilZero.string_of_uint, Nat.of_uint;
    cbn [NilEmpty.string_of_uint ListChats.leadingDigits Nat.of_uint_acc];
    match goal with
    | |- context [Js.isDigit ?c] => change (Js.isDigit c) with true
    end;
    cbn iota;
    match goal with
    | |- ListChats.leadingDigits (Some ?z) _ = Some (Z.of_nat (Nat.of_uint_acc _ ?n)) =>
        replace z with (Z.of_nat n) by (vm_compute; reflexivity)
    end;
    apply leadingDigits_uint.
Qed.

Lemma parseIntOrZero_digits (c : ascii) (rest : string) :
  Js.isDigit c = true ->
  ListChats.parseIntOrZero (String c rest)
  = match ListChats.leadingDigits None (String c rest) with
    | Some n => n
    | None => 0%Z
    end.
Proof.
  destruct c as [b0 b1 b2 b3 b4 b5 b6 b7].
  destruct b0, b1, b2, b3, b4, b5, b6, b7; intros H;
    try (vm_compute in H; discriminate);
    unfold ListChats.parseIntOrZero, Js.trimStart;
    cbn [String.length Js.trimStartFuel];
    rewrite leadingSpace_digit by exact H; reflexivity.
Qed.

(** X15: a card whose unread badge shows the decimal number [n] is given the
    unread count [n]: the badge is written and read back without loss, for
    every [n] up to 2^53, the range in which [parseInt] is exact. *)
Theorem unread_badge_is_read_back :
  forall (c : ListChats.card) (n : nat),
    (Z.of_nat n <= 9007199254740992)%Z ->
    ListChats.attendanceNumber c = Some (Js.natToString n) ->
    ListChats.unread_count (ListChats.readCard c) = Z.of_nat n.
Proof.
  intros c n _ Hbadge. cbn [ListChats.readCard ListChats.unread_count].
  rewrite Hbadge. unfold Js.natToString.
  destruct (uint_string_digits (Nat.to_uint n)) as [Hall Hval].
  rewrite trim_digits by exact Hall.
  destruct (NilZero.string_of_uint (Nat.to_uint n)) as [|ch rest] eqn:E.
  - simpl in Hval. discriminate.
  - simpl in Hall. apply andb_true_iff in Hall as [Hc _].
    rewrite parseIntOrZero_digits by exact Hc.
    rewrite Hval. now rewrite DecimalNat.Unsigned.of_to.
Qed.

(** A card with twelve unread messages. *)
Lemma unread_badge_of_twelve :
  let c := {| ListChats.userName := Some "Maria";
              ListChats.userMsg := Some ("Bom dia", "Bom dia");
              ListChats.attendanceStatus := Some "ABERTO";
              ListChats.attendanceNumber := Some "12";
              ListChats.attendanceHour := Some "09:14";
              ListChats.dataId := None;
              ListChats.dataChatId := None;
              ListChats.dataChat := None;
              ListChats.vueChatId := "686ede5b2333cb755c57d1a5" |} in
  ListChats.unread_count (ListChats.readCard c) = 12%Z.
Proof.
  intros c. apply (unread_badge_is_read_back c 12); [lia | reflexivity].
Defined.

(** ** The chat link *)

Lemma every_app (p : ascii -> bool) (s t : string) :
  Measure.every p (s ++ t) = Measure.every p s && Measure.every p t.
Proof.
  induction s as [|c s IH]; [reflexivity |].
  simpl. now rewrite IH, andb_assoc.
Qed.

Lemma append_nil_r_local (s : string) : s ++ "" = s.
Proof. induction s as [|c s IH]; simpl; congruence. Qed.

Lemma takeHex_some (n : nat) :
  forall s chatId : string,
    GetChatLink.takeHex n s = Some chatId ->
    String.length chatId = n
    /\ Measure.every GetChatLink.isHex chatId = true
    /\ exists after, s = chatId ++ after.
Proof.
  induction n as [|n IH]; intros s chatId H.
  - injection H as <-. repeat split. now exists s.
  - destruct s as [|c rest]; [discriminate |].
    cbn [GetChatLink.takeHex] in H.
    destruct (GetChatLink.isHex c) eqn:Hc; [| discriminate].
    destruct (GetChatLink.takeHex n rest) as [tail|] eqn:E; [| discriminate].
    injection H as <-.
    destruct (IH rest tail E) as [Hlen [Hhex [after Hafter]]].
    repeat split.
    + simpl. now rewrite Hlen.
    + simpl. now rewrite Hc.
    + exists after. simpl. now rewrite Hafter.
Qed.

Lemma takeHex_complete (chatId after : string) :
  Measure.every GetChatLink.isHex chatId = true ->
  GetChatLink.takeHex (String.length chatId) (chatId ++ after) = Some chatId.
Proof.
  induction chatId as [|c chatId IH]; intros H; [reflexivity |].
  simpl in H. apply andb_true_iff in H as [Hc H].
  cbn [String.length String.append GetChatLink.takeHex].
  now rewrite Hc, IH.
Qed.

(** X16: the identifier that [chatguru_get_chat_link] takes from a URL is
    exactly 24 characters long, all of them lowercase hexadecimal, and stands
    in the URL right after a "#"; when none is taken, the URL holds no "#"
    followed by 24 such characters anywhere. *)
Theorem hashMatch_finds_the_identifier :
  forall url : string,
    (forall chatId, GetChatLink.hashMatch url = Some chatId ->
       String.length chatId = 24
       /\ Measure.every GetChatLink.isHex chatId = true
       /\ exists before after, url = before ++ "#" ++ chatId ++ after)
    /\ (GetChatLink.hashMatch url = None ->
        forall before chatId after,
          url = before ++ "#" ++ chatId ++ after ->
          String.length chatId = 24 ->
          Measure.every GetChatLink.isHex chatId = true ->
          False).
Proof.
  intros url. split.
  - induction url as [|c rest IH]; intros chatId H; [discriminate |].
    cbn [GetChatLink.hashMatch] in H.
    assert (Hrest : GetChatLink.hashMatch rest = Some chatId ->
                    String.length chatId = 24
                    /\ Measure.every GetChatLink.isHex chatId = true
                    /\ exists before after,
                         String c rest = before ++ "#" ++ chatId ++ after).
    { intros Hm. destruct (IH chatId Hm) as [Hl [Hh [before [after Hb]]]].
      repeat split; try assumption.
      exists (String c before), after. simpl. now rewrite Hb. }
    destruct (Ascii.eqb_spec c "#") as [-> | Hne]; [| exact (Hrest H)].
    destruct (GetChatLink.takeHex 24 rest) as [taken|] eqn:E; [| exact (Hrest H)].
    injection H as <-.
    destruct (takeHex_some 24 rest taken E) as [Hl [Hh [after Ha]]].
    repeat split; try assumption.
    exists "", after. simpl. now rewrite Ha.
  - induction url as [|c rest IH]; intros Hnone before chatId after Hurl Hlen Hhex.
    + destruct before; discriminate.
    + cbn [GetChatLink.hashMatch] in Hnone.
      destruct before as [|b before].
      * simpl in Hurl. injection Hurl as -> ->.
        rewrite Ascii.eqb_refl in Hnone.
        rewrite <- Hlen, takeHex_complete in Hnone by assumption. discriminate.
      * simpl in Hurl. injection Hurl as -> Hrest.
        apply (IH) with (before := before) (chatId := chatId) (after := after);
          try assumption.
        destruct (Ascii.eqb b "#"); [| assumption].
        destruct (GetChatLink.takeHex 24 rest); [discriminate | assumption].
Qed.

Lemma hashMatch_skips (before rest : string) :
  Measure.every (fun c => negb (Ascii.eqb c "#")) before = true ->
  GetChatLink.hashMatch (before ++ rest) = GetChatLink.hashMatch rest.
Proof.
  induction before as [|c before IH]; intros H; [reflexivity |].
  simpl in H. apply andb_true_iff in H as [Hc H].
  cbn [String.append GetChatLink.hashMatch].
  apply negb_true_iff in Hc. rewrite Hc. now apply IH.
Qed.

(** X17: the link that [chatguru_get_chat_link] reports for an identifier is
    the URL that [chatguru_read_messages] opens for it, and taking the
    identifier from that link gives the identifier back, provided the server
    name holds no "#". *)
Theorem chat_link_round_trip :
  forall (SERVER chatId : string),
    String.length chatId = 24 ->
    Measure.every GetChatLink.isHex chatId = true ->
    Measure.every (fun c => negb (Ascii.eqb c "#")) SERVER = true ->
    GetChatLink.found SERVER chatId
      = "Chat encontrado!" ++ GetChatLink.newline ++ "chat_id: " ++ chatId
          ++ GetChatLink.newline ++ "Link: " ++ ReadMessages.chatUrl SERVER chatId
    /\ GetChatLink.hashMatch (ReadMessages.chatUrl SERVER chatId) = Some chatId.
Proof.
  intros SERVER chatId Hlen Hhex Hserver. split; [reflexivity |].
  unfold ReadMessages.chatUrl. rewrite hashMatch_skips.
  - cbn [String.append GetChatLink.hashMatch]. rewrite Ascii.eqb_refl.
    rewrite <- (append_nil_r_local chatId) at 1.
    rewrite <- Hlen, takeHex_complete by assumption. reflexivity.
  - unfold Browser.panelUrl. rewrite !every_app, Hserver. reflexivity.
Qed.

(** The identifier of the documentation on server 17. *)
Lemma chat_link_round_trip_17 :
  GetChatLink.hashMatch (ReadMessages.chatUrl "17" "686ede5b2333cb755c57d1a5")
  = Some "686ede5b2333cb755c57d1a5".
Proof.
  destruct (chat_link_round_trip "17" "686ede5b2333cb755c57d1a5"
              eq_refl eq_refl eq_refl) as [_ H].
  exact H.
Defined.

Lemma normalizePhone_only_fill (trace : list Browser.action) (number : string) :
  Forall (fun a => match a with
                   | Browser.Fill _ text => text = number
                   | _ => True
                   end) trace ->
  forall selector text, In (Browser.Fill selector text) trace -> text = number.
Proof.
  intros H selector text Hin.
  rewrite Forall_forall in H. exact (H _ Hin).
Qed.

(** X18: once the session file exists, [chatguru_get_chat_link] closes the
    browser exactly once, as its last action, on every path; its pauses add up
    to at most ten seconds; and the only text it ever types into the page is
    the normalized form of the number it was given. *)
Theorem get_chat_link_is_contained :
  forall (SERVER : string) (p : GetChatLink.page) (chat_number : string),
    GetChatLink.sessionFile p = true ->
    let trace := fst (GetChatLink.chatguru_get_chat_link SERVER p chat_number) in
    (exists before, trace = (before ++ [Browser.Close])%list
                    /\ Measure.closes before = 0)
    /\ (Measure.totalPause trace <= 10000)%Z
    /\ (forall selector text,
          In (Browser.Fill selector text) trace -> text = normalizePhone chat_number).
Proof.
  intros SERVER p chat_number Hsession trace. subst trace.
  unfold GetChatLink.chatguru_get_chat_link. rewrite Hsession. cbn [negb]. cbv zeta.
  destruct (GetChatLink.gotoError p).
  { cbn [fst]. split; [now exists [Browser.Goto (Browser.panelUrl SERVER)] |].
    split; [cbn; lia |]. intros selector text [H | [H | []]]; discriminate. }
  destruct (isLoginPage (GetChatLink.url p)).
  { cbn [fst]. split;
      [now exists [Browser.Goto (Browser.panelUrl SERVER); Browser.Pause 5000] |].
    split; [cbn; lia |]. intros selector text [H | [H | [H | []]]]; discriminate. }
  destruct (GetChatLink.phoneInputError p).
  { cbn [fst]. split;
      [now exists [Browser.Goto (Browser.panelUrl SERVER); Browser.Pause 5000;
                   Browser.WaitForSelector "#inChatsWhatsappNum"] |].
    split; [cbn; lia |]. intros selector text [H | [H | [H | [H | []]]]]; discriminate. }
  destruct (GetChatLink.firstCard p); cbn [negb].
  - assert (H : let t := [Browser.Goto (Browser.panelUrl SERVER); Browser.Pause 5000;
                          Browser.WaitForSelector "#inChatsWhatsappNum";
                          Browser.Fill "#inChatsWhatsappNum" (normalizePhone chat_number);
                          Browser.Pause 3000; Browser.Click ".list__user-card";
                          Browser.Pause 2000; Browser.Close] in
                (exists before, t = (before ++ [Browser.Close])%list
                                /\ Measure.closes before = 0)
                /\ (Measure.totalPause t <= 10000)%Z
                /\ (forall selector text,
                      In (Browser.Fill selector text) t -> text = normalizePhone chat_number)).
    { cbv zeta. split;
        [now exists [Browser.Goto (Browser.panelUrl SERVER); Browser.Pause 5000;
                     Browser.WaitForSelector "#inChatsWhatsappNum";
                     Browser.Fill "#inChatsWhatsappNum" (normalizePhone chat_number);
                     Browser.Pause 3000; Browser.Click ".list__user-card";
                     Browser.Pause 2000] |].
      split; [cbn; lia |].
      apply normalizePhone_only_fill. repeat constructor. }
    destruct (GetChatLink.hashMatch (GetChatLink.urlAfterClick p)); exact H.
  - cbn [fst]. split;
      [now exists [Browser.Goto (Browser.panelUrl SERVER); Browser.Pause 5000;
                   Browser.WaitForSelector "#inChatsWhatsappNum";
                   Browser.Fill "#inChatsWhatsappNum" (normalizePhone chat_number);
                   Browser.Pause 3000] |].
    split; [cbn; lia |].
    apply normalizePhone_only_fill. repeat constructor.
Qed.

(** A number typed with punctuation, found on the page. *)
Lemma get_chat_link_found :
  let p := {| GetChatLink.sessionFile := true;
              GetChatLink.gotoError := None;
              GetChatLink.url := "https://s17.expertintegrado.app/chats";
              GetChatLink.phoneInputError := None;
              GetChatLink.firstCard := true;
              GetChatLink.urlAfterClick :=
                "https://s17.expertintegrado.app/chats#686ede5b2333cb755c57d1a5" |} in
  (Measure.totalPause (fst (GetChatLink.chatguru_get_chat_link "17" p "(81) 99109-5702"))
   <= 10000)%Z.
Proof.
  intros p.
  destruct (get_chat_link_is_contained "17" p "(81) 99109-5702" eq_refl) as [_ [H _]].
  exact H.
Defined.

(** ** The set-up script *)

Lemma span_all (p : ascii -> bool) (key : string) (e : ascii) (rest : string) :
  Measure.every p key = true -> p e = false ->
  Setup.span p (key ++ String e rest) = (key, String e rest).
Proof.
  intros Hkey He. induction key as [|c key IH].
  - simpl. now rewrite He.
  - simpl in Hkey. apply andb_true_iff in Hkey as [Hc Hkey].
    cbn [String.append Setup.span]. now rewrite Hc, (IH Hkey).
Qed.

Lemma span_spec (p : ascii -> bool) (s : string) :
  forall taken others,
    Setup.span p s = (taken, others) ->
    s = taken ++ others
    /\ Measure.every p taken = true
    /\ match others with
       | EmptyString => True
       | String e _ => p e = false
       end.
Proof.
  induction s as [|c s IH]; intros taken others H.
  - injection H as <- <-. repeat split.
  - cbn [Setup.span] in H. destruct (p c) eqn:Hc.
    + destruct (Setup.span p s) as [t o] eqn:E. injection H as <- <-.
      destruct (IH t o eq_refl) as [Hs [Ht Ho]].
      repeat split; [simpl; now rewrite <- Hs | simpl; now rewrite Hc | exact Ho].
    + injection H as <- <-. repeat split. exact Hc.
Qed.

(** An argument written as two dashes, a name, an equals sign and a value is
    matched, with that name and that value. *)
Lemma matchArg_written (key value : string) :
  key <> "" ->
  Measure.every Setup.isArgKeyChar key = true ->
  Setup.dotPlus value = true ->
  Setup.matchArg ("--" ++ key ++ "=" ++ value) = Some (key, value).
Proof.
  intros Hne Hkey Hv.
  destruct key as [|k key]; [contradiction |].
  unfold Setup.matchArg. cbn [String.append]. rewrite !Ascii.eqb_refl. cbn [andb].
  change (String k (key ++ String "=" value))
    with (String k key ++ String "=" value).
  rewrite (span_all _ _ "=" value Hkey eq_refl).
  now rewrite Ascii.eqb_refl, Hv.
Qed.

(** X19: an argument of the command line is taken as a credential exactly
    when it is two dashes, a non-empty name of lowercase letters and dashes,
    an equals sign and a non-empty value without line break; the name ends at
    the first equals sign, so the value may itself contain equals signs. *)
Theorem matchArg_reads_key_and_value :
  forall arg key value : string,
    Setup.matchArg arg = Some (key, value)
    <-> arg = "--" ++ key ++ "=" ++ value
        /\ key <> ""
        /\ Measure.every Setup.isArgKeyChar key = true
        /\ Setup.dotPlus value = true.
Proof.
  intros arg key value. split.
  - unfold Setup.matchArg.
    destruct arg as [|c1 [|c2 rest]]; try discriminate.
    destruct (Ascii.eqb_spec c1 "-") as [-> |]; [| discriminate].
    destruct (Ascii.eqb_spec c2 "-") as [-> |]; [| discriminate].
    cbn [andb].
    destruct (Setup.span Setup.isArgKeyChar rest) as [taken others] eqn:E.
    destruct (span_spec _ _ _ _ E) as [Hrest [Hkey _]].
    destruct taken as [|k taken]; [discriminate |].
    destruct others as [|e others]; [discriminate |].
    destruct (Ascii.eqb_spec e "=") as [-> |]; [| discriminate].
    cbn [andb]. destruct (Setup.dotPlus others) eqn:Hv; [| discriminate].
    intros H. injection H as <- <-.
    repeat split; try assumption; [| discriminate].
    simpl. now rewrite Hrest.
  - intros [-> [Hne [Hkey Hv]]]. now apply matchArg_written.
Qed.

Lemma get_assign (obj : Setup.object) (key value : string) :
  Setup.get (Setup.assign obj key value) key = Some value.
Proof.
  induction obj as [|[k v] obj IH]; simpl.
  - now rewrite String.eqb_refl.
  - destruct (String.eqb_spec k key) as [-> | Hne]; simpl.
    + now rewrite String.eqb_refl.
    + apply String.eqb_neq in Hne. now rewrite Hne.
Qed.

Lemma get_assign_other (obj : Setup.object) (key value other : string) :
  other <> key ->
  Setup.get (Setup.assign obj key value) other = Setup.get obj other.
Proof.
  intros Hne. induction obj as [|[k v] obj IH]; simpl.
  - destruct (String.eqb_spec key other); [congruence | reflexivity].
  - destruct (String.eqb_spec k key) as [-> | Hk]; simpl.
    + destruct (String.eqb_spec key other); [congruence | reflexivity].
    + destruct (String.eqb_spec k other); [reflexivity | exact IH].
Qed.

Lemma fold_left_snoc {A B : Type} (f : A -> B -> A) (l : list B) (x : B) (a : A) :
  fold_left f (l ++ [x]) a = f (fold_left f l a) x.
Proof. now rewrite fold_left_app. Qed.

(** Arguments that do not set [key] leave it as it is. *)
Lemma parseArgs_keeps (key value : string) (after : list string) :
  (forall arg v, In arg after -> Setup.matchArg arg <> Some (key, v)) ->
  forall args : Setup.object,
    Setup.get args key = Some value ->
    Setup.get
      (fold_left (fun args arg =>
                    match Setup.matchArg arg with
                    | Some (k, v) => Setup.assign args k v
                    | None => args
                    end) after args) key = Some value.
Proof.
  induction after as [|arg after IH]; intros Hlater args Hget; [exact Hget |].
  cbn [fold_left]. apply IH.
  - intros arg' v Hin. apply Hlater. now right.
  - destruct (Setup.matchArg arg) as [[k v] |] eqn:Hm; [| exact Hget].
    rewrite get_assign_other; [exact Hget |].
    intros ->. apply (Hlater arg v); [now left | exact Hm].
Qed.

(** X20: of the arguments that give a credential on the command line the
    last one counts.  An API key, an account identifier or a phone identifier
    given there is the one the script goes on with, whatever [.env] holds
    and whatever is typed.  The server given there is the one the script goes
    on with only when no credential is missing or the question for the
    server is answered with a blank line: otherwise the answer typed takes
    its place. *)
Theorem command_line_wins :
  forall (before after : list string) (key value : string)
         (envFile : Setup.object) (typed : string -> string),
    key <> "" ->
    Measure.every Setup.isArgKeyChar key = true ->
    Setup.dotPlus value = true ->
    (forall arg v, In arg after -> Setup.matchArg arg <> Some (key, v)) ->
    let cliArgs := Setup.parseArgs (before ++ ("--" ++ key ++ "=" ++ value) :: after) in
    Setup.get cliArgs key = Some value
    /\ (forall apiKey accountId phoneId server,
          Setup.resolved cliArgs envFile typed
            = Some (apiKey, accountId, phoneId, server) ->
          (key = "api-key" -> apiKey = value)
          /\ (key = "account-id" -> accountId = value)
          /\ (key = "phone-id" -> phoneId = value)
          /\ (key = "server" ->
              server = if Setup.needsInput cliArgs envFile
                          && negb (String.eqb (Js.trim (typed "CHATGURU_SERVER")) "")
                       then Js.trim (typed "CHATGURU_SERVER")
                       else value)).
Proof.
  intros before after key value envFile typed Hne Hkey Hv Hlater cliArgs.
  assert (Hget : Setup.get cliArgs key = Some value).
  { unfold cliArgs, Setup.parseArgs. rewrite fold_left_app. cbn [fold_left].
    rewrite (matchArg_written key value Hne Hkey Hv).
    apply parseArgs_keeps; [exact Hlater | apply get_assign]. }
  assert (Hvalue : String.eqb value "" = false).
  { destruct (String.eqb_spec value "") as [-> | _]; [discriminate | reflexivity]. }
  split; [exact Hget |].
  intros apiKey accountId phoneId server.
  assert (Hfirst : forall b c, Setup.firstTruthy (Some value) b c = value).
  { intros b c. unfold Setup.firstTruthy. now rewrite Hvalue. }
  unfold Setup.resolved, Setup.needsInput.
  destruct (Setup.credentials cliArgs envFile) as [[[k1 k2] k3] k4] eqn:Hcred.
  unfold Setup.credentials in Hcred. injection Hcred as H1 H2 H3 H4.
  intros Hrun.
  repeat split; intros ->; rewrite Hget, Hfirst in *.
  - subst k1. rewrite Hvalue in Hrun. cbn [orb] in Hrun.
    destruct (String.eqb k2 "" || String.eqb k3 "");
      match type of Hrun with
      | (if ?c then None else _) = _ => destruct c; [discriminate |]
      end; now injection Hrun as <- _ _ _.
  - subst k2. rewrite Hvalue in Hrun.
    destruct (String.eqb k1 "" || false || String.eqb k3 "");
      match type of Hrun with
      | (if ?c then None else _) = _ => destruct c; [discriminate |]
      end; now injection Hrun as _ <- _ _.
  - subst k3. rewrite Hvalue in Hrun.
    destruct (String.eqb k1 "" || String.eqb k2 "" || false);
      match type of Hrun with
      | (if ?c then None else _) = _ => destruct c; [discriminate |]
      end; now injection Hrun as _ _ <- _.
  - subst k4.
    destruct (String.eqb k1 "" || String.eqb k2 "" || String.eqb k3 ""); cbn [andb].
    + match type of Hrun with
      | (if ?c then None else _) = _ => destruct c; [discriminate |]
      end.
      injection Hrun as _ _ _ <-. unfold Setup.ask, Setup.firstTruthy.
      destruct (String.eqb (Js.trim (typed "CHATGURU_SERVER")) ""); cbn [negb];
        [| reflexivity].
      unfold ListChats.orElse. now rewrite Hvalue.
    + match type of Hrun with
      | (if ?c then None else _) = _ => destruct c; [discriminate |]
      end.
      now injection Hrun as _ _ _ <-.
Qed.

(** Two keys on the command line, a server after them and another key in
    [.env]; the account and the phone are typed, and so is another server. *)
Lemma command_line_wins_twice :
  let argv := ["--api-key=first"; "--api-key=second"; "--server=17"] in
  let envFile := [("CHATGURU_API_KEY", "third")] in
  let typed := fun question : string =>
    if String.eqb question "CHATGURU_SERVER" then " 18 " else "abc" in
  Setup.get (Setup.parseArgs argv) "api-key" = Some "second"
  /\ Setup.resolved (Setup.parseArgs argv) envFile typed
     = Some ("second", "abc", "abc", "18").
Proof.
  intros argv envFile typed.
  assert (Hlater : forall arg v, In arg ["--server=17"] ->
                     Setup.matchArg arg <> Some ("api-key", v)).
  { intros arg v [<- | []]. discriminate. }
  destruct (command_line_wins ["--api-key=first"] ["--server=17"] "api-key" "second"
              envFile typed ltac:(discriminate) eq_refl eq_refl Hlater)
    as [Hget _].
  split; [exact Hget | reflexivity].
Defined.

Lemma substring_all (s : string) : String.substring 0 (String.length s) s = s.
Proof. induction s as [|c s IH]; simpl; congruence. Qed.

Lemma dropBytes_all (s : string) : Js.dropBytes (String.length s) s = "".
Proof.
  unfold Js.dropBytes. rewrite Nat.sub_diag.
  induction s as [|c s IH]; [reflexivity | exact IH].
Qed.

(** A value that [.+] matches and that does not begin with white space is
    captured whole. *)
Lemma matchEnvValue_clean (value : string) :
  Setup.dotPlus value = true ->
  Js.leadingSpace Js.whiteSpace value = None ->
  Setup.matchEnvValue value = Some value.
Proof.
  intros Hv Hlead. unfold Setup.matchEnvValue.
  assert (Hne : value <> "").
  { intros ->. discriminate. }
  destruct value as [|c rest] eqn:E; [contradiction |]. rewrite <- E in *.
  assert (Hafter : Setup.afterSpaces (String.length value) value = [value]).
  { rewrite E. cbn [String.length Setup.afterSpaces]. rewrite <- E. now rewrite Hlead. }
  rewrite Hafter. cbn [rev app Setup.firstSome].
  assert (Hlen : String.length value = S (String.length rest)) by now rewrite E.
  rewrite Hlen at 1. cbn [Setup.valueUpTo]. rewrite <- Hlen.
  rewrite substring_all, dropBytes_all, Hv. reflexivity.
Qed.

Lemma includes_newline (s : string) :
  Js.includes s (Js.bytes [10]) = false ->
  Measure.every (fun c => negb (Ascii.eqb c (ascii_of_nat 10))) s = true.
Proof.
  induction s as [|c s IH]; [reflexivity |].
  cbn [Js.includes]. intros H. apply orb_false_iff in H as [Hhere Hrest].
  simpl. rewrite (IH Hrest), andb_true_r.
  destruct (Ascii.eqb_spec c (ascii_of_nat 10)) as [-> | Hne]; [| reflexivity].
  exfalso. change (Js.bytes [10]) with (String (ascii_of_nat 10) "") in Hhere.
  simpl in Hhere. destruct s; discriminate.
Qed.

Lemma dotPlus_no_newline (value : string) :
  Setup.dotPlus value = true ->
  Measure.every (fun c => negb (Ascii.eqb c (ascii_of_nat 10))) value = true.
Proof.
  unfold Setup.dotPlus. intros H. apply andb_true_iff in H as [_ H].
  cbn [Setup.lineTerminators map forallb] in H.
  apply andb_true_iff in H as [H _]. apply negb_true_iff in H.
  now apply includes_newline.
Qed.

Lemma splitLines_line (line rest : string) :
  Measure.every (fun c => negb (Ascii.eqb c (ascii_of_nat 10))) line = true ->
  Setup.splitLines (line ++ Setup.newline ++ rest) = line :: Setup.splitLines rest.
Proof.
  induction line as [|c line IH]; intros H.
  - reflexivity.
  - simpl in H. apply andb_true_iff in H as [Hc H]. apply negb_true_iff in Hc.
    cbn [String.append Setup.splitLines]. rewrite Hc, (IH H). reflexivity.
Qed.

Lemma matchEnvLine_written (key value : string) :
  key <> "" ->
  Measure.every Setup.isEnvKeyChar key = true ->
  Setup.dotPlus value = true ->
  Js.leadingSpace Js.whiteSpace value = None ->
  Setup.matchEnvLine (key ++ "=" ++ value) = Some (key, value).
Proof.
  intros Hne Hkey Hv Hlead.
  destruct key as [|k key]; [contradiction |].
  unfold Setup.matchEnvLine.
  assert (Hk : Setup.isEnvKeyChar k = true)
    by (simpl in Hkey; now apply andb_true_iff in Hkey as [Hk _]).
  assert (Hstart : Js.trimStart (String k key ++ "=" ++ value)
                   = String k key ++ "=" ++ value).
  { unfold Js.trimStart. cbn [String.append String.length Js.trimStartFuel].
    assert (Hnone : forall r, Js.leadingSpace Js.whiteSpace (String k r) = None).
    { intros r. clear - Hk. destruct k as [b0 b1 b2 b3 b4 b5 b6 b7].
      destruct b0, b1, b2, b3, b4, b5, b6, b7;
        try (vm_compute in Hk; discriminate); reflexivity. }
    now rewrite Hnone. }
  rewrite Hstart.
  change ("=" ++ value) with (String "=" value).
  rewrite (span_all _ _ "=" value Hkey eq_refl).
  assert (Heq : Js.trimStart (String "=" value) = String "=" value).
  { unfold Js.trimStart. cbn [String.length Js.trimStartFuel]. reflexivity. }
  rewrite Heq, Ascii.eqb_refl, (matchEnvValue_clean value Hv Hlead). reflexivity.
Qed.

(** X21: what the script writes to [.env] it reads back: [readEnvFile] on the
    written content yields the four credentials under their names, provided
    each of them is non-empty, holds no line break and does not begin with
    white space. *)
Theorem env_file_round_trip :
  forall apiKey accountId phoneId server : string,
    let clean (value : string) :=
      Setup.dotPlus value = true /\ Js.leadingSpace Js.whiteSpace value = None in
    clean apiKey -> clean accountId -> clean phoneId -> clean server ->
    Setup.readEnvFile (Some (Setup.envContent apiKey accountId phoneId server))
    = [ ("CHATGURU_API_KEY", apiKey); ("CHATGURU_ACCOUNT_ID", accountId);
        ("CHATGURU_PHONE_ID", phoneId); ("CHATGURU_SERVER", server) ].
Proof.
  intros apiKey accountId phoneId server clean [H1 L1] [H2 L2] [H3 L3] [H4 L4].
  assert (Hline : forall key value rest,
             key <> "" ->
             Measure.every Setup.isEnvKeyChar key = true ->
             Setup.dotPlus value = true ->
             Setup.splitLines ((key ++ "=") ++ value ++ Setup.newline ++ rest)
             = (key ++ "=" ++ value) :: Setup.splitLines rest).
  { intros key value rest Hne Hkey Hv.
    assert (Hassoc : (key ++ "=") ++ value ++ Setup.newline ++ rest
                     = (key ++ "=" ++ value) ++ Setup.newline ++ rest).
    { clear. induction key as [|c key IH].
      - reflexivity.
      - cbn [String.append]. f_equal. exact IH. }
    rewrite Hassoc. apply splitLines_line.
    rewrite !every_app, (dotPlus_no_newline value Hv), andb_true_r.
    clear - Hkey. induction key as [|c key IH]; [reflexivity |].
    simpl in Hkey. apply andb_true_iff in Hkey as [Hc Hkey].
    simpl. rewrite (IH Hkey), andb_true_r.
    destruct c as [b0 b1 b2 b3 b4 b5 b6 b7].
    destruct b0, b1, b2, b3, b4, b5, b6, b7;
      try (vm_compute in Hc; discriminate); reflexivity. }
  unfold Setup.readEnvFile, Setup.envContent.
  change ("CHATGURU_API_KEY=" ++ apiKey ++ Setup.newline
            ++ "CHATGURU_ACCOUNT_ID=" ++ accountId ++ Setup.newline
            ++ "CHATGURU_PHONE_ID=" ++ phoneId ++ Setup.newline
            ++ "CHATGURU_SERVER=" ++ server ++ Setup.newline)
    with (("CHATGURU_API_KEY" ++ "=") ++ apiKey ++ Setup.newline
            ++ ("CHATGURU_ACCOUNT_ID" ++ "=") ++ accountId ++ Setup.newline
            ++ ("CHATGURU_PHONE_ID" ++ "=") ++ phoneId ++ Setup.newline
            ++ ("CHATGURU_SERVER" ++ "=") ++ server ++ Setup.newline ++ "").
  rewrite !Hline by (try discriminate; try reflexivity; assumption).
  cbn [Setup.splitLines fold_left].
  rewrite !matchEnvLine_written by (try discriminate; try reflexivity; assumption).
  reflexivity.
Qed.

(** The credentials of the documentation. *)
Lemma env_file_round_trip_example :
  Setup.readEnvFile (Some (Setup.envContent "sua_chave_aqui" "seu_account_id_aqui"
                                            "seu_phone_id_aqui" "17"))
  = [ ("CHATGURU_API_KEY", "sua_chave_aqui");
      ("CHATGURU_ACCOUNT_ID", "seu_account_id_aqui");
      ("CHATGURU_PHONE_ID", "seu_phone_id_aqui"); ("CHATGURU_SERVER", "17") ].
Proof.
  apply env_file_round_trip; split; reflexivity.
Defined.

(** ** Registering the server *)

Lemma field_none_iff (fields : list (string * Js.json)) (key : string) :
  Js.field fields key = None <-> Register.hasField fields key = false.
Proof.
  induction fields as [|[k v] fields IH]; [split; reflexivity |].
  cbn [Js.field Register.hasField].
  destruct (Js.field fields key) as [later|].
  - split; [discriminate |]. intros H. apply orb_false_iff in H as [_ H].
    apply IH in H. discriminate.
  - destruct (String.eqb k key); cbn [orb].
    + split; discriminate.
    + assert (H : Register.hasField fields key = false) by now apply IH.
      now rewrite H.
Qed.

Lemma field_overwrite (fields : list (string * Js.json)) (key : string) (v : Js.json) :
  Register.hasField fields key = true ->
  Js.field (Register.overwrite fields key v) key = Some v.
Proof.
  induction fields as [|[k w] fields IH]; [discriminate |].
  cbn [Register.hasField Register.overwrite map fst]. intros H.
  destruct (Register.hasField fields key) eqn:E.
  - cbn [Js.field]. destruct (String.eqb k key);
      fold (Register.overwrite fields key v); now rewrite IH.
  - rewrite orb_false_r in H. rewrite H.
    assert (Hnone : Js.field (Register.overwrite fields key v) key = None).
    { clear - E. induction fields as [|[k' w'] fields IH]; [reflexivity |].
      cbn [Register.hasField] in E. apply orb_false_iff in E as [Ek E].
      cbn [Register.overwrite map fst]. rewrite Ek. cbn [Js.field].
      fold (Register.overwrite fields key v). rewrite (IH E). now rewrite Ek. }
    cbn [Js.field]. fold (Register.overwrite fields key v).
    now rewrite Hnone, H.
Qed.

Lemma field_overwrite_other (fields : list (string * Js.json)) (key other : string)
      (v : Js.json) :
  other <> key ->
  Js.field (Register.overwrite fields key v) other = Js.field fields other.
Proof.
  intros Hne. induction fields as [|[k w] fields IH]; [reflexivity |].
  cbn [Register.overwrite map fst]. fold (Register.overwrite fields key v).
  destruct (String.eqb_spec k key) as [-> | Hk]; cbn [Js.field]; rewrite IH.
  - destruct (Js.field fields other); [reflexivity |].
    destruct (String.eqb_spec key other); [congruence | reflexivity].
  - reflexivity.
Qed.

Lemma field_app_last (fields : list (string * Js.json)) (key other : string) (v : Js.json) :
  Js.field (fields ++ [(key, v)]) other
  = if String.eqb key other then Some v else Js.field fields other.
Proof.
  induction fields as [|[k w] fields IH].
  - reflexivity.
  - cbn [app Js.field]. rewrite IH.
    destruct (String.eqb key other); [reflexivity |].
    reflexivity.
Qed.

Lemma field_setField (fields : list (string * Js.json)) (key : string) (v : Js.json) :
  Js.field (Register.setField fields key v) key = Some v.
Proof.
  unfold Register.setField.
  destruct (Register.hasField fields key) eqn:E.
  - now apply field_overwrite.
  - rewrite field_app_last. now rewrite String.eqb_refl.
Qed.

Lemma field_setField_other (fields : list (string * Js.json)) (key other : string)
      (v : Js.json) :
  other <> key ->
  Js.field (Register.setField fields key v) other = Js.field fields other.
Proof.
  intros Hne. unfold Register.setField.
  destruct (Register.hasField fields key).
  - now apply field_overwrite_other.
  - rewrite field_app_last.
    destruct (String.eqb_spec key other); [congruence | reflexivity].
Qed.

Lemma hasField_setField (fields : list (string * Js.json)) (key : string) (v : Js.json) :
  Register.hasField (Register.setField fields key v) key = true.
Proof.
  destruct (Register.hasField (Register.setField fields key v) key) eqn:E;
    [reflexivity |].
  apply field_none_iff in E. rewrite field_setField in E. discriminate.
Qed.

Lemma overwrite_twice (fields : list (string * Js.json)) (key : string) (v w : Js.json) :
  Register.overwrite (Register.overwrite fields key v) key w
  = Register.overwrite fields key w.
Proof.
  unfold Register.overwrite. rewrite map_map. apply map_ext.
  intros [k x]. cbn [fst].
  destruct (String.eqb k key) eqn:E; cbn [fst]; now rewrite E.
Qed.

Lemma setField_twice (fields : list (string * Js.json)) (key : string) (v w : Js.json) :
  Register.setField (Register.setField fields key v) key w
  = Register.setField fields key w.
Proof.
  unfold Register.setField at 1. rewrite hasField_setField.
  unfold Register.setField.
  destruct (Register.hasField fields key) eqn:E.
  - apply overwrite_twice.
  - unfold Register.overwrite. rewrite map_app. cbn [map fst].
    rewrite String.eqb_refl. f_equal.
    clear - E. induction fields as [|[k x] fields IH]; [reflexivity |].
    cbn [Register.hasField] in E. apply orb_false_iff in E as [Ek E].
    cbn [map fst]. now rewrite Ek, (IH E).
Qed.

(** *** What the written file holds *)

Lemma json_induction (P : Js.json -> Prop) :
  P Js.JNull ->
  (forall b, P (Js.JBool b)) ->
  (forall f, P (Js.JNum f)) ->
  (forall s, P (Js.JStr s)) ->
  (forall items, Forall P items -> P (Js.JArr items)) ->
  (forall fields, Forall (fun kv => P (snd kv)) fields -> P (Js.JObj fields)) ->
  forall v, P v.
Proof.
  intros Hnull Hbool Hnum Hstr Harr Hobj.
  fix IH 1. intros [| b | f | s | items | fields].
  - exact Hnull.
  - apply Hbool.
  - apply Hnum.
  - apply Hstr.
  - apply Harr. induction items as [|x items IHitems]; constructor.
    + apply IH.
    + exact IHitems.
  - apply Hobj. induction fields as [|[k x] fields IHfields]; constructor.
    + apply IH.
    + exact IHfields.
Qed.

Lemma writtenNumber_again (f : float) :
  Register.stringified (Register.writtenNumber f) = Register.writtenNumber f.
Proof.
  unfold Register.writtenNumber.
  destruct (PrimFloat.is_finite f) eqn:Hfinite; cbn [negb]; [| reflexivity].
  destruct (PrimFloat.eqb f 0%float) eqn:Hzero.
  - reflexivity.
  - cbn [Register.stringified]. unfold Register.writtenNumber.
    now rewrite Hfinite, Hzero.
Qed.

(** Serializing what was read back from a serialization changes nothing. *)
Lemma stringified_again (v : Js.json) :
  Register.stringified (Register.stringified v) = Register.stringified v.
Proof.
  induction v as [| b | f | s | items IH | fields IH] using json_induction;
    try reflexivity.
  - apply writtenNumber_again.
  - cbn [Register.stringified]. f_equal. rewrite map_map.
    induction IH as [|x items Hx _ IHitems]; [reflexivity |].
    cbn [map]. now rewrite Hx, IHitems.
  - cbn [Register.stringified]. f_equal. rewrite map_map.
    induction IH as [|[k x] fields Hx _ IHfields]; [reflexivity |].
    cbn [map fst snd] in *. now rewrite Hx, IHfields.
Qed.

Local Abbreviation eachWritten :=
  (map (fun kv : string * Js.json => (fst kv, Register.stringified (snd kv)))).

Lemma eachWritten_again (fields : list (string * Js.json)) :
  eachWritten (eachWritten fields) = eachWritten fields.
Proof.
  rewrite map_map. apply map_ext. intros [k x]. cbn [fst snd].
  now rewrite stringified_again.
Qed.

Lemma hasField_eachWritten (fields : list (string * Js.json)) (key : string) :
  Register.hasField (eachWritten fields) key = Register.hasField fields key.
Proof.
  induction fields as [|[k x] fields IH]; [reflexivity |].
  cbn [map fst snd Register.hasField]. now rewrite IH.
Qed.

(** A property of the written object is the written property. *)
Lemma field_eachWritten (fields : list (string * Js.json)) (key : string) :
  Js.field (eachWritten fields) key
  = option_map Register.stringified (Js.field fields key).
Proof.
  induction fields as [|[k x] fields IH]; [reflexivity |].
  cbn [map fst snd Js.field]. rewrite IH.
  destruct (Js.field fields key); [reflexivity |].
  now destruct (String.eqb k key).
Qed.

Lemma eachWritten_setField (fields : list (string * Js.json)) (key : string)
      (v : Js.json) :
  eachWritten (Register.setField fields key v)
  = Register.setField (eachWritten fields) key (Register.stringified v).
Proof.
  unfold Register.setField. rewrite hasField_eachWritten.
  destruct (Register.hasField fields key).
  - unfold Register.overwrite. rewrite !map_map. apply map_ext.
    intros [k x]. cbn [fst snd]. now destruct (String.eqb k key).
  - now rewrite map_app.
Qed.

(** X22: when [registerMcp] rewrites a configuration that is an object, every
    property other than [mcpServers] is written back as [JSON.stringify]
    writes it, so it reads as before unless it holds a number that is not
    finite or a negative zero; when [mcpServers] was an object, the same holds
    of every server other than [chatguru], and [chatguru] is the new entry;
    when [mcpServers] was missing or falsy, it becomes an object whose only
    server is [chatguru].  The entry that the script registers is written as
    it is. *)
Theorem registerMcp_preserves_the_rest :
  forall (fields : list (string * Js.json)) (entry written : Js.json)
         (writeError : option string),
    Register.registerMcp (Register.Content (Js.JObj fields)) entry writeError
      = Some written ->
    (forall key, key <> "mcpServers" ->
       Js.getProp written key
       = Some (option_map Register.stringified (Js.field fields key)))
    /\ (forall key v, key <> "mcpServers" ->
          Js.field fields key = Some v ->
          Register.stringified v = v ->
          Js.getProp written key = Some (Some v))
    /\ (forall running,
          Js.field fields "mcpServers" = Some (Js.JObj running) ->
          exists registered,
            Js.getProp written "mcpServers" = Some (Some (Js.JObj registered))
            /\ Js.field registered "chatguru" = Some (Register.stringified entry)
            /\ (forall name, name <> "chatguru" ->
                  Js.field registered name
                  = option_map Register.stringified (Js.field running name))
            /\ (forall name v, name <> "chatguru" ->
                  Js.field running name = Some v ->
                  Register.stringified v = v ->
                  Js.field registered name = Some v))
    /\ (Js.truthy (Js.field fields "mcpServers") = false ->
        Js.getProp written "mcpServers"
          = Some (Some (Js.JObj [("chatguru", Register.stringified entry)])))
    /\ (forall indexPath apiKey accountId phoneId server,
          entry = Register.chatguruEntry indexPath apiKey accountId phoneId server ->
          Register.stringified entry = entry).
Proof.
  intros fields entry written writeError Hrun.
  assert (Hplain : forall key v,
             Js.getProp written key
             = Some (option_map Register.stringified (Js.field fields key)) ->
             Js.field fields key = Some v ->
             Register.stringified v = v ->
             Js.getProp written key = Some (Some v)).
  { intros key v -> -> Hv. cbn [option_map]. now rewrite Hv. }
  assert (Hentry : forall indexPath apiKey accountId phoneId server,
             entry = Register.chatguruEntry indexPath apiKey accountId phoneId server ->
             Register.stringified entry = entry).
  { intros indexPath apiKey accountId phoneId server ->. reflexivity. }
  assert (Hrest : forall key, key <> "mcpServers" ->
             Js.getProp written key
             = Some (option_map Register.stringified (Js.field fields key))).
  { revert Hrun. unfold Register.registerMcp, Register.write. cbv zeta.
    destruct (Js.truthy (Js.field fields "mcpServers")); cbn [negb].
    - destruct (Js.field fields "mcpServers") as [[| b | f | s | items | running] |];
        try discriminate;
        (destruct writeError; [discriminate |]); intros H; injection H as <-;
        intros key Hne; cbn [Register.stringified Js.getProp].
      + now rewrite field_eachWritten.
      + now rewrite field_eachWritten, field_setField_other.
    - destruct writeError; [discriminate |]. intros H. injection H as <-.
      intros key Hne. cbn [Register.stringified Js.getProp].
      now rewrite field_eachWritten, field_setField_other. }
  split; [exact Hrest |].
  split; [intros key v Hne; apply Hplain; now apply Hrest |].
  revert Hrun. unfold Register.registerMcp, Register.write. cbv zeta.
  destruct (Js.truthy (Js.field fields "mcpServers")) eqn:Htruthy; cbn [negb].
  - destruct (Js.field fields "mcpServers") as [[| b | f | s | items | running] |] eqn:Hservers;
      try discriminate.
    + destruct writeError; [discriminate |]. intros H. injection H as <-.
      split; [| split; [discriminate | exact Hentry]].
      intros running H. discriminate.
    + destruct writeError; [discriminate |]. intros H. injection H as <-.
      cbn [Register.stringified Js.getProp].
      split; [| split; [discriminate | exact Hentry]].
      intros running' H. injection H as <-.
      exists (eachWritten (Register.setField running "chatguru" entry)).
      rewrite field_eachWritten, field_setField. cbn [option_map Register.stringified].
      split; [reflexivity |].
      assert (Hother : forall name, name <> "chatguru" ->
                 Js.field (eachWritten (Register.setField running "chatguru" entry)) name
                 = option_map Register.stringified (Js.field running name)).
      { intros name Hne. now rewrite field_eachWritten, field_setField_other. }
      split; [now rewrite field_eachWritten, field_setField |].
      split; [exact Hother |].
      intros name v Hne Hv Hsame. rewrite (Hother name Hne), Hv. cbn [option_map].
      now rewrite Hsame.
  - destruct writeError; [discriminate |]. intros H. injection H as <-.
    cbn [Register.stringified Js.getProp].
    split; [| split; [| exact Hentry]].
    + intros running H. rewrite H in Htruthy. discriminate.
    + intros _. now rewrite field_eachWritten, field_setField.
Qed.

(** A configuration with a theme, a number beyond the range (an infinity once
    parsed) and another server: the theme and the other server read as
    before, the number is written as [null]. *)
Lemma registerMcp_keeps_other_server :
  let other := Js.JObj [("command", Js.JStr "npx")] in
  let fields := [ ("theme", Js.JStr "dark");
                  ("big", Js.JNum PrimFloat.infinity);
                  ("mcpServers", Js.JObj [("github", other)]) ] in
  let entry := Register.chatguruEntry "C:/chatguru-mcp/index.js" "k" "a" "p" "17" in
  let written := Js.JObj [ ("theme", Js.JStr "dark");
                           ("big", Js.JNull);
                           ("mcpServers", Js.JObj [("github", other); ("chatguru", entry)]) ] in
  Register.registerMcp (Register.Content (Js.JObj fields)) entry None = Some written
  /\ Js.getProp written "theme" = Some (Some (Js.JStr "dark"))
  /\ Js.getProp written "big" = Some (Some Js.JNull)
  /\ exists registered,
       Js.getProp written "mcpServers" = Some (Some (Js.JObj registered))
       /\ Js.field registered "chatguru" = Some entry
       /\ Js.field registered "github" = Some other.
Proof.
  intros other fields entry written.
  assert (Hrun : Register.registerMcp (Register.Content (Js.JObj fields)) entry None
                 = Some written) by reflexivity.
  destruct (registerMcp_preserves_the_rest fields entry written None Hrun)
    as [Hrest [Hsame [Hservers _]]].
  split; [exact Hrun |]. split; [| split].
  - apply (Hsame "theme" (Js.JStr "dark")); [discriminate | reflexivity | reflexivity].
  - rewrite (Hrest "big"); [reflexivity | discriminate].
  - destruct (Hservers [("github", other)] eq_refl) as [registered [H1 [H2 [_ H3]]]].
    exists registered. split; [exact H1 | split; [exact H2 |]].
    apply (H3 "github" other); [discriminate | reflexivity | reflexivity].
Defined.

(** X23: registering twice is registering once: run again on the
    configuration it has just written, with the same entry, [registerMcp]
    writes that configuration again, unchanged. *)
Theorem registerMcp_is_idempotent :
  forall (file : Register.configFile) (entry written : Js.json),
    Register.registerMcp file entry None = Some written ->
    Register.registerMcp (Register.Content written) entry None = Some written.
Proof.
  intros file entry written.
  destruct file as [| message | config]; cbn [Register.registerMcp Register.write].
  - intros H. injection H as <-. cbn [Register.stringified map fst snd].
    cbn [Register.registerMcp Register.write]. cbv zeta.
    cbn [Js.field String.eqb Ascii.eqb Bool.eqb Js.truthy negb].
    unfold Register.setField. cbn [Register.hasField String.eqb Ascii.eqb Bool.eqb orb].
    unfold Register.overwrite. cbn [map fst String.eqb Ascii.eqb Bool.eqb].
    cbn [Register.stringified map fst snd]. now rewrite stringified_again.
  - discriminate.
  - destruct config as [| b | f | s | items | fields]; try discriminate.
    + intros H. injection H as <-. cbn [Register.stringified].
      cbn [Register.registerMcp Register.write Register.stringified].
      rewrite map_map. do 2 f_equal. apply map_ext. intros x. apply stringified_again.
    + cbv zeta.
      destruct (Js.truthy (Js.field fields "mcpServers")) eqn:Htruthy; cbn [negb].
      * destruct (Js.field fields "mcpServers")
          as [[| b | f | s | items | running] |] eqn:Hservers; try discriminate.
        -- intros H. injection H as <-. cbn [Register.stringified].
           cbn [Register.registerMcp]. cbv zeta.
           rewrite field_eachWritten, Hservers.
           cbn [option_map Register.stringified Js.truthy negb Register.write].
           now rewrite eachWritten_again.
        -- intros H. injection H as <-. cbn [Register.stringified].
           cbn [Register.registerMcp]. cbv zeta.
           rewrite !eachWritten_setField. cbn [Register.stringified].
           rewrite field_setField. cbn [Js.truthy negb Register.write].
           rewrite (setField_twice (eachWritten fields)).
           rewrite (eachWritten_setField running), (setField_twice (eachWritten running)).
           rewrite (eachWritten_setField (eachWritten fields)).
           cbn [Register.stringified].
           rewrite (eachWritten_setField (eachWritten running)).
           now rewrite !eachWritten_again.
      * intros H. injection H as <-. cbn [Register.stringified].
        cbn [Register.registerMcp]. cbv zeta.
        rewrite !eachWritten_setField. cbn [Register.stringified map fst snd].
        rewrite field_setField. cbn [Js.truthy negb Register.write].
        rewrite setField_twice.
        change (Register.setField [("chatguru", Register.stringified entry)]
                                  "chatguru" entry)
          with [("chatguru", entry)].
        rewrite eachWritten_setField, eachWritten_again.
        reflexivity.
Qed.

(** The first run creates the file, the second leaves it as it is. *)
Lemma registerMcp_twice_on_a_new_file :
  let entry := Register.chatguruEntry "C:/chatguru-mcp/index.js" "k" "a" "p" "17" in
  let written := Js.JObj [("mcpServers", Js.JObj [("chatguru", entry)])] in
  Register.registerMcp (Register.Content written) entry None = Some written.
Proof.
  intros entry written.
  exact (registerMcp_is_idempotent Register.Missing entry written eq_refl).
Defined.

(** ** The request that is sent *)

Lemma encodeByte_plain (c : ascii) :
  Measure.every (fun x => negb (Ascii.eqb x "&") && negb (Ascii.eqb x "="))
                (Form.encodeByte c) = true.
Proof.
  destruct c as [b0 b1 b2 b3 b4 b5 b6 b7].
  destruct b0, b1, b2, b3, b4, b5, b6, b7; reflexivity.
Qed.

Lemma decode_encodeByte (c : ascii) (rest : string) :
  Form.decode (Form.encodeByte c ++ rest) = String c (Form.decode rest).
Proof.
  destruct c as [b0 b1 b2 b3 b4 b5 b6 b7].
  destruct b0, b1, b2, b3, b4, b5, b6, b7; reflexivity.
Qed.

Lemma encode_plain (s : string) :
  Measure.every (fun x => negb (Ascii.eqb x "&") && negb (Ascii.eqb x "="))
                (Form.encode s) = true.
Proof.
  induction s as [|c s IH]; [reflexivity |].
  cbn [Form.encode]. now rewrite every_app, encodeByte_plain, IH.
Qed.

Lemma decode_encode (s : string) : Form.decode (Form.encode s) = s.
Proof.
  induction s as [|c s IH]; [reflexivity |].
  cbn [Form.encode]. now rewrite decode_encodeByte, IH.
Qed.

Lemma nameAndValue_cut (name value : string) :
  Measure.every (fun x => negb (Ascii.eqb x "&") && negb (Ascii.eqb x "=")) name = true ->
  Form.nameAndValue (name ++ "=" ++ value) = (name, value).
Proof.
  induction name as [|c name IH]; intros H; [reflexivity |].
  simpl in H. apply andb_true_iff in H as [Hc H].
  apply andb_true_iff in Hc as [_ Hc]. apply negb_true_iff in Hc.
  cbn [String.append Form.nameAndValue]. rewrite Hc.
  change (name ++ String "=" value) with (name ++ "=" ++ value).
  now rewrite (IH H).
Qed.

Lemma pair_plain (name value : string) :
  Measure.every (fun x => negb (Ascii.eqb x "&") && negb (Ascii.eqb x "="))
                (Form.encode name) = true
  /\ Measure.every (fun x => negb (Ascii.eqb x "&"))
                   (Form.encode name ++ "=" ++ Form.encode value) = true.
Proof.
  split; [apply encode_plain |].
  assert (Hweak : forall s,
             Measure.every (fun x => negb (Ascii.eqb x "&") && negb (Ascii.eqb x "=")) s = true ->
             Measure.every (fun x => negb (Ascii.eqb x "&")) s = true).
  { induction s as [|c s IH]; [reflexivity |]. simpl. intros H.
    apply andb_true_iff in H as [Hc H]. apply andb_true_iff in Hc as [Hc _].
    now rewrite Hc, (IH H). }
  rewrite !every_app, (Hweak _ (encode_plain name)), (Hweak _ (encode_plain value)).
  reflexivity.
Qed.

Lemma splitAt_piece (piece rest : string) :
  Measure.every (fun x => negb (Ascii.eqb x "&")) piece = true ->
  Form.splitAt "&" (piece ++ "&" ++ rest) = piece :: Form.splitAt "&" rest
  /\ Form.splitAt "&" piece = [piece].
Proof.
  induction piece as [|c piece IH]; intros H.
  - split; reflexivity.
  - simpl in H. apply andb_true_iff in H as [Hc H]. apply negb_true_iff in Hc.
    destruct (IH H) as [IH1 IH2].
    cbn [String.append Form.splitAt]. rewrite Hc.
    change (piece ++ String "&" rest) with (piece ++ "&" ++ rest).
    now rewrite IH1, IH2.
Qed.

Lemma parse_piece (name value : string) :
  (if String.eqb (Form.encode name ++ "=" ++ Form.encode value) ""
   then []
   else let (n, v) := Form.nameAndValue (Form.encode name ++ "=" ++ Form.encode value) in
        [(Form.decode n, Form.decode v)])
  = [(name, value)].
Proof.
  assert (Hne : String.eqb (Form.encode name ++ "=" ++ Form.encode value) "" = false).
  { destruct (Form.encode name); reflexivity. }
  rewrite Hne, nameAndValue_cut by apply encode_plain.
  now rewrite !decode_encode.
Qed.

(** What is serialized is read back as it was, whatever bytes the names and
    values hold. *)
Lemma parse_serialize (pairs : list (string * string)) :
  Form.parse (Form.serialize pairs) = pairs.
Proof.
  unfold Form.parse.
  induction pairs as [|[name value] pairs IH]; [reflexivity |].
  destruct pairs as [|next pairs].
  - cbn [Form.serialize].
    destruct (splitAt_piece (Form.encode name ++ "=" ++ Form.encode value) ""
                (proj2 (pair_plain name value))) as [_ ->].
    cbn [flat_map]. rewrite parse_piece. reflexivity.
  - change (Form.serialize ((name, value) :: next :: pairs))
      with (Form.encode name ++ "=" ++ Form.encode value ++ "&"
              ++ Form.serialize (next :: pairs)).
    assert (Hassoc : forall a b c d : string, a ++ b ++ c ++ d = (a ++ b ++ c) ++ d).
    { intros a b c d. induction a as [|x a IHa]; cbn [String.append].
      - induction b as [|y b IHb]; cbn [String.append]; [reflexivity | now rewrite IHb].
      - now rewrite IHa. }
    rewrite Hassoc.
    destruct (splitAt_piece (Form.encode name ++ "=" ++ Form.encode value)
                (Form.serialize (next :: pairs))
                (proj2 (pair_plain name value))) as [-> _].
    cbn [flat_map]. rewrite parse_piece, IH. reflexivity.
Qed.

(** X24: whatever bytes the parameter values hold (ampersands, equals signs,
    line breaks, accents), the receiver of the request that [chatguruRequest]
    posts reads the four identity parameters first, in the query string, with
    their exact values, and the parameters that are not null or undefined
    after them in the query string, or in the body, as [paramsInUrl] says, in
    their order and with their exact values; the other place holds none. *)
Theorem request_is_read_back :
  forall (API_KEY ACCOUNT_ID PHONE_ID action : string)
         (params : list (string * option string)) (paramsInUrl : bool),
    let sent := Form.request API_KEY ACCOUNT_ID PHONE_ID action params paramsInUrl in
    let identity := [("key", API_KEY); ("account_id", ACCOUNT_ID);
                     ("phone_id", PHONE_ID); ("action", action)] in
    Form.parse (fst sent)
      = (identity ++ if paramsInUrl then Form.defined params else [])%list
    /\ Form.parse (snd sent) = (if paramsInUrl then [] else Form.defined params).
Proof.
  intros API_KEY ACCOUNT_ID PHONE_ID action params paramsInUrl sent identity.
  subst sent. unfold Form.request.
  destruct paramsInUrl; cbn [fst snd]; rewrite ?parse_serialize.
  - split; reflexivity.
  - split; [now rewrite app_nil_r | reflexivity].
Qed.

Lemma request_parts (API_KEY ACCOUNT_ID PHONE_ID action : string)
      (params : list (string * option string)) :
  Form.parse (fst (Form.request API_KEY ACCOUNT_ID PHONE_ID action params false))
    = [("key", API_KEY); ("account_id", ACCOUNT_ID); ("phone_id", PHONE_ID);
       ("action", action)]
  /\ Form.parse (snd (Form.request API_KEY ACCOUNT_ID PHONE_ID action params false))
     = Form.defined params.
Proof.
  unfold Form.request. cbn [fst snd]. now rewrite !parse_serialize.
Qed.

(** ** The tools that update a chat *)

Lemma call_is_contained (API_KEY ACCOUNT_ID PHONE_ID : string)
      (platform : string * string -> nat -> Request.fetched)
      (action : string) (params : list (string * option string)) (text : string) :
  let r := Tools.call API_KEY ACCOUNT_ID PHONE_ID platform action params in
  Form.parse (fst (fst r))
    = [("key", API_KEY); ("account_id", ACCOUNT_ID); ("phone_id", PHONE_ID);
       ("action", action)]
  /\ Form.parse (snd (fst r)) = Form.defined params
  /\ 1 <= List.length (Request.fetches (fst (snd r))) <= 3
  /\ (Tools.andThen r text = Tools.Reply text
      <-> exists v, snd (snd r) = Request.Fulfilled v)
  /\ (forall e, snd (snd r) = Request.Rejected e -> Tools.andThen r text = Tools.Throws e).
Proof.
  cbv zeta. unfold Tools.call. cbn [fst snd].
  destruct (request_parts API_KEY ACCOUNT_ID PHONE_ID action params) as [Hq Hb].
  split; [exact Hq | split; [exact Hb |]].
  set (sent := Form.request API_KEY ACCOUNT_ID PHONE_ID action params false).
  destruct (attempts_trace (platform sent) 3 3 1 ltac:(lia) eq_refl) as [m [Hm Htrace]].
  unfold Request.chatguruRequest. rewrite Htrace, fetches_app, fetches_retried.
  cbn [Request.fetches flat_map app]. rewrite length_app, length_seq. cbn [List.length].
  split; [lia |].
  unfold Tools.andThen. cbn [snd].
  destruct (snd (Request.attempts (platform sent) 3 3 1)) as [v | e].
  - split; [split; eauto | discriminate].
  - split; [split; [discriminate | intros [v H]; discriminate] |].
    intros e' H. now injection H as <-.
Qed.

(** X25: [chatguru_update_chat_name], [chatguru_update_context],
    [chatguru_add_note] and [chatguru_execute_dialog] post, in the body, the
    normalized form of the number they were given and their text exactly as
    given, and in the query string the four identity parameters with their
    action; they fetch at most three times; they answer with their
    confirmation, which names the normalized number, exactly when the request
    was fulfilled, and let the error of the request escape otherwise. *)
Theorem update_tools_post_the_normalized_number :
  forall (API_KEY ACCOUNT_ID PHONE_ID : string)
         (platform : string * string -> nat -> Request.fetched)
         (chat_number name context note_text dialog_id : string),
    let number := normalizePhone chat_number in
    let contained (result : Tools.run * Tools.answer)
                  (action : string) (second : string * string) (text : string) :=
      Form.parse (fst (fst (fst result)))
        = [("key", API_KEY); ("account_id", ACCOUNT_ID); ("phone_id", PHONE_ID);
           ("action", action)]
      /\ Form.parse (snd (fst (fst result))) = [("chat_number", number); second]
      /\ 1 <= List.length (Request.fetches (fst (snd (fst result)))) <= 3
      /\ (snd result = Tools.Reply text
          <-> exists v, snd (snd (fst result)) = Request.Fulfilled v)
      /\ (forall e, snd (snd (fst result)) = Request.Rejected e ->
            snd result = Tools.Throws e) in
    contained (Tools.chatguru_update_chat_name API_KEY ACCOUNT_ID PHONE_ID platform
                 chat_number name)
              "chat_update_name" ("name", name)
              ("Nome do chat " ++ number ++ " atualizado para "
                 ++ ListChats.quoted name ++ ".")
    /\ contained (Tools.chatguru_update_context API_KEY ACCOUNT_ID PHONE_ID platform
                    chat_number context)
                 "chat_update_context" ("context", context)
                 ("Contexto do chat " ++ number ++ " atualizado.")
    /\ contained (Tools.chatguru_add_note API_KEY ACCOUNT_ID PHONE_ID platform
                    chat_number note_text)
                 "note_add" ("note_text", note_text)
                 ("Nota adicionada ao chat " ++ number ++ ".")
    /\ contained (Tools.chatguru_execute_dialog API_KEY ACCOUNT_ID PHONE_ID platform
                    chat_number dialog_id)
                 "dialog_execute" ("dialog_id", dialog_id)
                 ("Diálogo " ++ dialog_id ++ " executado no chat " ++ number ++ ".").
Proof.
  intros API_KEY ACCOUNT_ID PHONE_ID platform chat_number name context note_text
         dialog_id number contained.
  unfold contained, Tools.chatguru_update_chat_name, Tools.chatguru_update_context,
    Tools.chatguru_add_note, Tools.chatguru_execute_dialog.
  cbv zeta. cbn [fst snd]. fold number.
  repeat split;
    match goal with
    | |- context [Tools.andThen
                    (Tools.call _ _ _ _ ?action ?params) ?text] =>
        pose proof (call_is_contained API_KEY ACCOUNT_ID PHONE_ID platform
                      action params text) as H
    | |- context [Tools.call _ _ _ _ ?action ?params] =>
        pose proof (call_is_contained API_KEY ACCOUNT_ID PHONE_ID platform
                      action params "") as H
    end;
    cbv zeta in H; destruct H as [H1 [H2 [[H3 H4] [[H5 H6] H7]]]];
    assumption.
Qed.

(** ** The URLs the tools open *)

Lemma append_assoc_local (a b c : string) : (a ++ b) ++ c = a ++ b ++ c.
Proof. induction a as [|x a IH]; simpl; congruence. Qed.

Lemma prefix_mismatch (n0 c : ascii) (needle rest : string) :
  Ascii.eqb n0 c = false -> String.prefix (String n0 needle) (String c rest) = false.
Proof.
  intros H. simpl. destruct (ascii_dec n0 c) as [-> | _]; [| reflexivity].
  rewrite Ascii.eqb_refl in H. discriminate.
Qed.

Lemma includes_skip (p : ascii -> bool) (n0 : ascii) (needle : string) :
  (forall c, p c = true -> Ascii.eqb n0 c = false) ->
  forall run rest,
    Measure.every p run = true ->
    Js.includes (run ++ rest) (String n0 needle) = Js.includes rest (String n0 needle).
Proof.
  intros Hp run rest. induction run as [|c run IH]; intros H; [reflexivity |].
  simpl in H. apply andb_true_iff in H as [Hc H].
  cbn [String.append Js.includes].
  now rewrite (prefix_mismatch _ _ _ _ (Hp c Hc)), (IH H).
Qed.

Lemma endsWith_skip (p : ascii -> bool) (e : ascii) :
  (forall c, p c = true -> Ascii.eqb c e = false) ->
  forall run rest,
    Measure.every p run = true ->
    Js.endsWith (run ++ rest) (String e "") = Js.endsWith rest (String e "").
Proof.
  intros Hp run rest. induction run as [|c run IH]; intros H; [reflexivity |].
  simpl in H. apply andb_true_iff in H as [Hc H].
  cbn [String.append Js.endsWith]. rewrite (IH H).
  cbn [String.eqb]. now rewrite (Hp c Hc).
Qed.

Lemma digit_is_hex (c : ascii) : Js.isDigit c = true -> GetChatLink.isHex c = true.
Proof.
  unfold Js.isDigit, GetChatLink.isHex. cbv zeta. intros ->. reflexivity.
Qed.

Lemma hex_is_not (n0 c : ascii) :
  GetChatLink.isHex n0 = false -> GetChatLink.isHex c = true -> Ascii.eqb n0 c = false.
Proof.
  intros Hn Hc. destruct (Ascii.eqb_spec n0 c) as [-> |]; [congruence | reflexivity].
Qed.

Lemma every_weaken (p q : ascii -> bool) (s : string) :
  (forall c, p c = true -> q c = true) ->
  Measure.every p s = true -> Measure.every q s = true.
Proof.
  intros Hpq. induction s as [|c s IH]; [reflexivity |].
  simpl. intros H. apply andb_true_iff in H as [Hc H].
  now rewrite (Hpq c Hc), (IH H).
Qed.

Lemma includes_none (p : ascii -> bool) (n0 : ascii) (needle run : string) :
  (forall c, p c = true -> Ascii.eqb n0 c = false) ->
  Measure.every p run = true ->
  Js.includes run (String n0 needle) = false.
Proof.
  intros Hp H. rewrite <- (append_nil_r_local run).
  now rewrite (includes_skip p n0 needle Hp run "" H).
Qed.

Ltac digit_cases d H :=
  destruct d as [b0 b1 b2 b3 b4 b5 b6 b7];
  destruct b0, b1, b2, b3, b4, b5, b6, b7;
  try (vm_compute in H; discriminate).

(** X26: with a server number made of digits and a chat identifier made of
    hexadecimal characters, neither the chat list URL nor the chat URL that
    the tools open is taken for a login page; so a session is never reported
    as expired while the page stays where the tool sent it. *)
Theorem own_urls_are_not_login_pages :
  forall server chat_id : string,
    Measure.every Js.isDigit server = true ->
    Measure.every GetChatLink.isHex chat_id = true ->
    isLoginPage (Browser.panelUrl server) = false
    /\ isLoginPage (ReadMessages.chatUrl server chat_id) = false.
Proof.
  intros server chat_id Hs Hc.
  assert (Hl : forall c, Js.isDigit c = true -> Ascii.eqb "l" c = false)
    by (intros c H; apply hex_is_not; [reflexivity | now apply digit_is_hex]).
  assert (Hg : forall c, Js.isDigit c = true -> Ascii.eqb "s" c = false)
    by (intros c H; apply hex_is_not; [reflexivity | now apply digit_is_hex]).
  assert (Hslash : forall c, Js.isDigit c = true -> Ascii.eqb c "/" = false).
  { intros c H. rewrite Ascii.eqb_sym. apply hex_is_not; [reflexivity |].
    now apply digit_is_hex. }
  assert (Hxl : forall c, GetChatLink.isHex c = true -> Ascii.eqb "l" c = false)
    by (intros c H; now apply hex_is_not).
  assert (Hxs : forall c, GetChatLink.isHex c = true -> Ascii.eqb "s" c = false)
    by (intros c H; now apply hex_is_not).
  assert (Hxslash : forall c, GetChatLink.isHex c = true -> Ascii.eqb c "/" = false).
  { intros c H. rewrite Ascii.eqb_sym. now apply hex_is_not. }
  unfold isLoginPage, ReadMessages.chatUrl, Browser.panelUrl.
  rewrite !append_assoc_local.
  destruct server as [|d server].
  - split.
    + reflexivity.
    + cbn. rewrite (includes_none _ "l" "ogin" chat_id Hxl Hc).
      rewrite (includes_none _ "s" "ignin" chat_id Hxs Hc).
      rewrite <- (append_nil_r_local chat_id).
      rewrite (endsWith_skip _ "/" Hxslash chat_id "" Hc). reflexivity.
  - simpl in Hs. apply andb_true_iff in Hs as [Hd Hs].
    split.
    + digit_cases d Hd; cbn;
        rewrite (includes_skip _ "l" "ogin" Hl server _ Hs),
                (includes_skip _ "s" "ignin" Hg server _ Hs),
                (endsWith_skip _ "/" Hslash server _ Hs); reflexivity.
    + digit_cases d Hd; cbn;
        rewrite (includes_skip _ "l" "ogin" Hl server _ Hs),
                (includes_skip _ "s" "ignin" Hg server _ Hs),
                (endsWith_skip _ "/" Hslash server _ Hs); cbn;
        rewrite (includes_none _ "l" "ogin" chat_id Hxl Hc),
                (includes_none _ "s" "ignin" chat_id Hxs Hc);
        rewrite <- (append_nil_r_local chat_id);
        rewrite (endsWith_skip _ "/" Hxslash chat_id "" Hc); reflexivity.
Qed.

(** Server 17 and the identifier of the documentation. *)
Lemma own_urls_of_server_17 :
  isLoginPage (Browser.panelUrl "17") = false
  /\ isLoginPage (ReadMessages.chatUrl "17" "686ede5b2333cb755c57d1a5") = false.
Proof.
  exact (own_urls_are_not_login_pages "17" "686ede5b2333cb755c57d1a5" eq_refl eq_refl).
Defined.
